(** * Watermark tool: a shallow embedding of [skills/watermark/watermark.py]

    The development follows the layout of the Python module:

    - [Str] and [PosixPath]: the string and [os.path] operations the module
      calls ([str.lower], [str.startswith], [str.replace], [splitext],
      [basename], [join], [normpath], ...), written after CPython's
      [posixpath];
    - [Pdf], [Docx], [Xlsx]: the document objects of PyPDF2 / reportlab,
      python-docx and openpyxl, reduced to the attributes the handlers
      touch;
    - [OS] and [Sys]: the world a call runs in (file store, current
      directory, standard output), a result type with the exceptions that
      can be raised, and the system calls with their POSIX meaning;
    - in section [Watermark]: [create_watermark_pdf], the three handlers,
      [process_file], [process_directory] and [main], parameterised by the
      module-level flags; then the vocabulary of the properties, the lemmas
      and the theorems: first those of the specification's claims, then
      further properties of the handlers, of [process_file], of
      [process_directory] and of [main];
    - in section [Runs]: the directory walk on an example tree, and the
      inputs on which the code leaves the specification;
    - [Witnesses]: the theorems applied to concrete inputs.

    Python code that mutates objects or the file system is written in a
    state-and-exception monad [M]; a [return] in the middle of a function is
    a branch that ends the computation. *)

From Stdlib Require Import Ascii String QArith.
From stdpp Require Import gmap strings list fin_maps pretty.

(** ** Python strings *)

Module Str.

(** Strings are byte strings; [str.lower] is modelled on ASCII letters,
    which is all the comparisons with [".pdf"], [".docx"], [".xlsx"] look
    at. *)
Definition lower_ascii (c : ascii) : ascii :=
  let n := nat_of_ascii c in
  if (65 <=? n)%nat && (n <=? 90)%nat then ascii_of_nat (n + 32) else c.

Fixpoint lower (s : string) : string :=
  match s with
  | EmptyString => EmptyString
  | String c s' => String (lower_ascii c) (lower s')
  end.

Fixpoint startswith (s pre : string) {struct pre} : bool :=
  match pre with
  | EmptyString => true
  | String b pre' =>
      match s with
      | EmptyString => false
      | String a s' => Ascii.eqb a b && startswith s' pre'
      end
  end.

Fixpoint endswith_char (s : string) (c : ascii) : bool :=
  match s with
  | EmptyString => false
  | String a EmptyString => Ascii.eqb a c
  | String _ s' => endswith_char s' c
  end.

(** [s\[:n\]] and [s\[n:\]] for [0 <= n]. *)
Fixpoint slice_to (n : nat) (s : string) : string :=
  match n, s with
  | S n', String c s' => String c (slice_to n' s')
  | _, _ => EmptyString
  end.

Fixpoint slice_from (n : nat) (s : string) : string :=
  match n, s with
  | S n', String _ s' => slice_from n' s'
  | _, _ => s
  end.

(** [s.rfind(c)] for a one-character [c]: the highest index, or [-1]. *)
Fixpoint rfind_from (c : ascii) (s : string) (i acc : Z) : Z :=
  match s with
  | EmptyString => acc
  | String a s' => rfind_from c s' (i + 1) (if Ascii.eqb a c then i else acc)
  end.

Definition rfind (s : string) (c : ascii) : Z := rfind_from c s 0 (-1).

(** [s.split(c)] for a one-character separator. *)
Fixpoint split (c : ascii) (s : string) : list string :=
  match s with
  | EmptyString => [EmptyString]
  | String a s' =>
      if Ascii.eqb a c then EmptyString :: split c s'
      else match split c s' with
           | w :: ws => String a w :: ws
           | [] => [String a EmptyString]
           end
  end.

(** [s.rstrip(c)] for a one-character [c]. *)
Fixpoint rstrip (c : ascii) (s : string) : string :=
  match s with
  | EmptyString => EmptyString
  | String a s' =>
      match rstrip c s' with
      | EmptyString => if Ascii.eqb a c then EmptyString else String a EmptyString
      | r => String a r
      end
  end.

Fixpoint all_char (c : ascii) (s : string) : bool :=
  match s with
  | EmptyString => true
  | String a s' => Ascii.eqb a c && all_char c s'
  end.

(** [s.replace(old, new)]: every non-overlapping occurrence of [old],
    scanning from the left.  [old] is non-empty at the one call site. *)
Fixpoint replace_fuel (fuel : nat) (old new s : string) : string :=
  match fuel with
  | O => s
  | S fuel' =>
      match s with
      | EmptyString => EmptyString
      | String c s' =>
          if startswith s old
          then new +:+ replace_fuel fuel' old new (slice_from (String.length old) s)
          else String c (replace_fuel fuel' old new s')
      end
  end.

Definition replace (s old new : string) : string :=
  replace_fuel (String.length s) old new s.

(** [old in s]. *)
Fixpoint occurs (old s : string) : bool :=
  match s with
  | EmptyString => startswith s old
  | String _ s' => startswith s old || occurs old s'
  end.

(** Whether [c] occurs in [s]. *)
Fixpoint has (c : ascii) (s : string) : bool :=
  match s with
  | EmptyString => false
  | String a s' => Ascii.eqb a c || has c s'
  end.

(** Python's truth value of a string. *)
Definition truthy (s : string) : bool :=
  match s with EmptyString => false | _ => true end.

(** The string ["\n"]. *)
Definition newline : string := String (ascii_of_nat 10) EmptyString.

End Str.

(** ** [os.path] on POSIX *)

Module PosixPath.
Import Str.

Definition sep : ascii := "/"%char.
Definition extsep : ascii := "."%char.
Definition curdir : string := ".".
Definition pardir : string := "..".

Definition isabs (p : string) : bool := startswith p "/".

(** [genericpath._splitext]: the extension starts at the last dot of the
    last component, unless only dots precede it there. *)
Definition splitext (p : string) : string * string :=
  let sepIndex := rfind p sep in
  let dotIndex := rfind p extsep in
  if (sepIndex <? dotIndex)%Z then
    let filenameIndex := Z.to_nat (sepIndex + 1) in
    let leading := slice_to (Z.to_nat dotIndex - filenameIndex) (slice_from filenameIndex p) in
    if all_char extsep leading then (p, EmptyString)
    else (slice_to (Z.to_nat dotIndex) p, slice_from (Z.to_nat dotIndex) p)
  else (p, EmptyString).

Definition basename (p : string) : string :=
  slice_from (Z.to_nat (rfind p sep + 1)) p.

Definition split (p : string) : string * string :=
  let i := Z.to_nat (rfind p sep + 1) in
  let head := slice_to i p in
  let tail := slice_from i p in
  let head := if truthy head && negb (all_char sep head)
              then rstrip sep head else head in
  (head, tail).

Definition dirname (p : string) : string := fst (split p).

(** [os.path.join(a, b)]. *)
Definition join (a b : string) : string :=
  if startswith b "/" then b
  else if negb (truthy a) || endswith_char a sep then a +:+ b
  else a +:+ "/" +:+ b.

(** [os.path.join( *l )] for a non-empty list. *)
Definition join_list (l : list string) : string :=
  match l with
  | [] => EmptyString
  | a :: l' => foldl join a l'
  end.

Definition str_join (l : list string) : string :=
  match l with
  | [] => EmptyString
  | a :: l' => foldl (fun acc x => acc +:+ "/" +:+ x) a l'
  end.

Definition last_is_pardir (l : list string) : bool :=
  match last l with
  | Some c => String.eqb c pardir
  | None => false
  end.

Definition normpath (path : string) : string :=
  if negb (truthy path) then curdir
  else
    let initial_slashes : nat :=
      if startswith path "/" then
        if startswith path "//" && negb (startswith path "///") then 2 else 1
      else 0 in
    let step (new_comps : list string) (comp : string) : list string :=
      if String.eqb comp EmptyString || String.eqb comp curdir then new_comps
      else if negb (String.eqb comp pardir)
              || (Nat.eqb initial_slashes 0 && bool_decide (new_comps = []))
              || last_is_pardir new_comps
      then new_comps ++ [comp]
      else removelast new_comps in
    let comps := foldl step [] (Str.split sep path) in
    let path := str_join comps in
    let path := String.concat EmptyString (replicate initial_slashes "/") +:+ path in
    if truthy path then path else curdir.

Fixpoint commonprefix_len (l1 l2 : list string) : nat :=
  match l1, l2 with
  | a :: l1', b :: l2' => if String.eqb a b then S (commonprefix_len l1' l2') else O
  | _, _ => O
  end.

End PosixPath.

(** ** Documents

    The three document libraries are outside the repository.  Their objects
    are modelled by the attributes the handlers read and write plus an
    opaque remainder, so that "everything else is unchanged" can be stated.
    Python floats are modelled by exact rationals: rounding is not
    modelled. *)

Module Pdf.

(** The reportlab canvas calls the module issues. *)
Inductive canvas_op : Type :=
| SetFillColorRGB (r g b alpha : Q)
| SetFont (psfontname : string) (size : Q)
| SaveState
| RestoreState
| Translate (dx dy : Q)
| Rotate (theta : Q)
| DrawCentredString (x y : Q) (text : string).

(** A content stream: what the input file already had, or what a canvas
    drew. *)
Inductive stream : Type :=
| Original (data : string)
| Drawn (code : list canvas_op).

Record page : Type := Page {
  mediabox_width : Q;
  mediabox_height : Q;
  contents : list stream
}.

Abbreviation document := (list page).

(** [canvas.Canvas(packet, pagesize=...)]: the page size and the
    operations recorded so far. *)
Record canvas : Type := Canvas {
  pagesize : Q * Q;
  code : list canvas_op
}.

Definition new_canvas (pagesize : Q * Q) : canvas := Canvas pagesize [].

Definition emit (op : canvas_op) (c : canvas) : canvas :=
  Canvas (pagesize c) (code c ++ [op]).

(** [c.save()] then [PdfReader(packet)]: a one-page document of the
    canvas's size holding what was drawn. *)
Definition save (c : canvas) : document :=
  [Page (fst (pagesize c)) (snd (pagesize c)) [Drawn (code c)]].

(** [page.merge_page(page2)]: the content of [page2] is drawn over the
    content of [page]; the page keeps its own box. *)
Definition merge_page (pg page2 : page) : page :=
  Page (mediabox_width pg) (mediabox_height pg) (contents pg ++ contents page2).

(** What a sequence of canvas calls puts on the page.  The graphics state
    holds the fill colour with its opacity, the font, and the
    transformations applied since the start; [SaveState] and
    [RestoreState] push and pop it.  A mark is one string, with the state
    it was drawn in. *)
Record gstate : Type := GState {
  fill : Q * Q * Q * Q;
  font : string * Q;
  ctm : list canvas_op
}.

Record mark : Type := Mark {
  mark_text : string;
  mark_at : Q * Q;
  mark_ctm : list canvas_op;
  mark_fill : Q * Q * Q * Q;
  mark_font : string * Q
}.

Definition initial_gstate : gstate := GState (0%Q, 0%Q, 0%Q, 1%Q) ("Helvetica", 12%Q) [].

Fixpoint render (ops : list canvas_op) (g : gstate) (stack : list gstate)
    : list mark :=
  match ops with
  | [] => []
  | SetFillColorRGB r gr b alpha :: ops' =>
      render ops' (GState (r, gr, b, alpha) (font g) (ctm g)) stack
  | SetFont name sz :: ops' =>
      render ops' (GState (fill g) (name, sz) (ctm g)) stack
  | SaveState :: ops' => render ops' g (g :: stack)
  | RestoreState :: ops' =>
      match stack with
      | g' :: stack' => render ops' g' stack'
      | [] => render ops' g []
      end
  | Translate dx dy :: ops' =>
      render ops' (GState (fill g) (font g) (ctm g ++ [Translate dx dy])) stack
  | Rotate theta :: ops' =>
      render ops' (GState (fill g) (font g) (ctm g ++ [Rotate theta])) stack
  | DrawCentredString x y text :: ops' =>
      Mark text (x, y) (ctm g) (fill g) (font g) :: render ops' g stack
  end.

Definition marks (ops : list canvas_op) : list mark :=
  render ops initial_gstate [].

End Pdf.

Module Docx.

Record run : Type := Run {
  run_text : string;
  font_size : option Z;               (* in EMU, as python-docx's Length *)
  font_color_rgb : option (Z * Z * Z)
}.

Record paragraph : Type := Paragraph {
  runs : list run;
  alignment : option Z
}.

(** Block items of a story: paragraphs, and tables kept opaque. *)
Inductive block : Type :=
| Para (p : paragraph)
| Tbl (data : string).

(** A section with its header.  A section has a header definition of its
    own, or none: its header is then linked to the previous section, and
    python-docx takes [section.header] to be the header that section uses;
    for a first section without a definition it adds one to the document.
    Several sections can so share one header, paragraphs included.  A
    header definition is taken to be referred to by one section only, as
    Word and python-docx write documents. *)
Record section : Type := Section_ {
  header : option (list block);
  section_properties : string
}.

Record document : Type := Document {
  body : list block;
  sections : list section
}.

Definition Pt (points : Z) : Z := (points * 12700)%Z.

Definition RGBColor (r g b : Z) : Z * Z * Z := (r, g, b).

(** The run [p.add_run(text)] creates, before any styling. *)
Definition new_run (text : string) : run := Run text None None.

Definition set_font_size (sz : Z) (r : run) : run :=
  Run (run_text r) (Some sz) (font_color_rgb r).

Definition set_font_color_rgb (c : Z * Z * Z) (r : run) : run :=
  Run (run_text r) (font_size r) (Some c).

End Docx.

Module Xlsx.

(** One of the three parts of a page header, and a page header.  openpyxl
    keeps the parts apart in memory and writes a header as one string, in
    which [&L], [&C] and [&R] open the left, centre and right part and
    [&] opens a format code; it takes the string apart again when the
    workbook is loaded.  A file is modelled by the parts it was saved
    with: these are the parts openpyxl loads from it as long as no text
    is empty or holds [&], a double quote or a control character. *)
Record header_part : Type := HeaderPart {
  text : option string;
  font : option string;
  size : option Z;
  color : option string
}.

Record header_item : Type := HeaderItem {
  left : header_part;
  center : header_part;
  right : header_part
}.

Record worksheet : Type := Worksheet {
  title : string;
  cells : list (string * string);
  oddHeader : header_item;
  evenHeader : header_item
}.

Abbreviation workbook := (list worksheet).

(** The file names [load_workbook] takes: it looks at the extension of the
    name, lower-cased, before it opens the file. *)
Definition SUPPORTED_FORMATS : list string := [".xlsx"; ".xlsm"; ".xltx"; ".xltm"].

Definition set_text (t : string) (p : header_part) : header_part :=
  HeaderPart (Some t) (font p) (size p) (color p).

Definition set_size (n : Z) (p : header_part) : header_part :=
  HeaderPart (text p) (font p) (Some n) (color p).

Definition set_color (c : string) (p : header_part) : header_part :=
  HeaderPart (text p) (font p) (size p) (Some c).

Definition set_center (f : header_part -> header_part) (h : header_item)
    : header_item :=
  HeaderItem (left h) (f (center h)) (right h).

End Xlsx.

(** ** The operating system

    The file store, the current directory and what was printed make up the
    world a call runs in.  The store knows regular files and directories;
    the calls have their POSIX meaning (in particular [os.rename] replaces
    an existing regular file).  Permissions, symbolic links and disk space
    are not modelled. *)

Module OS.
Import Str PosixPath.

(** What a regular file holds: a document one of the libraries can load,
    or bytes none of them can. *)
Inductive content : Type :=
| PdfFile (d : Pdf.document)
| DocxFile (d : Docx.document)
| XlsxFile (d : Xlsx.workbook)
| Bytes (data : string).

Inductive node : Type :=
| File (c : content)
| Dir.

Inductive exn : Type :=
| FileNotFoundError
| FileExistsError
| IsADirectoryError
| NotADirectoryError
| OSError (msg : string)
| ValueError (msg : string)
| BadDocument (msg : string)
| InvalidFileException (msg : string)
| IndexError
| SystemExit (code : Z).

(** [except Exception] catches everything here but [SystemExit]. *)
Definition is_Exception (e : exn) : bool :=
  match e with SystemExit _ => false | _ => true end.

(** [str(e)], as the handlers print it.  The file name Python appends to
    the message of an OS error is left out, and the messages of the
    document libraries stand for whatever the library says of a file it
    cannot load. *)
Definition str_exn (e : exn) : string :=
  match e with
  | FileNotFoundError => "[Errno 2] No such file or directory"
  | FileExistsError => "[Errno 17] File exists"
  | IsADirectoryError => "[Errno 21] Is a directory"
  | NotADirectoryError => "[Errno 20] Not a directory"
  | OSError msg => msg
  | ValueError msg => msg
  | BadDocument msg => msg
  | InvalidFileException msg => msg
  | IndexError => "list index out of range"
  | SystemExit _ => ""
  end.

(** The file store maps the components of an absolute path to a node.  The
    root is always a directory.  Paths are resolved lexically against the
    current directory (no symbolic links). *)
Record world : Type := World {
  cwd : string;
  fs : gmap (list string) node;
  stdout : list string
}.

Definition resolve_step (stack : list string) (comp : string) : list string :=
  if String.eqb comp "" || String.eqb comp curdir then stack
  else if String.eqb comp pardir then removelast stack
  else stack ++ [comp].

Definition resolve (cwd p : string) : list string :=
  let full := if isabs p then p else cwd +:+ "/" +:+ p in
  foldl resolve_step [] (Str.split sep full).

Definition key (w : world) (p : string) : list string := resolve (cwd w) p.

Definition lookup_key (w : world) (k : list string) : option node :=
  match k with
  | [] => Some Dir
  | _ => fs w !! k
  end.

(** The node a path names; the empty path names nothing. *)
Definition stat (w : world) (p : string) : option node :=
  if truthy p then lookup_key w (key w p) else None.

Definition set_fs (w : world) (m : gmap (list string) node) : world :=
  World (cwd w) m (stdout w).

(** *** Results and exceptions *)

Inductive result (A : Type) : Type :=
| Ok (a : A) (w : world)
| Raise (e : exn) (w : world).
Arguments Ok {A} a w.
Arguments Raise {A} e w.

Definition M (A : Type) : Type := world -> result A.

Definition ret {A} (a : A) : M A := fun w => Ok a w.

Definition raise {A} (e : exn) : M A := fun w => Raise e w.

Definition bind {A B} (m : M A) (f : A -> M B) : M B :=
  fun w => match m w with
           | Ok a w' => f a w'
           | Raise e w' => Raise e w'
           end.

(** [try: body except Exception as e: handler(e)]. *)
Definition try_except {A} (body : M A) (handler : exn -> M A) : M A :=
  fun w => match body w with
           | Ok a w' => Ok a w'
           | Raise e w' => if is_Exception e then handler e w' else Raise e w'
           end.

Definition print (line : string) : M unit :=
  fun w => Ok tt (World (cwd w) (fs w) (stdout w ++ [line])).

End OS.

Notation "x <- m ;; k" := (OS.bind m (fun x => k))
  (at level 100, m at next level, right associativity).
Notation "m ;; k" := (OS.bind m (fun _ => k))
  (at level 100, right associativity).

(** *** System calls *)

Module Sys.
Import Str PosixPath OS.

Definition os_getcwd : M string := fun w => Ok (cwd w) w.

Definition os_path_exists (p : string) : M bool :=
  fun w => Ok (bool_decide (is_Some (stat w p))) w.

Definition os_path_isfile (p : string) : M bool :=
  fun w => Ok (match stat w p with Some (File _) => true | _ => false end) w.

(** A new entry needs a name under an existing directory. *)
Definition check_parent (w : world) (p : string) : option exn :=
  if negb (truthy p) then Some FileNotFoundError
  else match key w p with
       | [] => Some (OSError "[Errno 16] Device or resource busy")
       | k => match lookup_key w (removelast k) with
              | Some Dir => None
              | Some (File _) => Some NotADirectoryError
              | None => Some FileNotFoundError
              end
       end.

Definition is_prefix (k1 k2 : list string) : bool :=
  bool_decide (take (length k1) k2 = k1).

(** Move a directory and everything below it. *)
Definition rekey (src dst : list string)
    (m : gmap (list string) node) : gmap (list string) node :=
  list_to_map
    (map (fun kv : list string * node =>
            if is_prefix src kv.1 then (dst ++ drop (length src) kv.1, kv.2) else kv)
         (map_to_list m)).

Definition has_children (k : list string) (m : gmap (list string) node) : bool :=
  existsb (fun kv : list string * node =>
             is_prefix k kv.1 && negb (bool_decide (kv.1 = k)))
          (map_to_list m).

(** [os.rename(src, dst)] on POSIX: an existing regular file at [dst] is
    replaced. *)
Definition os_rename (src dst : string) : M unit :=
  fun w =>
    match stat w src with
    | None => Raise FileNotFoundError w
    | Some (File c) =>
        match check_parent w dst with
        | Some e => Raise e w
        | None =>
            match stat w dst with
            | Some Dir => Raise IsADirectoryError w
            | _ => Ok tt (set_fs w (<[key w dst := File c]> (delete (key w src) (fs w))))
            end
        end
    | Some Dir =>
        match check_parent w dst with
        | Some e => Raise e w
        | None =>
            match stat w dst with
            | Some (File _) => Raise NotADirectoryError w
            | Some Dir =>
                if bool_decide (key w src = key w dst) then Ok tt w
                else if has_children (key w dst) (fs w)
                then Raise (OSError "[Errno 39] Directory not empty") w
                else if is_prefix (key w src) (key w dst)
                then Raise (OSError "[Errno 22] Invalid argument") w
                else Ok tt (set_fs w (rekey (key w src) (key w dst) (fs w)))
            | None =>
                if is_prefix (key w src) (key w dst)
                then Raise (OSError "[Errno 22] Invalid argument") w
                else Ok tt (set_fs w (rekey (key w src) (key w dst) (fs w)))
            end
        end
    end.

Definition os_remove (p : string) : M unit :=
  fun w =>
    match stat w p with
    | None => Raise FileNotFoundError w
    | Some Dir => Raise IsADirectoryError w
    | Some (File _) => Ok tt (set_fs w (delete (key w p) (fs w)))
    end.

(** The non-empty prefixes of a key, shortest first: the directories on
    the way to an entry, then the entry. *)
Definition ancestors_and_self (k : list string) : list (list string) :=
  map (fun n => take n k) (seq 1 (length k)).

Definition is_file_at (w : world) (k : list string) : bool :=
  match lookup_key w k with
  | Some (File _) => true
  | _ => false
  end.

(** [os.makedirs(name, exist_ok=exist_ok)]: the directory and every missing
    directory on the way to it are created; a regular file in the way is an
    error, and so is an existing directory unless [exist_ok]. *)
Definition os_makedirs (name : string) (exist_ok : bool) : M unit :=
  fun w =>
    if negb (truthy name) then Raise FileNotFoundError w
    else
      let k := key w name in
      match lookup_key w k with
      | Some Dir => if exist_ok then Ok tt w else Raise FileExistsError w
      | Some (File _) => Raise FileExistsError w
      | None =>
          if existsb (is_file_at w) (ancestors_and_self k)
          then Raise NotADirectoryError w
          else Ok tt (set_fs w (foldr (fun a m => <[a := Dir]> m) (fs w)
                                      (ancestors_and_self k)))
      end.

(** Opening a path for reading and loading what it holds. *)
Definition read_file (p : string) : M content :=
  fun w =>
    match stat w p with
    | None => Raise FileNotFoundError w
    | Some Dir => Raise IsADirectoryError w
    | Some (File c) => Ok c w
    end.

(** Opening a path for writing (["wb"]) and storing [c] there.  Opening
    creates the file or empties it, and the library then writes into it; in
    the model a library that could open the file writes all of [c].  A
    write that breaks off after the file was opened (a full disk, a document
    the library fails to serialise) leaves a truncated file at [p]: this is
    outside the model, in which a handler that fails has stored nothing.
    The theorems on the handlers, on [process_file] and on the directory
    loop say that a failed handler left its output path as it was only
    where the failure comes before the output is opened (a missing
    library, an input that is missing or cannot be loaded), or where the
    clean-up of [overwrite] puts the original back over the output. *)
Definition write_file (p : string) (c : content) : M unit :=
  fun w =>
    match check_parent w p with
    | Some e => Raise e w
    | None =>
        match stat w p with
        | Some Dir => Raise IsADirectoryError w
        | _ => Ok tt (set_fs w (<[key w p := File c]> (fs w)))
        end
    end.

(** [os.path.abspath] and [os.path.relpath]. *)
Definition abspath (p : string) : M string :=
  if isabs p then ret (normpath p)
  else (d <- os_getcwd ;; ret (normpath (join d p))).

Definition nonempty_components (p : string) : list string :=
  filter (fun x => truthy x = true) (Str.split sep p).

Definition relpath (p start : string) : M string :=
  if negb (truthy p) then raise (ValueError "no path specified")
  else
    a_start <- abspath start ;;
    a_path <- abspath p ;;
    let start_list := nonempty_components a_start in
    let path_list := nonempty_components a_path in
    let i := commonprefix_len start_list path_list in
    let rel_list := replicate (length start_list - i) pardir ++ drop i path_list in
    match rel_list with
    | [] => ret curdir
    | _ => ret (join_list rel_list)
    end.

End Sys.

(** ** The module *)

(** What [os.walk] reports for a directory: its subdirectories, each with
    what the walk reports below it, and the names of its other entries.  The
    listing is an input of its own, not derived from the file store when a
    file is processed: the two may disagree when the tree changes while it is
    being walked. *)
#[warnings="-register-all"]
Inductive dirtree : Type :=
| DirTree (dirs : list (string * dirtree)) (files : list string).

(** The [results] dictionary. *)
Record results : Type := Results {
  success : nat;
  failed : nat
}.

Record arguments : Type := Arguments_ {
  arg_path : option string;
  arg_text : string;
  arg_directory : option string;
  arg_output : option string;
  arg_overwrite : bool
}.

(** *** Example data *)

Module Fixtures.
Import OS.

Definition world_of (entries : list (list string * node)) : world :=
  World "/w" (list_to_map entries) [].

Definition letter : Pdf.document :=
  [Pdf.Page 612 792 [Pdf.Original "page one"];
   Pdf.Page 792 612 [Pdf.Original "page two"]].

Definition memo : Docx.document :=
  Docx.Document
    [Docx.Para (Docx.Paragraph [Docx.Run "Dear all," None None] None)]
    [Docx.Section_
       (Some [Docx.Para (Docx.Paragraph [Docx.Run "ACME" None None] None)])
       "portrait";
     Docx.Section_ (Some [Docx.Tbl "logo"]) "landscape"].

(** Three sections: the second has no header of its own and uses the
    header of the first; the third has its own. *)
Definition minutes : Docx.document :=
  Docx.Document
    [Docx.Para (Docx.Paragraph [Docx.Run "Minutes" None None] None)]
    [Docx.Section_
       (Some [Docx.Para (Docx.Paragraph [Docx.Run "ACME" None None] None)])
       "cover";
     Docx.Section_ None "text";
     Docx.Section_ (Some [Docx.Tbl "logo"]) "annex"].

(** A document as python-docx creates it: one section, no header yet. *)
Definition blank : Docx.document :=
  Docx.Document [] [Docx.Section_ None "portrait"].

(** A document without any section. *)
Definition sectionless : Docx.document :=
  Docx.Document
    [Docx.Para (Docx.Paragraph [Docx.Run "Dear all," None None] None)] [].

Definition ledger : Xlsx.workbook :=
  [Xlsx.Worksheet "Sheet1" [("A1", "42")]
     (Xlsx.HeaderItem (Xlsx.HeaderPart (Some "ACME") None None None)
        (Xlsx.HeaderPart None None None None)
        (Xlsx.HeaderPart (Some "2024") None None None))
     (Xlsx.HeaderItem (Xlsx.HeaderPart None None None None)
        (Xlsx.HeaderPart None None None None)
        (Xlsx.HeaderPart None None None None))].

(** [root/a.pdf], [root/b.docx], [root/c.txt], [root/.hidden.xlsx]. *)
Definition tree_world : world :=
  world_of
    [(["w"], Dir);
     (["w"; "root"], Dir);
     (["w"; "root"; "a.pdf"], File (PdfFile letter));
     (["w"; "root"; "b.docx"], File (DocxFile memo));
     (["w"; "root"; "c.txt"], File (Bytes "plain text"));
     (["w"; "root"; ".hidden.xlsx"], File (XlsxFile ledger))].

Definition tree_listing : dirtree :=
  DirTree [] ["a.pdf"; "b.docx"; "c.txt"; ".hidden.xlsx"].

(** The same tree with a regular file named [out] beside it. *)
Definition blocked_world : world :=
  world_of
    [(["w"], Dir);
     (["w"; "out"], File (Bytes "not a directory"));
     (["w"; "root"], Dir);
     (["w"; "root"; "a.pdf"], File (PdfFile letter));
     (["w"; "root"; "b.docx"], File (DocxFile memo))].

Definition blocked_listing : dirtree := DirTree [] ["a.pdf"; "b.docx"].

(** [a.pdf] was listed, then removed before its turn came. *)
Definition raced_world : world :=
  world_of
    [(["w"], Dir);
     (["w"; "root"], Dir);
     (["w"; "root"; "b.docx"], File (DocxFile memo))].

Definition notes_world : world :=
  world_of [(["w"], Dir); (["w"; "notes.txt"], File (Bytes "minutes"))].

(** A damaged PDF whose name contains [.tmp]. *)
Definition report_world : world :=
  world_of [(["w"], Dir); (["w"; "report.tmp.pdf"], File (Bytes "%PDF-1.4 trunc"))].

Definition plain_world : world :=
  world_of [(["w"], Dir); (["w"; "plain.docx"], File (DocxFile sectionless))].

Definition memo_world : world :=
  world_of [(["w"], Dir); (["w"; "memo.docx"], File (DocxFile memo))].

Definition minutes_world : world :=
  world_of [(["w"], Dir); (["w"; "minutes.docx"], File (DocxFile minutes))].

Definition letter_world : world :=
  world_of [(["w"], Dir); (["w"; "letter.pdf"], File (PdfFile letter))].

Definition ledger_world : world :=
  world_of [(["w"], Dir); (["w"; "ledger.xlsx"], File (XlsxFile ledger))].

(** [root/a.pdf] and [root/sub/deep.docx], seen from the root directory. *)
Definition nested_world : world :=
  World "/"
    (list_to_map
       [(["root"], Dir);
        (["root"; "a.pdf"], File (PdfFile letter));
        (["root"; "sub"], Dir);
        (["root"; "sub"; "deep.docx"], File (DocxFile memo))])
    [].


End Fixtures.

Section Watermark.
Import Str PosixPath OS Sys.

(** Module-level flags, fixed when the module is imported: whether each
    library could be imported, and whether [register_chinese_font] found a
    font. *)
Variable PDF_SUPPORT : bool.
Variable DOCX_SUPPORT : bool.
Variable XLSX_SUPPORT : bool.
Variable FONT_REGISTERED : bool.

(** *** Fonts *)

Definition font_paths : list string :=
  ["/System/Library/Fonts/PingFang.ttc";
   "/System/Library/Fonts/STHeiti Light.ttc";
   "/Library/Fonts/Arial Unicode.ttf";
   "/usr/share/fonts/truetype/droid/DroidSansFallbackFull.ttf";
   "C:\Windows\Fonts\msyh.ttc"].

(** [register_chinese_font]; [registerFont fp] tells whether reportlab can
    load the font file [fp].  [FONT_REGISTERED] is what this returned when
    the module was imported (or false without the PDF libraries). *)
Definition register_chinese_font (registerFont : string -> bool) : M bool :=
  if negb PDF_SUPPORT then ret false
  else
    (fix probe (fps : list string) : M bool :=
       match fps with
       | [] => ret false
       | fp :: rest =>
           found <- os_path_exists fp ;;
           if found then
             if registerFont fp then ret true else probe rest
           else probe rest
       end) font_paths.

(** *** PDF *)

Definition create_watermark_pdf (text : string) (page_width page_height : Q)
    : Pdf.document :=
  let c := Pdf.new_canvas (page_width, page_height) in
  let c := Pdf.emit (Pdf.SetFillColorRGB 0.7 0.7 0.7 0.3) c in
  let c := if FONT_REGISTERED
           then Pdf.emit (Pdf.SetFont "ChineseFont" 30) c
           else Pdf.emit (Pdf.SetFont "Helvetica" 30) c in
  (* centre *)
  let c := Pdf.emit Pdf.SaveState c in
  let c := Pdf.emit (Pdf.Translate (page_width / 2) (page_height / 2)) c in
  let c := Pdf.emit (Pdf.Rotate 45) c in
  let c := Pdf.emit (Pdf.DrawCentredString 0 0 text) c in
  let c := Pdf.emit Pdf.RestoreState c in
  (* upper left *)
  let c := Pdf.emit Pdf.SaveState c in
  let c := Pdf.emit (Pdf.Translate (page_width * 0.25) (page_height * 0.75)) c in
  let c := Pdf.emit (Pdf.Rotate 45) c in
  let c := Pdf.emit (Pdf.DrawCentredString 0 0 text) c in
  let c := Pdf.emit Pdf.RestoreState c in
  (* lower right *)
  let c := Pdf.emit Pdf.SaveState c in
  let c := Pdf.emit (Pdf.Translate (page_width * 0.75) (page_height * 0.25)) c in
  let c := Pdf.emit (Pdf.Rotate 45) c in
  let c := Pdf.emit (Pdf.DrawCentredString 0 0 text) c in
  let c := Pdf.emit Pdf.RestoreState c in
  Pdf.save c.

Definition PdfReader (p : string) : M Pdf.document :=
  c <- read_file p ;;
  match c with
  | PdfFile d => ret d
  | _ => raise (BadDocument "EOF marker not found")
  end.

(** The loop over [reader.pages]; [writer] collects the merged pages. *)
Fixpoint merge_pages (text : string) (pages writer : list Pdf.page)
    : M (list Pdf.page) :=
  match pages with
  | [] => ret writer
  | pg :: rest =>
      let page_width := Pdf.mediabox_width pg in
      let page_height := Pdf.mediabox_height pg in
      let watermark := create_watermark_pdf text page_width page_height in
      match watermark with
      | [] => raise IndexError
      | wm0 :: _ =>
          let pg := Pdf.merge_page pg wm0 in
          merge_pages text rest (writer ++ [pg])
      end
  end.

Definition add_watermark_pdf (input_path output_path text : string) : M bool :=
  if negb PDF_SUPPORT then
    print "错误: 需要安装 PyPDF2 和 reportlab" ;;
    print "运行: pip install PyPDF2 reportlab" ;;
    ret false
  else
    try_except
      (reader <- PdfReader input_path ;;
       writer <- merge_pages text reader [] ;;
       write_file output_path (PdfFile writer) ;;
       ret true)
      (fun e => print ("PDF 处理失败: " +:+ str_exn e) ;; ret false).

(** *** Word *)

Definition Document (p : string) : M Docx.document :=
  c <- read_file p ;;
  match c with
  | DocxFile d => ret d
  | _ => raise (BadDocument "File is not a zip file")
  end.

(** The body of the loop from [p.add_run(text)] on: the new run is
    appended to [p] and styled, and [p] is centred. *)
Definition watermark_paragraph (text : string) (p : Docx.paragraph)
    : Docx.paragraph :=
  let run := Docx.new_run text in
  let run := Docx.set_font_size (Docx.Pt 36) run in
  let run := Docx.set_font_color_rgb (Docx.RGBColor 200 200 200) run in
  Docx.Paragraph (Docx.runs p ++ [run]) (Some 1%Z).

(** [header.paragraphs\[0\]], updated in place, if the header has a
    paragraph. *)
Fixpoint update_first_paragraph (f : Docx.paragraph -> Docx.paragraph)
    (blocks : list Docx.block) : option (list Docx.block) :=
  match blocks with
  | [] => None
  | Docx.Para p :: rest => Some (Docx.Para (f p) :: rest)
  | b :: rest => cons b <$> update_first_paragraph f rest
  end.

Definition empty_paragraph : Docx.paragraph := Docx.Paragraph [] None.

Definition watermark_header (text : string) (hdr : list Docx.block)
    : list Docx.block :=
  match update_first_paragraph (watermark_paragraph text) hdr with
  | Some hdr' => hdr'
  | None => hdr ++ [Docx.Para (watermark_paragraph text empty_paragraph)]
  end.

(** Whose header [section.header] is, for the section at index [i]: the
    section's own, if it has a definition; else that of the previous
    section, found the same way; for the first section its own in any
    case. *)
Fixpoint defining_section (sections : list Docx.section) (i : nat) : nat :=
  match i with
  | O => O
  | S j =>
      match sections !! i with
      | Some (Docx.Section_ (Some _) _) => i
      | _ => defining_section sections j
      end
  end.

(** The header definition python-docx adds to a first section that has
    none: one empty paragraph. *)
Definition default_header : list Docx.block := [Docx.Para empty_paragraph].

(** One turn of the loop, for the section at index [i]: the header is the
    one [section.header] resolves to, and it is changed where it is
    defined, for every section that uses it. *)
Definition watermark_section (text : string) (sections : list Docx.section)
    (i : nat) : list Docx.section :=
  let j := defining_section sections i in
  match sections !! j with
  | Some s =>
      let hdr := default default_header (Docx.header s) in
      <[j := Docx.Section_ (Some (watermark_header text hdr))
                           (Docx.section_properties s)]> sections
  | None => sections
  end.

(** The loop over [doc.sections]. *)
Definition watermark_document (text : string) (doc : Docx.document)
    : Docx.document :=
  Docx.Document (Docx.body doc)
    (foldl (watermark_section text) (Docx.sections doc)
           (seq 0 (length (Docx.sections doc)))).

Definition add_watermark_docx (input_path output_path text : string) : M bool :=
  if negb DOCX_SUPPORT then
    print "错误: 需要安装 python-docx" ;;
    print "运行: pip install python-docx" ;;
    ret false
  else
    try_except
      (doc <- Document input_path ;;
       let doc := watermark_document text doc in
       write_file output_path (DocxFile doc) ;;
       ret true)
      (fun e => print ("Word 处理失败: " +:+ str_exn e) ;; ret false).

(** *** Excel *)

(** openpyxl's [load_workbook]: a name whose extension, lower-cased, is
    not one of [SUPPORTED_FORMATS] is refused before the file is opened. *)
Definition load_workbook (p : string) : M Xlsx.workbook :=
  let file_format := lower (splitext p).2 in
  if negb (bool_decide (file_format ∈ Xlsx.SUPPORTED_FORMATS)) then
    raise (InvalidFileException
             (if String.eqb file_format ".xls" then
                "openpyxl does not support the old .xls file format, "
                +:+ "please use xlrd to read this file, or convert it to "
                +:+ "the more recent .xlsx file format."
              else if String.eqb file_format ".xlsb" then
                "openpyxl does not support binary format .xlsb, "
                +:+ "please convert this file to .xlsx format if you want "
                +:+ "to open it with openpyxl"
              else
                "openpyxl does not support " +:+ file_format
                +:+ " file format, please check you can open it with Excel "
                +:+ "first. Supported formats are: .xlsx,.xlsm,.xltx,.xltm"))
  else
    c <- read_file p ;;
    match c with
    | XlsxFile d => ret d
    | _ => raise (BadDocument "File is not a zip file")
    end.

(** The three assignments to the centre part of a header. *)
Definition watermark_center (text : string) (p : Xlsx.header_part)
    : Xlsx.header_part :=
  let p := Xlsx.set_text text p in
  let p := Xlsx.set_size 24 p in
  Xlsx.set_color "C0C0C0" p.

(** The body of the loop over [wb.worksheets]. *)
Definition watermark_sheet (text : string) (sheet : Xlsx.worksheet)
    : Xlsx.worksheet :=
  Xlsx.Worksheet (Xlsx.title sheet) (Xlsx.cells sheet)
    (Xlsx.set_center (watermark_center text) (Xlsx.oddHeader sheet))
    (Xlsx.set_center (watermark_center text) (Xlsx.evenHeader sheet)).

Definition add_watermark_xlsx (input_path output_path text : string) : M bool :=
  if negb XLSX_SUPPORT then
    print "错误: 需要安装 openpyxl" ;;
    print "运行: pip install openpyxl" ;;
    ret false
  else
    try_except
      (wb <- load_workbook input_path ;;
       let wb := map (watermark_sheet text) wb in
       write_file output_path (XlsxFile wb) ;;
       ret true)
      (fun e => print ("Excel 处理失败: " +:+ str_exn e) ;; ret false).

(** *** One file *)

(** The truth value of an optional string argument: [None] and [""] are
    both false. *)
Definition given (o : option string) : option string :=
  match o with
  | Some d => if truthy d then Some d else None
  | None => None
  end.

(** The [if]/[elif] chain on [ext]; [None] is the final [else]. *)
Definition handler_for (ext : string)
    : option (string -> string -> string -> M bool) :=
  if String.eqb ext ".pdf" then Some add_watermark_pdf
  else if String.eqb ext ".docx" then Some add_watermark_docx
  else if String.eqb ext ".xlsx" then Some add_watermark_xlsx
  else None.

(** The first [if]/[elif]/[else]: the handler's input and output paths. *)
Definition resolve_paths (file_path : string) (output_dir : option string)
    (overwrite : bool) : M (string * string) :=
  match given output_dir with
  | Some output_dir =>
      os_makedirs output_dir true ;;
      let output_path := join output_dir (basename file_path) in
      ret (file_path, output_path)
  | None =>
      if overwrite then
        let output_path := file_path in
        let temp_path := file_path +:+ ".tmp" in
        os_rename file_path temp_path ;;
        let file_path := temp_path in
        ret (file_path, output_path)
      else
        let '(base, extension) := splitext file_path in
        let output_path := base +:+ "_watermarked" +:+ extension in
        ret (file_path, output_path)
  end.

Definition process_file (file_path text : string) (output_dir : option string)
    (overwrite : bool) : M bool :=
  let ext := lower (splitext file_path).2 in
  paths <- resolve_paths file_path output_dir overwrite ;;
  let '(file_path, output_path) := paths in
  match handler_for ext with
  | None =>
      print ("不支持的文件类型: " +:+ ext) ;;
      ret false
  | Some add_watermark =>
      success <- add_watermark file_path output_path text ;;
      (if overwrite && negb (bool_decide (is_Some (given output_dir))) then
         if success then os_remove file_path
         else os_rename file_path (replace output_path ".tmp" "")
       else ret tt) ;;
      ret success
  end.

(** *** A directory *)

Definition supported_exts : list string := [".pdf"; ".docx"; ".xlsx"].

Definition hidden (name : string) : bool := startswith name ".".

(** The test at the top of the loop over [files]: lock files, hidden files
    and other extensions are passed over. *)
Definition eligible (f : string) : bool :=
  negb (startswith f "~$" || startswith f ".")
  && bool_decide (lower (splitext f).2 ∈ supported_exts).

(** One turn of the loop over [files]. *)
Definition visit_file (dir_path text : string) (output_dir : option string)
    (overwrite : bool) (root f : string) (res : results) : M results :=
  if startswith f "~$" || startswith f "." then ret res
  else
    let ext := lower (splitext f).2 in
    if negb (bool_decide (ext ∈ supported_exts)) then ret res
    else
      let file_path := join root f in
      file_output_dir <-
        match given output_dir with
        | Some output_dir =>
            rel_path <- relpath root dir_path ;;
            ret (Some (join output_dir rel_path))
        | None => ret None
        end ;;
      print ("处理: " +:+ f) ;;
      ok <- process_file file_path text file_output_dir overwrite ;;
      if ok then
        print "  ✓ 完成" ;;
        ret (Results (success res + 1) (failed res))
      else
        print "  ✗ 失败" ;;
        ret (Results (success res) (failed res + 1)).

Fixpoint visit_files (dir_path text : string) (output_dir : option string)
    (overwrite : bool) (root : string) (files : list string) (res : results)
    : M results :=
  match files with
  | [] => ret res
  | f :: rest =>
      res <- visit_file dir_path text output_dir overwrite root f res ;;
      visit_files dir_path text output_dir overwrite root rest res
  end.

(** The loop over [os.walk(dir_path)], top down: the files of [root], then
    the walk of each subdirectory left in [dirs].  The in-place assignment
    to [dirs] removes the hidden names before [os.walk] descends; the
    descent below passes over them instead, which is the same walk. *)
Fixpoint walk (dir_path text : string) (output_dir : option string)
    (overwrite : bool) (root : string) (t : dirtree) (res : results)
    : M results :=
  match t with
  | DirTree dirs files =>
      res <- visit_files dir_path text output_dir overwrite root files res ;;
      (fix walk_dirs (ds : list (string * dirtree)) (res : results) : M results :=
         match ds with
         | [] => ret res
         | (d, sub) :: rest =>
             if hidden d then walk_dirs rest res
             else
               res <- walk dir_path text output_dir overwrite (join root d) sub res ;;
               walk_dirs rest res
         end) dirs res
  end.

Definition process_directory (listing : dirtree) (dir_path text : string)
    (output_dir : option string) (overwrite : bool) : M results :=
  walk dir_path text output_dir overwrite dir_path listing (Results 0 0).

(** *** The command line *)

Definition sys_exit {A} (code : Z) : M A := raise (SystemExit code).

(** [main] from [args = parser.parse_args()] on; [listing] is what
    [os.walk] reports for the target.  The help text [print_help] writes is
    cut down to its usage line. *)
Definition main (args : arguments) (listing : dirtree) : M unit :=
  target <-
    match given (arg_directory args) with
    | Some d => ret d
    | None =>
        match given (arg_path args) with
        | Some p => ret p
        | None => print "usage: watermark.py [-h] -t TEXT [-d DIRECTORY] [-o OUTPUT] [--overwrite] [path]" ;;
                  sys_exit 1
        end
    end ;;
  found <- os_path_exists target ;;
  (if negb found then
     print ("错误: 路径不存在 - " +:+ target) ;;
     sys_exit 1
   else ret tt) ;;
  isfile <- os_path_isfile target ;;
  if isfile then
    ok <- process_file target (arg_text args) (arg_output args) (arg_overwrite args) ;;
    if ok then print "✓ 水印添加完成"
    else (print "✗ 水印添加失败" ;; sys_exit 1)
  else
    res <- process_directory listing target (arg_text args) (arg_output args)
             (arg_overwrite args) ;;
    print (newline +:+ "完成: " +:+ pretty (success res) +:+ " 成功, "
           +:+ pretty (failed res) +:+ " 失败").

(** How the process ends: with the status [sys.exit] was given; with
    status 0 when [main] returns; and with status 1, after the
    interpreter has printed the traceback, when an exception reaches the
    top that nothing caught. *)
Inductive termination : Type :=
| ExitStatus (code : Z).

Definition run (args : arguments) (listing : dirtree) (w : world) : termination :=
  match main args listing w with
  | Ok _ _ => ExitStatus 0
  | Raise (SystemExit code) _ => ExitStatus code
  | Raise _ _ => ExitStatus 1
  end.

(** *** Vocabulary of the properties *)

(** A path a handler can open for writing. *)
Definition writable (w : world) (p : string) : Prop :=
  check_parent w p = None /\ stat w p <> Some Dir.

Definition font_name : string :=
  if FONT_REGISTERED then "ChineseFont" else "Helvetica".

(** The calls [create_watermark_pdf] makes on its canvas. *)
Definition overlay_code (text : string) (page_width page_height : Q)
    : list Pdf.canvas_op :=
  [Pdf.SetFillColorRGB 0.7 0.7 0.7 0.3; Pdf.SetFont font_name 30;
   Pdf.SaveState; Pdf.Translate (page_width / 2) (page_height / 2);
   Pdf.Rotate 45; Pdf.DrawCentredString 0 0 text; Pdf.RestoreState;
   Pdf.SaveState; Pdf.Translate (page_width * 0.25) (page_height * 0.75);
   Pdf.Rotate 45; Pdf.DrawCentredString 0 0 text; Pdf.RestoreState;
   Pdf.SaveState; Pdf.Translate (page_width * 0.75) (page_height * 0.25);
   Pdf.Rotate 45; Pdf.DrawCentredString 0 0 text; Pdf.RestoreState].

(** One watermark string: [text] centred on the origin of a frame moved to
    [(x, y)] and turned by 45 degrees there, in gray at opacity 0.3 and
    size 30. *)
Definition watermark_mark (text : string) (x y : Q) : Pdf.mark :=
  Pdf.Mark text (0%Q, 0%Q) [Pdf.Translate x y; Pdf.Rotate 45]
    (0.7%Q, 0.7%Q, 0.7%Q, 0.3%Q) (font_name, 30%Q).

Definition overlay_page (text : string) (pg : Pdf.page) : Pdf.page :=
  Pdf.Page (Pdf.mediabox_width pg) (Pdf.mediabox_height pg)
    [Pdf.Drawn (overlay_code text (Pdf.mediabox_width pg) (Pdf.mediabox_height pg))].

(** The run the handler appends: the text at 36 points, in light gray. *)
Definition watermark_run (text : string) : Docx.run :=
  Docx.Run text (Some 457200%Z) (Some (200%Z, 200%Z, 200%Z)).

(** [header.paragraphs\[0\]], when the header has a paragraph. *)
Fixpoint first_paragraph (blocks : list Docx.block) : option Docx.paragraph :=
  match blocks with
  | [] => None
  | Docx.Para p :: _ => Some p
  | _ :: rest => first_paragraph rest
  end.

Definition is_paragraph (b : Docx.block) : bool :=
  match b with Docx.Para _ => true | Docx.Tbl _ => false end.

(** What the specification says of one header, for the [n] sections that
    use it: [n] runs, one for each of them, are appended to its first
    paragraph, which is centred, and which is created at the end of the
    header when the header has none; nothing else in the header changes. *)
Inductive header_watermarked (text : string) (n : nat)
    : list Docx.block -> list Docx.block -> Prop :=
| hw_existing (before after : list Docx.block) (p : Docx.paragraph) :
    existsb is_paragraph before = false ->
    header_watermarked text n
      (before ++ Docx.Para p :: after)
      (before ++ Docx.Para (Docx.Paragraph
                              (Docx.runs p ++ replicate n (watermark_run text))
                              (Some 1%Z)) :: after)
| hw_created (hdr : list Docx.block) :
    existsb is_paragraph hdr = false ->
    header_watermarked text n hdr
      (hdr ++ [Docx.Para (Docx.Paragraph (replicate n (watermark_run text))
                                         (Some 1%Z))]).

(** The sections at the head of a list that have no header of their own:
    they use the header of the section before them. *)
Fixpoint linked_sections (sections : list Docx.section) : nat :=
  match sections with
  | Docx.Section_ None _ :: rest => S (linked_sections rest)
  | _ => O
  end.

(** How many sections use the header of the section at index [i]: that
    section and the linked sections that follow it. *)
Definition sharing (sections : list Docx.section) (i : nat) : nat :=
  S (linked_sections (drop (S i) sections)).

(** The header the section at index [i] holds once the handler has come
    to it: its own; for a first section without one, the header
    python-docx adds; none for a later section that is linked to the
    previous one. *)
Definition own_header (i : nat) (s : Docx.section) : option (list Docx.block) :=
  match Docx.header s, i with
  | Some hdr, _ => Some hdr
  | None, O => Some default_header
  | None, S _ => None
  end.

(** A computation that returns in every world. *)
Definition returns {A} (m : M A) : Prop :=
  forall w, exists a w', m w = Ok a w'.

(** A computation that raises nothing [except Exception] would miss. *)
Definition no_exit {A} (m : M A) : Prop :=
  forall w e w', m w = Raise e w' -> is_Exception e = true.

(** A handler returns; it leaves the current directory alone; when it
    reports success it has read its input and stored a file at its output
    path, changing nothing else; when it reports failure it has, in the
    model, stored nothing (see [write_file]). *)
Definition handler_effect (h : string -> string -> string -> M bool) : Prop :=
  forall input_path output_path text w,
    exists b w',
      h input_path output_path text w = Ok b w'
      /\ cwd w' = cwd w
      /\ if b
         then exists c c',
                stat w input_path = Some (File c)
                /\ writable w output_path
                /\ fs w' = <[key w output_path := File c']> (fs w)
         else fs w' = fs w.

(** Every entry of the file store lies in a directory. *)
Definition well_formed (w : world) : bool :=
  forallb (fun kv : list string * node =>
             match lookup_key w (removelast kv.1) with
             | Some Dir => true
             | _ => false
             end)
          (map_to_list (fs w)).

(** What [process_file] does once the paths are resolved: the dispatch on
    the extension and the clean-up. *)
Definition run_handler (ext text : string) (output_dir : option string)
    (overwrite : bool) (paths : string * string) : M bool :=
  let '(file_path, output_path) := paths in
  match handler_for ext with
  | None =>
      print ("不支持的文件类型: " +:+ ext) ;;
      ret false
  | Some add_watermark =>
      success <- add_watermark file_path output_path text ;;
      (if overwrite && negb (bool_decide (is_Some (given output_dir))) then
         if success then os_remove file_path
         else os_rename file_path (replace output_path ".tmp" "")
       else ret tt) ;;
      ret success
  end.

(** The descent into the subdirectories, as [walk] does it. *)
Definition walk_dirs (dir_path text : string) (output_dir : option string)
    (overwrite : bool) (root : string)
    : list (string * dirtree) -> results -> M results :=
  fix walk_dirs (ds : list (string * dirtree)) (res : results) : M results :=
    match ds with
    | [] => ret res
    | (d, sub) :: rest =>
        if hidden d then walk_dirs rest res
        else
          res <- walk dir_path text output_dir overwrite (join root d) sub res ;;
          walk_dirs rest res
    end.

(** The files the walk hands to [process_file]. *)
Fixpoint count_eligible (t : dirtree) : nat :=
  match t with
  | DirTree dirs files =>
      length (filter (fun f => eligible f = true) files)
      + (fix count_dirs (ds : list (string * dirtree)) : nat :=
           match ds with
           | [] => 0
           | (d, sub) :: rest =>
               if hidden d then count_dirs rest
               else count_eligible sub + count_dirs rest
           end) dirs
  end.


(** The target [main] settles on: [--directory] if given, else the
    positional path. *)
Definition target_of (args : arguments) : option string :=
  match given (arg_directory args) with
  | Some d => Some d
  | None => given (arg_path args)
  end.

(** What a handler stores for the document it loaded. *)
Definition watermarked (text : string) (c : content) : content :=
  match c with
  | PdfFile pages =>
      PdfFile (map (fun pg => Pdf.merge_page pg (overlay_page text pg)) pages)
  | DocxFile doc => DocxFile (watermark_document text doc)
  | XlsxFile wb => XlsxFile (map (watermark_sheet text) wb)
  | Bytes data => Bytes data
  end.

(** A file the handler chosen for [ext] can load: a document of the
    handler's kind, with the handler's library installed. *)
Definition loads (ext : string) (c : content) : Prop :=
  match c with
  | PdfFile _ => ext = ".pdf" /\ PDF_SUPPORT = true
  | DocxFile _ => ext = ".docx" /\ DOCX_SUPPORT = true
  | XlsxFile _ => ext = ".xlsx" /\ XLSX_SUPPORT = true
  | Bytes _ => False
  end.

(** A name under which the library takes the file: openpyxl wants one of
    its extensions on the name it is given; the other two libraries do
    not look at the name. *)
Definition accepted (input_path : string) (c : content) : Prop :=
  match c with
  | XlsxFile _ => lower (splitext input_path).2 ∈ Xlsx.SUPPORTED_FORMATS
  | _ => True
  end.

(** What the Excel handler does to one page header: the centre part
    holds the text, size 24 and colour C0C0C0 and keeps its font; the left
    and right parts are as they were. *)
Definition header_marked (text : string) (h h' : Xlsx.header_item) : Prop :=
  Xlsx.left h' = Xlsx.left h
  /\ Xlsx.right h' = Xlsx.right h
  /\ Xlsx.center h'
     = Xlsx.HeaderPart (Some text) (Xlsx.font (Xlsx.center h)) (Some 24%Z)
         (Some "C0C0C0").

(** A watermark text that openpyxl reads back from a header as it was
    set: not empty, and made of characters that mean nothing in a header
    string, which leaves out [&], the double quote and the control
    characters. *)
Definition header_char (c : ascii) : bool :=
  (32 <=? nat_of_ascii c)%nat
  && negb (Ascii.eqb c "&") && negb (Ascii.eqb c (ascii_of_nat 34)).

Definition plain_text (text : string) : Prop :=
  text <> "" /\ forallb header_char (list_ascii_of_string text) = true.

(** The output path when neither an output directory nor [overwrite] is
    given. *)
Definition sibling_path (file_path : string) : string :=
  (splitext file_path).1 +:+ "_watermarked" +:+ (splitext file_path).2.

(** What [os.path.join] puts before a name that is joined to [root]. *)
Definition join_prefix (root : string) : string :=
  if negb (truthy root) || endswith_char root sep then root else root +:+ "/".

(** The parts of [normpath]: the number of leading slashes it keeps, one
    step of its loop over the components, and the components it is left
    with. *)
Definition initial_slashes (path : string) : nat :=
  if startswith path "/" then
    if startswith path "//" && negb (startswith path "///") then 2 else 1
  else 0.

Definition normpath_step (initial_slashes : nat) (new_comps : list string)
    (comp : string) : list string :=
  if String.eqb comp EmptyString || String.eqb comp curdir then new_comps
  else if negb (String.eqb comp pardir)
          || (Nat.eqb initial_slashes 0 && bool_decide (new_comps = []))
          || last_is_pardir new_comps
  then new_comps ++ [comp]
  else removelast new_comps.

Definition normpath_comps (path : string) : list string :=
  foldl (normpath_step (initial_slashes path)) [] (Str.split sep path).

(** The path [abspath] normalises. *)
Definition abs_raw (w : world) (p : string) : string :=
  if isabs p then p else join (cwd w) p.

(** A name as [os.walk] reports it: not empty, without separator, and
    neither [.] nor [..]. *)
Definition plain (s : string) : Prop :=
  has sep s = false /\ s <> "" /\ s <> curdir /\ s <> pardir.

(** The world a computation ends in, whether it returns or raises. *)
Definition final_world {A} (r : result A) : world :=
  match r with Ok _ w => w | Raise _ w => w end.

(** From [w] to [w'] nothing went away: the current directory is the
    same, every directory is still a directory and every regular file is
    still a regular file, with the same content or another. *)
Definition nothing_lost (w w' : world) : Prop :=
  cwd w' = cwd w
  /\ (forall k, fs w !! k = Some Dir -> fs w' !! k = Some Dir)
  /\ (forall k c, fs w !! k = Some (File c) -> exists c', fs w' !! k = Some (File c')).

(** A computation that, from every world, loses nothing. *)
Definition harmless {A} (m : M A) : Prop :=
  forall w, nothing_lost w (final_world (m w)).

(** ** Properties *)

(** *** Strings and paths *)

Lemma app_cons a s t : String a s +:+ t = String a (s +:+ t).
Proof. reflexivity. Qed.

Lemma app_nil_l_str t : "" +:+ t = t.
Proof. reflexivity. Qed.

Lemma app_nil_r_str s : s +:+ "" = s.
Proof. induction s as [|a s IH]; [done|]. by rewrite app_cons, IH. Qed.

Lemma app_assoc_str s t u : (s +:+ t) +:+ u = s +:+ t +:+ u.
Proof. induction s as [|a s IH]; [done|]. by rewrite !app_cons, IH. Qed.

Lemma length_app_str s t :
  String.length (s +:+ t) = String.length s + String.length t.
Proof. induction s as [|a s IH]; [done|]. rewrite app_cons. simpl. by rewrite IH. Qed.

Lemma slice_to_from n s : slice_to n s +:+ slice_from n s = s.
Proof.
  revert n. induction s as [|a s IH]; intros [|n]; try done.
  simpl. by rewrite app_cons, IH.
Qed.

Lemma length_slice_to n s : n <= String.length s -> String.length (slice_to n s) = n.
Proof.
  revert n. induction s as [|a s IH]; intros [|n]; simpl; try lia.
  intros H. rewrite IH; lia.
Qed.

Lemma slice_to_app n s t : n <= String.length s -> slice_to n (s +:+ t) = slice_to n s.
Proof.
  revert n. induction s as [|a s IH]; intros [|n] H; simpl in *; try lia; try done.
  rewrite IH; [done|lia].
Qed.

Lemma slice_from_app n s t :
  n <= String.length s -> slice_from n (s +:+ t) = slice_from n s +:+ t.
Proof.
  revert n. induction s as [|a s IH]; intros [|n] H; simpl in *; try lia; try done.
  rewrite IH; [done|lia].
Qed.

Lemma slice_to_length s t : slice_to (String.length s) (s +:+ t) = s.
Proof. induction s as [|a s IH]; simpl; [by destruct t|]. by rewrite IH. Qed.

Lemma slice_from_length s t : slice_from (String.length s) (s +:+ t) = t.
Proof. induction s as [|a s IH]; simpl; [by destruct t|]. done. Qed.

Lemma slice_to_slice_to n m s : n <= m -> slice_to n (slice_to m s) = slice_to n s.
Proof.
  revert n m. induction s as [|a s IH]; intros [|n] [|m]; simpl; try lia; try done.
  intros H. rewrite IH; [done|lia].
Qed.

Lemma has_app c s t : has c (s +:+ t) = has c s || has c t.
Proof. induction s as [|a s IH]; [done|]. rewrite app_cons. simpl. rewrite IH. by rewrite orb_assoc. Qed.

Lemma has_slice_from c n s : has c s = false -> has c (slice_from n s) = false.
Proof.
  revert n. induction s as [|a s IH]; intros [|n]; simpl; try done.
  intros H. apply orb_false_elim in H as [_ H]. by apply IH.
Qed.

Lemma rfind_from_app c s t i acc :
  rfind_from c (s +:+ t) i acc
  = rfind_from c t (i + Z.of_nat (String.length s)) (rfind_from c s i acc).
Proof.
  revert i acc. induction s as [|a s IH]; intros i acc.
  - simpl. by rewrite app_nil_l_str, Z.add_0_r.
  - rewrite app_cons. cbn [rfind_from String.length]. rewrite IH. f_equal. lia.
Qed.

Lemma rfind_from_no c s i acc : has c s = false -> rfind_from c s i acc = acc.
Proof.
  revert i acc. induction s as [|a s IH]; intros i acc; simpl; [done|].
  intros H. apply orb_false_elim in H as [-> H]. by apply IH.
Qed.

Lemma rfind_from_range c s i acc :
  (acc < i)%Z ->
  (rfind_from c s i acc = acc /\ has c s = false)
  \/ (i <= rfind_from c s i acc < i + Z.of_nat (String.length s))%Z.
Proof.
  revert i acc. induction s as [|a s IH]; intros i acc Hacc; simpl; [by left|].
  destruct (Ascii.eqb a c) eqn:E; simpl.
  - right. destruct (IH (i + 1)%Z i ltac:(lia)) as [[-> _]|H]; lia.
  - destruct (IH (i + 1)%Z acc ltac:(lia)) as [[-> ->]|H]; [by left|right; lia].
Qed.

(** Nothing after the last occurrence. *)
Lemma rfind_from_after c s i acc :
  (acc < i)%Z ->
  has c (slice_from (Z.to_nat (rfind_from c s i acc - i + 1)) s) = false.
Proof.
  revert i acc. induction s as [|a s IH]; intros i acc Hacc; [by destruct (Z.to_nat _)|].
  cbn [rfind_from]. destruct (Ascii.eqb a c) eqn:E.
  - destruct (rfind_from_range c s (i + 1) i ltac:(lia)) as [[-> Hno]|H].
    + replace (Z.to_nat (i - i + 1)) with 1 by lia. simpl. by destruct s.
    + specialize (IH (i + 1)%Z i ltac:(lia)).
      replace (Z.to_nat (rfind_from c s (i + 1) i - i + 1))
        with (S (Z.to_nat (rfind_from c s (i + 1) i - (i + 1) + 1))) by lia.
      done.
  - destruct (rfind_from_range c s (i + 1) acc ltac:(lia)) as [[-> Hno]|H].
    + replace (Z.to_nat (acc - i + 1)) with 0 by lia. simpl. by rewrite E, Hno.
    + specialize (IH (i + 1)%Z acc ltac:(lia)).
      replace (Z.to_nat (rfind_from c s (i + 1) acc - i + 1))
        with (S (Z.to_nat (rfind_from c s (i + 1) acc - (i + 1) + 1))) by lia.
      done.
Qed.

Lemma rfind_range s c :
  (-1 <= rfind s c < Z.of_nat (String.length s))%Z.
Proof.
  unfold rfind. destruct (rfind_from_range c s 0 (-1) ltac:(lia)) as [[-> _]|H]; lia.
Qed.

Lemma rfind_after s c n :
  (rfind s c < Z.of_nat n)%Z -> has c (slice_from n s) = false.
Proof.
  intros H. pose proof (rfind_from_after c s 0 (-1) ltac:(lia)) as Hafter.
  fold (rfind s c) in Hafter. pose proof (rfind_range s c) as Hr.
  replace n with (Z.to_nat (rfind s c - 0 + 1) + (n - Z.to_nat (rfind s c - 0 + 1))) by lia.
  generalize dependent (Z.to_nat (rfind s c - 0 + 1)). intros k Hk.
  generalize (n - k). clear -Hk. intros m.
  revert s Hk. induction k as [|k IH]; intros s Hk; simpl.
  - by apply has_slice_from.
  - destruct s as [|a s]; [by destruct m|]. simpl in *. by apply IH.
Qed.

Lemma rfind_app_no s t c : has c t = false -> rfind (s +:+ t) c = rfind s c.
Proof. intros H. unfold rfind. rewrite rfind_from_app. by apply rfind_from_no. Qed.

Lemma rfind_slice_to s c n :
  (rfind s c < Z.of_nat n)%Z -> rfind (slice_to n s) c = rfind s c.
Proof.
  intros H. rewrite <- (slice_to_from n s) at 2.
  rewrite rfind_app_no; [done|]. by apply rfind_after.
Qed.

Lemma all_char_slice_to c n s : all_char c s = true -> all_char c (slice_to n s) = true.
Proof.
  revert n. induction s as [|a s IH]; intros [|n]; simpl; try done.
  intros H. apply andb_true_iff in H as [-> H]. by apply IH.
Qed.

Lemma slice_from_nil n : slice_from n "" = "".
Proof. by destruct n. Qed.

Lemma slice_to_slice_from d i s :
  slice_to (d - i) (slice_from i s) = slice_from i (slice_to d s).
Proof.
  revert d i. induction s as [|a s IH]; intros d i.
  - rewrite !slice_from_nil. destruct (d - i), d; simpl; by rewrite ?slice_from_nil.
  - destruct d as [|d], i as [|i]; simpl; rewrite ?slice_from_nil; done.
Qed.

(** *** [str.replace] *)

Lemma length_slice_from_le n s : String.length (slice_from n s) <= String.length s.
Proof.
  revert n. induction s as [|a s IH]; intros [|n]; simpl; try lia.
  specialize (IH n). lia.
Qed.

(** The fuel [replace] starts with is enough: more changes nothing. *)
Lemma replace_fuel_more old new :
  old <> "" ->
  forall fuel s, String.length s <= fuel ->
    replace_fuel (S fuel) old new s = replace_fuel fuel old new s.
Proof.
  intros Hold. induction fuel as [|fuel IH]; intros s Hlen.
  - destruct s; [done|simpl in Hlen; lia].
  - destruct s as [|c s]; [done|].
    change (replace_fuel (S (S fuel)) old new (String c s))
      with (if startswith (String c s) old
            then new +:+ replace_fuel (S fuel) old new
                           (slice_from (String.length old) (String c s))
            else String c (replace_fuel (S fuel) old new s)).
    change (replace_fuel (S fuel) old new (String c s))
      with (if startswith (String c s) old
            then new +:+ replace_fuel fuel old new
                           (slice_from (String.length old) (String c s))
            else String c (replace_fuel fuel old new s)).
    simpl in Hlen. rewrite !IH; [done|lia|].
    destruct old as [|b old]; [done|]. simpl.
    pose proof (length_slice_from_le (String.length old) s). lia.
Qed.

(** Where [old] does not occur, nothing is replaced. *)
Lemma replace_absent s old new : occurs old s = false -> replace s old new = s.
Proof.
  unfold replace. generalize (String.length s) as fuel. intros fuel. revert s.
  induction fuel as [|fuel IH]; intros s Hocc; [done|].
  destruct s as [|c s]; [done|]. simpl in Hocc.
  apply orb_false_elim in Hocc as [Hst Hocc].
  cbn [replace_fuel]. rewrite Hst. by rewrite IH.
Qed.

(** *** [splitext] *)

Lemma splitext_app p b e : splitext p = (b, e) -> b +:+ e = p.
Proof.
  unfold splitext. repeat case_match; intros [= <- <-];
    auto using app_nil_r_str, slice_to_from.
Qed.

(** The two shapes of a result of [splitext]: no extension, or a split at
    the last dot, which lies after the last separator and after some
    character of the name that is not a dot. *)
Lemma splitext_cases p :
  splitext p = (p, "")
  \/ exists d : nat,
       (rfind p sep < Z.of_nat d < Z.of_nat (String.length p))%Z
       /\ Z.of_nat d = rfind p extsep
       /\ all_char extsep (slice_from (Z.to_nat (rfind p sep + 1)) (slice_to d p)) = false
       /\ splitext p = (slice_to d p, slice_from d p).
Proof.
  unfold splitext. pose proof (rfind_range p sep) as Hs.
  pose proof (rfind_range p extsep) as Hd.
  destruct (rfind p sep <? rfind p extsep)%Z eqn:E; [|by left].
  apply Z.ltb_lt in E.
  destruct (all_char extsep _) eqn:Ha; [by left|].
  right. exists (Z.to_nat (rfind p extsep)).
  split; [lia|]. split; [lia|]. split; [|done].
  by rewrite <- slice_to_slice_from.
Qed.

(** The backup of a file with an extension has the extension [.tmp]. *)
Lemma splitext_backup p :
  (splitext p).2 <> "" -> splitext (p +:+ ".tmp") = (p, ".tmp").
Proof.
  intros Hext. destruct (splitext_cases p) as [E|(d & Hd & Hdot & Hall & E)];
    [by rewrite E in Hext|].
  unfold splitext.
  rewrite (rfind_app_no p ".tmp" sep) by done.
  assert (rfind (p +:+ ".tmp") extsep = Z.of_nat (String.length p)) as ->.
  { unfold rfind. rewrite rfind_from_app. simpl. lia. }
  pose proof (rfind_range p sep) as Hs.
  rewrite (proj2 (Z.ltb_lt _ _)) by lia.
  rewrite Nat2Z.id, slice_to_slice_from, slice_to_length, slice_from_length.
  rewrite <- slice_to_slice_from in Hall.
  destruct (all_char extsep (slice_from _ p)) eqn:Ha; [|done].
  by rewrite (all_char_slice_to _ _ _ Ha) in Hall.
Qed.

(** The sibling output lies in the directory of the original, under the
    original's name with [_watermarked] put before the extension. *)
Lemma sibling_next_to_original p b e :
  splitext p = (b, e) ->
  dirname (b +:+ "_watermarked" +:+ e) = dirname p
  /\ exists stem,
       basename p = stem +:+ e
       /\ basename (b +:+ "_watermarked" +:+ e) = stem +:+ "_watermarked" +:+ e.
Proof.
  intros Hsplit. pose proof (rfind_range p sep) as Hs.
  assert (Hrf : rfind (b +:+ "_watermarked" +:+ e) sep = rfind p sep
                /\ (Z.to_nat (rfind p sep + 1) <= String.length b)%nat).
  { destruct (splitext_cases p) as [E|(d & Hd & Hdot & Hall & E)];
      rewrite E in Hsplit; injection Hsplit as <- <-.
    - split; [|lia]. rewrite app_nil_r_str. by apply rfind_app_no.
    - rewrite length_slice_to by lia. split; [|lia].
      rewrite rfind_app_no.
      + apply rfind_slice_to. lia.
      + rewrite has_app. rewrite (rfind_after p sep d) by lia. done. }
  destruct Hrf as [Hrf Hlen].
  unfold dirname, basename, PosixPath.split. rewrite Hrf.
  generalize dependent (Z.to_nat (rfind p sep + 1)). intros i Hlen.
  rewrite (slice_to_app i b), (slice_from_app i b) by done.
  rewrite <- (splitext_app _ _ _ Hsplit).
  rewrite (slice_to_app i b), (slice_from_app i b) by done.
  split; [done|]. by exists (slice_from i b).
Qed.

(** A base name holds no separator, so joining it to a directory appends
    it. *)
Lemma basename_nosep p : has sep (basename p) = false.
Proof.
  unfold basename. apply rfind_after. pose proof (rfind_range p sep). lia.
Qed.

Lemma join_basename d p :
  truthy d = true ->
  join d (basename p)
  = if endswith_char d sep then d +:+ basename p else d +:+ "/" +:+ basename p.
Proof.
  intros Hd. unfold join. rewrite Hd. cbn [negb orb].
  pose proof (basename_nosep p) as Hb.
  destruct (basename p) as [|a b]; [done|].
  cbn [has] in Hb. apply orb_false_elim in Hb as [Ha _].
  cbn [startswith]. unfold sep in Ha. by rewrite Ha.
Qed.

Lemma given_truthy o d : given o = Some d -> truthy d = true.
Proof.
  unfold given. destruct o as [d'|]; [|done].
  destruct (truthy d') eqn:E; [|done]. by intros [= <-].
Qed.

(** *** Paths and keys *)

Lemma split_nosep c t : has c t = false -> Str.split c t = [t].
Proof.
  induction t as [|a t IH]; simpl; [done|].
  intros H. apply orb_false_elim in H as [-> H]. by rewrite IH.
Qed.

Lemma split_snoc c s : exists init l, Str.split c s = init ++ [l].
Proof.
  induction s as [|a s (init & l & IH)]; simpl.
  - by exists [], "".
  - destruct (Ascii.eqb a c).
    + exists ("" :: init), l. by rewrite IH.
    + rewrite IH. destruct init as [|w ws]; simpl.
      * by exists [], (String a l).
      * by exists (String a w :: ws), l.
Qed.

Lemma split_app_nosep c s t init l :
  has c t = false ->
  Str.split c s = init ++ [l] ->
  Str.split c (s +:+ t) = init ++ [l +:+ t].
Proof.
  intros Ht. revert init l. induction s as [|a s IH]; intros init l; simpl.
  - intros E. destruct init as [|x [|y init]]; simplify_eq/=. by apply split_nosep.
  - destruct (Ascii.eqb a c).
    + destruct init as [|x init]; simpl; intros E; simplify_eq.
      * destruct (split_snoc c s) as ([|? ?] & ? & E'); rewrite E' in *; done.
      * by rewrite (IH init l).
    + destruct (split_snoc c s) as (init' & l' & E'). rewrite E'.
      rewrite (IH init' l' E').
      destruct init' as [|w ws]; simpl; intros E.
      * destruct init as [|x [|y init]]; simplify_eq/=. done.
      * destruct init as [|x init]; simplify_eq/=.
        -- by destruct ws.
        -- match goal with
           | H : _ ++ [_] = _ ++ [_] |- _ => apply app_inj_tail in H as [-> ->]
           end. done.
Qed.

Lemma resolve_step_backup stack l :
  resolve_step stack (l +:+ ".tmp") = stack ++ [l +:+ ".tmp"].
Proof.
  unfold resolve_step.
  assert (String.eqb (l +:+ ".tmp") "" = false
          /\ String.eqb (l +:+ ".tmp") curdir = false
          /\ String.eqb (l +:+ ".tmp") pardir = false) as (-> & -> & ->); [|done].
  destruct l as [|a [|b [|c l]]]; simpl; repeat case_match; done.
Qed.

Lemma isabs_backup p : isabs (p +:+ ".tmp") = isabs p.
Proof.
  by destruct p.
Qed.

(** The key of a backup: the directory the original's last component is
    resolved in, then that component with [.tmp] appended. *)
Lemma resolve_backup cwd p :
  exists stack l,
    resolve cwd p = resolve_step stack l
    /\ resolve cwd (p +:+ ".tmp") = stack ++ [l +:+ ".tmp"].
Proof.
  unfold resolve. rewrite isabs_backup.
  set (full := if isabs p then p else cwd +:+ "/" +:+ p).
  assert ((if isabs p then p +:+ ".tmp" else cwd +:+ "/" +:+ p +:+ ".tmp")
          = full +:+ ".tmp") as ->.
  { unfold full. destruct (isabs p); [done|]. by rewrite !app_assoc_str. }
  destruct (split_snoc sep full) as (init & l & E).
  rewrite (split_app_nosep sep full ".tmp" init l) by done.
  rewrite E, !foldl_snoc. exists (foldl resolve_step [] init), l.
  split; [done|]. apply resolve_step_backup.
Qed.

Lemma key_backup_ne w p : key w (p +:+ ".tmp") <> key w p.
Proof.
  unfold key. destruct (resolve_backup (cwd w) p) as (stack & l & -> & ->).
  unfold resolve_step. intros E. apply (f_equal length) in E as Hlen.
  rewrite length_app in Hlen. simpl in Hlen.
  repeat case_match.
  - lia.
  - rewrite removelast_firstn_len, length_take in Hlen. lia.
  - apply app_inj_tail in E as [_ E]. apply (f_equal String.length) in E.
    rewrite length_app_str in E. simpl in E. lia.
Qed.

Lemma lookup_map {A B} (f : A -> B) (l : list A) (i : nat) :
  map f l !! i = f <$> l !! i.
Proof.
  revert i. induction l as [|x l IH]; intros [|i]; simpl; auto.
Qed.

(** *** The file store *)

Lemma key_set_fs w m p : key (set_fs w m) p = key w p.
Proof. reflexivity. Qed.

Lemma check_parent_None w p :
  check_parent w p = None ->
  truthy p = true /\ key w p <> [] /\ lookup_key w (removelast (key w p)) = Some Dir.
Proof.
  unfold check_parent. destruct (truthy p); cbn [negb]; [|discriminate].
  destruct (key w p) as [|c k]; [discriminate|].
  intros H. do 2 (split; [done|]).
  destruct (lookup_key w (removelast (c :: k))) as [[|]|]; done.
Qed.

Lemma stat_insert w m p n :
  truthy p = true -> key w p <> [] ->
  stat (set_fs w (<[key w p := n]> m)) p = Some n.
Proof.
  intros Hp Hk. unfold stat. rewrite Hp, key_set_fs. unfold lookup_key.
  destruct (key w p) eqn:E; [done|]. simpl. by rewrite lookup_insert_eq.
Qed.

Lemma write_file_writable w p c :
  writable w p ->
  write_file p c w = Ok tt (set_fs w (<[key w p := File c]> (fs w)))
  /\ stat (set_fs w (<[key w p := File c]> (fs w))) p = Some (File c).
Proof.
  intros [Hpar Hdir]. destruct (check_parent_None _ _ Hpar) as (Hp & Hk & _).
  split; [|by apply stat_insert].
  unfold write_file. rewrite Hpar.
  destruct (stat w p) as [[|]|]; done.
Qed.

Lemma stat_key w p : truthy p = true -> stat w p = lookup_key w (key w p).
Proof. unfold stat. by intros ->. Qed.

Lemma lookup_key_frame w w' k :
  (k <> [] -> fs w' !! k = fs w !! k) -> lookup_key w' k = lookup_key w k.
Proof. unfold lookup_key. destruct k; [done|]. intros H. by apply H. Qed.

(** Storing a file does not take away the places where files can be
    stored. *)
Lemma writable_after_write w p q c :
  writable w p -> writable w q ->
  writable (set_fs w (<[key w p := File c]> (fs w))) q.
Proof.
  intros [Hp1 Hp2] [Hq1 Hq2].
  destruct (check_parent_None _ _ Hp1) as (Hpt & Hpk & _).
  destruct (check_parent_None _ _ Hq1) as (Hqt & Hqk & Hqd).
  rewrite stat_key in Hp2, Hq2 by done.
  split.
  - unfold check_parent. rewrite Hqt, key_set_fs. cbn [negb].
    destruct (key w q) as [|x k] eqn:E; [done|].
    rewrite (lookup_key_frame w), Hqd; [done|].
    intros _. cbn [fs set_fs]. apply lookup_insert_ne. intros Heq.
    rewrite <- Heq in Hqd. congruence.
  - rewrite stat_key, key_set_fs by done.
    destruct (decide (key w p = key w q)) as [Heq|Hne].
    + rewrite <- Heq. unfold lookup_key. destruct (key w p); [done|].
      cbn [fs set_fs]. by rewrite lookup_insert_eq.
    + rewrite (lookup_key_frame w); [done|].
      intros _. cbn [fs set_fs]. by apply lookup_insert_ne.
Qed.

(** *** The PDF handler *)

Lemma create_watermark_pdf_code text page_width page_height :
  create_watermark_pdf text page_width page_height
  = [Pdf.Page page_width page_height
       [Pdf.Drawn (overlay_code text page_width page_height)]].
Proof.
  unfold create_watermark_pdf, overlay_code, font_name.
  destruct FONT_REGISTERED; reflexivity.
Qed.

Lemma overlay_marks text page_width page_height :
  Pdf.marks (overlay_code text page_width page_height)
  = [watermark_mark text (page_width / 2) (page_height / 2);
     watermark_mark text (page_width * 0.25) (page_height * 0.75);
     watermark_mark text (page_width * 0.75) (page_height * 0.25)].
Proof. reflexivity. Qed.

Lemma merge_pages_map text pages writer w :
  merge_pages text pages writer w
  = Ok (writer ++ map (fun pg => Pdf.merge_page pg (overlay_page text pg)) pages) w.
Proof.
  revert writer. induction pages as [|pg rest IH]; intros writer; cbn [merge_pages map].
  - by rewrite app_nil_r.
  - rewrite create_watermark_pdf_code. rewrite IH.
    by rewrite <- app_assoc.
Qed.

Lemma add_watermark_pdf_valid input_path output_path text pages w :
  PDF_SUPPORT = true ->
  stat w input_path = Some (File (PdfFile pages)) ->
  writable w output_path ->
  add_watermark_pdf input_path output_path text w
  = Ok true (set_fs w (<[key w output_path :=
               File (PdfFile (map (fun pg => Pdf.merge_page pg (overlay_page text pg))
                                  pages))]> (fs w))).
Proof.
  intros Hsup Hin Hout. unfold add_watermark_pdf. rewrite Hsup. simpl.
  unfold try_except, bind, PdfReader, bind, read_file. rewrite Hin. simpl.
  rewrite merge_pages_map. simpl.
  destruct (write_file_writable w output_path
              (PdfFile (map (fun pg => Pdf.merge_page pg (overlay_page text pg)) pages))
              Hout) as [-> _].
  reflexivity.
Qed.

(** C8.  For a valid input PDF and an output path that can be written, the
    PDF handler succeeds and writes one page per input page to the output
    path.  For every input page it builds a one-page overlay of exactly the
    page's width and height, on which the text is drawn exactly three
    times: at the centre, at 25% of the width and 75% of the height, and at
    75% of the width and 25% of the height, each turned 45 degrees about
    that point, filled (0.7, 0.7, 0.7) at opacity 0.3, in size 30.  The
    output page is the input page with the overlay's content drawn over its
    own. *)
Theorem pdf_overlay_on_every_page input_path output_path text pages w :
  PDF_SUPPORT = true ->
  stat w input_path = Some (File (PdfFile pages)) ->
  writable w output_path ->
  exists w' pages',
    add_watermark_pdf input_path output_path text w = Ok true w'
    /\ stat w' output_path = Some (File (PdfFile pages'))
    /\ length pages' = length pages
    /\ forall i pg, pages !! i = Some pg ->
         exists overlay code,
           create_watermark_pdf text (Pdf.mediabox_width pg) (Pdf.mediabox_height pg)
           = [overlay]
           /\ Pdf.mediabox_width overlay = Pdf.mediabox_width pg
           /\ Pdf.mediabox_height overlay = Pdf.mediabox_height pg
           /\ Pdf.contents overlay = [Pdf.Drawn code]
           /\ Pdf.marks code
              = [watermark_mark text (Pdf.mediabox_width pg / 2)
                                     (Pdf.mediabox_height pg / 2);
                 watermark_mark text (Pdf.mediabox_width pg * 0.25)
                                     (Pdf.mediabox_height pg * 0.75);
                 watermark_mark text (Pdf.mediabox_width pg * 0.75)
                                     (Pdf.mediabox_height pg * 0.25)]
           /\ pages' !! i = Some (Pdf.merge_page pg overlay)
           /\ Pdf.contents (Pdf.merge_page pg overlay)
              = Pdf.contents pg ++ [Pdf.Drawn code].
Proof.
  intros Hsup Hin Hout.
  eexists _, _. split; [by apply add_watermark_pdf_valid|].
  split; [by apply write_file_writable|].
  split; [by rewrite length_map|].
  intros i pg Hi.
  exists (overlay_page text pg),
    (overlay_code text (Pdf.mediabox_width pg) (Pdf.mediabox_height pg)).
  split; [apply create_watermark_pdf_code|].
  do 3 (split; [reflexivity|]).
  split; [apply overlay_marks|].
  split; [|reflexivity].
  by rewrite lookup_map, Hi.
Qed.

(** *** The Word handler *)

Lemma watermark_paragraph_runs text p :
  watermark_paragraph text p
  = Docx.Paragraph (Docx.runs p ++ [watermark_run text]) (Some 1%Z).
Proof. reflexivity. Qed.

Lemma update_first_paragraph_None f hdr :
  update_first_paragraph f hdr = None <-> existsb is_paragraph hdr = false.
Proof.
  induction hdr as [|[p|d] hdr IH]; simpl; [done|done|].
  rewrite <- IH. destruct (update_first_paragraph f hdr); simpl; split; done.
Qed.

Lemma update_first_paragraph_Some f hdr hdr' :
  update_first_paragraph f hdr = Some hdr' ->
  exists before p after,
    hdr = before ++ Docx.Para p :: after
    /\ hdr' = before ++ Docx.Para (f p) :: after
    /\ existsb is_paragraph before = false.
Proof.
  revert hdr'. induction hdr as [|[p|d] hdr IH]; simpl; intros hdr' H; [done| |].
  - injection H as <-. by exists [], p, hdr.
  - destruct (update_first_paragraph f hdr) as [r|]; [|done].
    injection H as <-. destruct (IH r eq_refl) as (before & p & after & -> & -> & Hb).
    by exists (Docx.Tbl d :: before), p, after.
Qed.

Lemma update_first_paragraph_existing f before p after :
  existsb is_paragraph before = false ->
  update_first_paragraph f (before ++ Docx.Para p :: after)
  = Some (before ++ Docx.Para (f p) :: after).
Proof.
  induction before as [|[q|d] before IH]; simpl; intros Hb; [done|done|].
  by rewrite IH.
Qed.

Lemma watermark_header_existing text before p after :
  existsb is_paragraph before = false ->
  watermark_header text (before ++ Docx.Para p :: after)
  = before ++ Docx.Para (watermark_paragraph text p) :: after.
Proof.
  intros Hb. unfold watermark_header.
  by rewrite update_first_paragraph_existing.
Qed.

Lemma watermark_header_created text hdr :
  existsb is_paragraph hdr = false ->
  watermark_header text hdr
  = hdr ++ [Docx.Para (watermark_paragraph text empty_paragraph)].
Proof.
  intros Hb. unfold watermark_header.
  by rewrite (proj2 (update_first_paragraph_None _ _) Hb).
Qed.

(** The turns of several sections on one header: every turn appends a
    run to the same paragraph. *)
Lemma watermark_header_iter_existing text n before p after :
  existsb is_paragraph before = false ->
  Nat.iter (S n) (watermark_header text) (before ++ Docx.Para p :: after)
  = before
    ++ Docx.Para (Docx.Paragraph (Docx.runs p ++ replicate (S n) (watermark_run text))
                                 (Some 1%Z)) :: after.
Proof.
  intros Hb. induction n as [|n IH].
  - simpl. by rewrite watermark_header_existing.
  - change (Nat.iter (S (S n)) ?f ?x) with (f (Nat.iter (S n) f x)).
    rewrite IH, watermark_header_existing, watermark_paragraph_runs by done.
    cbn [Docx.runs]. by rewrite <- app_assoc, <- replicate_S_end.
Qed.

Lemma watermark_header_iter_created text n hdr :
  existsb is_paragraph hdr = false ->
  Nat.iter (S n) (watermark_header text) hdr
  = hdr ++ [Docx.Para (Docx.Paragraph (replicate (S n) (watermark_run text))
                                      (Some 1%Z))].
Proof.
  intros Hb. rewrite Nat.iter_succ_r, watermark_header_created by done.
  destruct n as [|n]; [done|].
  by rewrite watermark_header_iter_existing.
Qed.

Lemma watermark_header_iter text n hdr :
  header_watermarked text (S n) hdr (Nat.iter (S n) (watermark_header text) hdr).
Proof.
  destruct (update_first_paragraph id hdr) as [hdr'|] eqn:E.
  - destruct (update_first_paragraph_Some _ _ _ E) as (before & p & after & -> & _ & Hb).
    rewrite watermark_header_iter_existing by done. by apply hw_existing.
  - apply update_first_paragraph_None in E.
    rewrite watermark_header_iter_created by done. by apply hw_created.
Qed.

Lemma first_paragraph_watermark_header text hdr :
  first_paragraph (watermark_header text hdr)
  = Some (watermark_paragraph text (default empty_paragraph (first_paragraph hdr))).
Proof.
  unfold watermark_header.
  induction hdr as [|[p|d] hdr IH]; simpl; [done|done|].
  destruct (update_first_paragraph (watermark_paragraph text) hdr); simpl; exact IH.
Qed.

Lemma first_paragraph_watermark_header_iter text n hdr :
  first_paragraph (Nat.iter (S n) (watermark_header text) hdr)
  = Some (Docx.Paragraph
            (Docx.runs (default empty_paragraph (first_paragraph hdr))
             ++ replicate (S n) (watermark_run text))
            (Some 1%Z)).
Proof.
  induction n as [|n IH].
  - simpl. by rewrite first_paragraph_watermark_header.
  - change (Nat.iter (S (S n)) ?f ?x) with (f (Nat.iter (S n) f x)).
    rewrite first_paragraph_watermark_header, IH. cbn [default from_option].
    rewrite watermark_paragraph_runs. unfold id. cbn [Docx.runs].
    by rewrite <- app_assoc, <- replicate_S_end.
Qed.

(** Whose header a section uses. *)
Lemma defining_section_le sections i : defining_section sections i <= i.
Proof.
  induction i as [|i IH]; simpl; [done|].
  destruct (sections !! S i) as [[[h|] p]|]; lia.
Qed.

Lemma defining_section_own sections i :
  defining_section sections i = 0
  \/ exists h p,
       sections !! defining_section sections i = Some (Docx.Section_ (Some h) p).
Proof.
  induction i as [|i IH]; simpl; [by left|].
  destruct (sections !! S i) as [[[h|] p]|] eqn:E; [right; eauto|done..].
Qed.

Lemma defining_section_linked sections i k :
  i < length sections ->
  defining_section sections i < k <= i ->
  exists p, sections !! k = Some (Docx.Section_ None p).
Proof.
  induction i as [|i IH]; simpl; [lia|]. intros Hi Hk.
  destruct (sections !! S i) as [[[h|] p]|] eqn:E.
  - lia.
  - destruct (decide (k = S i)) as [->|]; [eauto|]. apply IH; lia.
  - apply lookup_ge_None in E. lia.
Qed.

Lemma defining_section_ext sections sections' i :
  (forall k, 1 <= k <= i ->
     is_Some (sections' !! k ≫= Docx.header) <-> is_Some (sections !! k ≫= Docx.header)) ->
  defining_section sections' i = defining_section sections i.
Proof.
  induction i as [|i IH]; simpl; [done|]. intros H.
  rewrite IH by (intros; apply H; lia).
  pose proof (H (S i) ltac:(lia)) as Hi.
  destruct (sections' !! S i) as [[[h'|] p']|], (sections !! S i) as [[[h|] p]|];
    simpl in Hi; try done;
    exfalso; eapply (@is_Some_None (list Docx.block)); apply Hi; eauto.
Qed.

Lemma own_header_defining (sections : list Docx.section) j s :
  sections !! j = Some s ->
  j = 0 \/ (exists h p, sections !! j = Some (Docx.Section_ (Some h) p)) ->
  own_header j s = Some (default default_header (Docx.header s)).
Proof.
  intros Hs [->|(h & p & E)]; unfold own_header.
  - by destruct (Docx.header s).
  - rewrite Hs in E. injection E as ->. done.
Qed.

Lemma linked_sections_all (l : list Docx.section) k :
  (forall i, i < k -> exists p, l !! i = Some (Docx.Section_ None p)) ->
  linked_sections (take k l) = k.
Proof.
  revert l. induction k as [|k IH]; intros l H; [done|].
  destruct (H 0) as [p Hp]; [lia|]. destruct l as [|s l]; [done|].
  injection Hp as ->. simpl. f_equal. apply IH.
  intros i Hi. apply (H (S i)). lia.
Qed.

Lemma linked_sections_stop (l : list Docx.section) a k h p :
  l !! a = Some (Docx.Section_ (Some h) p) -> a <= k ->
  linked_sections (take k l) = linked_sections (take a l).
Proof.
  revert a k. induction l as [|s l IH]; intros a k Ha Hk; [done|].
  destruct a as [|a].
  - injection Ha as ->. by destruct k.
  - destruct k as [|k]; [lia|]. simpl in *.
    destruct s as [[hs|] ps]; [done|]. f_equal. apply IH; [done|lia].
Qed.

(** The sections after the turns of the first [m] of them.  A section the
    loop has come to holds its header with one run for each of the
    sections so far that use it; the other sections are as they were. *)
Lemma watermark_turns text sections m :
  m <= length sections ->
  length (foldl (watermark_section text) sections (seq 0 m)) = length sections
  /\ forall j s, sections !! j = Some s ->
       exists s',
         foldl (watermark_section text) sections (seq 0 m) !! j = Some s'
         /\ Docx.section_properties s' = Docx.section_properties s
         /\ Docx.header s'
            = if decide (j < m)
              then hdr ← own_header j s;
                   Some (Nat.iter
                           (S (linked_sections (take (m - S j) (drop (S j) sections))))
                           (watermark_header text) hdr)
              else Docx.header s.
Proof.
  induction m as [|m IH]; intros Hm.
  { simpl. split; [done|]. intros j s Hj. by exists s. }
  destruct IH as [Hlen Hpt]; [lia|].
  rewrite seq_S, foldl_snoc. simpl.
  set (st := foldl (watermark_section text) sections (seq 0 m)) in *.
  assert (Hdef : defining_section st m = defining_section sections m).
  { apply defining_section_ext. intros k Hk.
    destruct (sections !! k) as [s|] eqn:Es.
    - destruct (Hpt k s Es) as (s' & -> & _ & Hh). simpl. rewrite Hh.
      case_decide; [|done]. destruct k; [lia|].
      unfold own_header. by destruct (Docx.header s).
    - assert (st !! k = None) as ->; [|done].
      apply lookup_ge_None. rewrite Hlen. by apply lookup_ge_None. }
  unfold watermark_section. rewrite Hdef.
  pose proof (defining_section_le sections m) as Hle.
  pose proof (defining_section_own sections m) as Hown.
  pose proof (defining_section_linked sections m) as Hlinked.
  set (j0 := defining_section sections m) in *.
  destruct (lookup_lt_is_Some_2 sections j0) as [s0 Es0]; [lia|].
  destruct (Hpt j0 s0 Es0) as (s0' & Es0' & Hp0 & Hh0).
  rewrite Es0'.
  split; [by rewrite length_insert|].
  intros j s Hj.
  destruct (decide (j = j0)) as [->|Hne].
  - rewrite Es0 in Hj. injection Hj as <-.
    rewrite list_lookup_insert_eq by (rewrite Hlen; lia).
    eexists. split; [reflexivity|]. split; [done|]. cbn [Docx.header].
    rewrite decide_True by lia.
    rewrite (own_header_defining sections j0 s0) by done. cbn [mbind option_bind].
    rewrite Hh0. case_decide as Hlt.
    + rewrite (own_header_defining sections j0 s0) by done.
      cbn [mbind option_bind default from_option]. unfold id. do 2 f_equal.
      rewrite !linked_sections_all.
      * by replace (m - j0) with (S (m - S j0)) by lia.
      * intros i Hi. rewrite lookup_drop. apply Hlinked; lia.
      * intros i Hi. rewrite lookup_drop. apply Hlinked; lia.
    + by replace (m - j0) with 0 by lia.
  - rewrite list_lookup_insert_ne by done.
    destruct (Hpt j s Hj) as (s' & Es' & Hp & Hh).
    exists s'. split; [done|]. split; [done|]. rewrite Hh.
    destruct (decide (j < m)) as [Hjm|Hjm].
    + rewrite decide_True by lia.
      destruct (own_header j s) as [hdr|] eqn:Eo; [|done]. cbn [mbind option_bind].
      assert (Heq : linked_sections (take (m - j) (drop (S j) sections))
                    = linked_sections (take (m - S j) (drop (S j) sections))).
      { destruct (decide (j < j0)) as [Hlt|Hge].
        - destruct Hown as [E0|(h & p & Eh)]; [lia|].
          assert (Hat : drop (S j) sections !! (j0 - S j)
                        = Some (Docx.Section_ (Some h) p)).
          { rewrite lookup_drop. by replace (S j + (j0 - S j)) with j0 by lia. }
          rewrite (linked_sections_stop _ _ (m - j) _ _ Hat) by lia.
          by rewrite (linked_sections_stop _ _ (m - S j) _ _ Hat) by lia.
        - destruct (Hlinked j) as [p Ep]; [lia|lia|].
          rewrite Hj in Ep. injection Ep as ->.
          destruct j; [lia|]. done. }
      by rewrite Heq.
    + destruct (decide (j < S m)) as [Hjm'|Hjm']; [|done].
      assert (j = m) as -> by lia.
      destruct (Hlinked m) as [p Ep]; [lia|lia|].
      rewrite Hj in Ep. injection Ep as ->.
      destruct m; [lia|]. done.
Qed.

(** The loop over the sections, as a whole: the body is not touched, the
    sections keep their number and their properties, and the header of
    every section that holds one has had one turn for each of the sections
    that use it. *)
Lemma watermark_document_sections text doc :
  Docx.body (watermark_document text doc) = Docx.body doc
  /\ length (Docx.sections (watermark_document text doc)) = length (Docx.sections doc)
  /\ forall j s, Docx.sections doc !! j = Some s ->
       exists s',
         Docx.sections (watermark_document text doc) !! j = Some s'
         /\ Docx.section_properties s' = Docx.section_properties s
         /\ Docx.header s'
            = (hdr ← own_header j s;
               Some (Nat.iter (sharing (Docx.sections doc) j)
                              (watermark_header text) hdr)).
Proof.
  destruct (watermark_turns text (Docx.sections doc) (length (Docx.sections doc)))
    as [Hlen Hpt]; [done|].
  split; [done|]. split; [exact Hlen|].
  intros j s Hj. destruct (Hpt j s Hj) as (s' & Es' & Hp & Hh).
  exists s'. split; [exact Es'|]. split; [done|]. rewrite Hh.
  rewrite decide_True by (by eapply lookup_lt_Some).
  unfold sharing. rewrite take_ge; [done|]. rewrite length_drop. lia.
Qed.

Lemma add_watermark_docx_valid input_path output_path text doc w :
  DOCX_SUPPORT = true ->
  stat w input_path = Some (File (DocxFile doc)) ->
  writable w output_path ->
  add_watermark_docx input_path output_path text w
  = Ok true (set_fs w (<[key w output_path :=
               File (DocxFile (watermark_document text doc))]> (fs w))).
Proof.
  intros Hsup Hin Hout. unfold add_watermark_docx. rewrite Hsup. simpl.
  unfold try_except, bind, Document, bind, read_file. rewrite Hin. simpl.
  destruct (write_file_writable w output_path
              (DocxFile (watermark_document text doc)) Hout) as [-> _].
  reflexivity.
Qed.

(** When the handler reports success, it has read a document and written
    its watermarked copy, and nothing else. *)
Lemma add_watermark_docx_true input_path output_path text w w' :
  add_watermark_docx input_path output_path text w = Ok true w' ->
  exists doc,
    stat w input_path = Some (File (DocxFile doc))
    /\ writable w output_path
    /\ w' = set_fs w (<[key w output_path :=
               File (DocxFile (watermark_document text doc))]> (fs w)).
Proof.
  unfold add_watermark_docx. destruct DOCX_SUPPORT; simpl; [|discriminate].
  unfold try_except, bind, Document, bind, read_file.
  destruct (stat w input_path) as [[c|]|]; simpl; try discriminate.
  destruct c as [d|doc|d|d]; simpl; try discriminate.
  unfold write_file, ret, writable.
  destruct (check_parent w output_path) as [e|]; simpl; [destruct e; discriminate|].
  destruct (stat w output_path) as [[c|]|] eqn:Hout; simpl; try discriminate;
    intros H; injection H as <-; exists doc; done.
Qed.

(** The sections use the same headers after the loop as before it. *)
Lemma defining_section_watermark_document text doc i :
  defining_section (Docx.sections (watermark_document text doc)) i
  = defining_section (Docx.sections doc) i.
Proof.
  destruct (watermark_document_sections text doc) as (_ & Hlen & Hpt).
  apply defining_section_ext. intros k Hk.
  destruct (Docx.sections doc !! k) as [s|] eqn:Es.
  - destruct (Hpt k s Es) as (s' & -> & _ & Hh). simpl. rewrite Hh.
    destruct k; [lia|]. unfold own_header. by destruct (Docx.header s).
  - assert (Docx.sections (watermark_document text doc) !! k = None) as ->; [|done].
    apply lookup_ge_None. rewrite Hlen. by apply lookup_ge_None.
Qed.

(** C9.  For a valid Word document and an output path that can be written,
    the handler succeeds and the document it writes has the body of the
    input, unchanged, and the same sections with the same properties, each
    using the header of the same section as before.  What changes is in
    the headers.  For every section, the header it uses is its own or,
    when it has none, the header of the nearest section before it that has
    one (for a first section without a header, the header python-docx
    adds, one empty paragraph); in that header one centred run with the
    text, at 36 points and in light gray, has been appended to the first
    paragraph for each of the sections that use the header, the paragraph
    being created when the header had none.  So a header that [n]
    sections use has [n] runs more, and a header that one section uses has
    one.  Nothing else in the file store changes. *)
Theorem docx_only_headers_change input_path output_path text doc w :
  DOCX_SUPPORT = true ->
  stat w input_path = Some (File (DocxFile doc)) ->
  writable w output_path ->
  exists w' doc',
    add_watermark_docx input_path output_path text w = Ok true w'
    /\ stat w' output_path = Some (File (DocxFile doc'))
    /\ fs w' = <[key w output_path := File (DocxFile doc')]> (fs w)
    /\ Docx.body doc' = Docx.body doc
    /\ length (Docx.sections doc') = length (Docx.sections doc)
    /\ forall i s, Docx.sections doc !! i = Some s ->
         let j := defining_section (Docx.sections doc) i in
         exists s' sj sj' hdr hdr',
           Docx.sections doc' !! i = Some s'
           /\ Docx.section_properties s' = Docx.section_properties s
           /\ defining_section (Docx.sections doc') i = j
           /\ (i <> j -> Docx.header s = None /\ Docx.header s' = None)
           /\ Docx.sections doc !! j = Some sj
           /\ own_header j sj = Some hdr
           /\ Docx.sections doc' !! j = Some sj'
           /\ Docx.header sj' = Some hdr'
           /\ header_watermarked text (sharing (Docx.sections doc) j) hdr hdr'
           /\ (linked_sections (drop (S j) (Docx.sections doc)) = 0 ->
               header_watermarked text 1 hdr hdr').
Proof.
  intros Hsup Hin Hout.
  exists (set_fs w (<[key w output_path :=
            File (DocxFile (watermark_document text doc))]> (fs w))),
    (watermark_document text doc).
  split; [by apply add_watermark_docx_valid|].
  split; [by apply write_file_writable|].
  split; [reflexivity|].
  destruct (watermark_document_sections text doc) as (Hbody & Hlen & Hpt).
  split; [exact Hbody|]. split; [exact Hlen|].
  intros i s Hi j.
  destruct (Hpt i s Hi) as (s' & Es' & Hp & Hh).
  pose proof (defining_section_le (Docx.sections doc) i) as Hle. fold j in Hle.
  pose proof (lookup_lt_Some _ _ _ Hi) as Hlt.
  destruct (lookup_lt_is_Some_2 (Docx.sections doc) j) as [sj Esj]; [lia|].
  pose proof (own_header_defining _ j sj Esj (defining_section_own _ i)) as Ho.
  destruct (Hpt j sj Esj) as (sj' & Esj' & _ & Hhj).
  rewrite Ho in Hhj. cbn [mbind option_bind] in Hhj.
  exists s', sj, sj'. eexists _, _.
  split; [exact Es'|]. split; [exact Hp|].
  split; [apply defining_section_watermark_document|].
  split.
  { intros Hne.
    destruct (defining_section_linked (Docx.sections doc) i i Hlt) as [p Ep];
      [fold j; lia|].
    rewrite Hi in Ep. injection Ep as ->. split; [done|].
    rewrite Hh. destruct i; [lia|]. done. }
  split; [exact Esj|]. split; [exact Ho|]. split; [exact Esj'|].
  split; [exact Hhj|]. split; [apply watermark_header_iter|].
  intros H0. unfold sharing. rewrite H0. apply watermark_header_iter.
Qed.

(** The sections that are linked to the previous one are the same after
    the loop as before it. *)
Lemma linked_sections_ext (l l' : list Docx.section) :
  length l' = length l ->
  (forall k s s', l !! k = Some s -> l' !! k = Some s' ->
     Docx.header s' = None <-> Docx.header s = None) ->
  linked_sections l' = linked_sections l.
Proof.
  revert l'. induction l as [|s l IH]; intros [|s' l'] Hlen H; try done.
  pose proof (H 0 s s' eq_refl eq_refl) as H0.
  destruct s as [[h|] p], s' as [[h'|] p']; simpl in *; try done.
  - destruct H0 as [H0 _]. discriminate (H0 eq_refl).
  - destruct H0 as [_ H0]. discriminate (H0 eq_refl).
  - f_equal. apply IH; [lia|]. intros k s s' Hs Hs'. by apply (H (S k)).
Qed.

Lemma sharing_watermark_document text doc j :
  sharing (Docx.sections (watermark_document text doc)) j
  = sharing (Docx.sections doc) j.
Proof.
  destruct (watermark_document_sections text doc) as (_ & Hlen & Hpt).
  unfold sharing. f_equal. apply linked_sections_ext.
  - by rewrite !length_drop, Hlen.
  - intros k s s'. rewrite !lookup_drop. intros Hs Hs'.
    destruct (Hpt _ _ Hs) as (s1 & Es1 & _ & Hh). rewrite Es1 in Hs'.
    injection Hs' as <-. rewrite Hh. unfold own_header. cbn [Nat.add].
    destruct (Docx.header s); done.
Qed.

(** Two applications of the loop over the sections against one. *)
Lemma watermark_document_twice text doc :
  let once := watermark_document text doc in
  let twice := watermark_document text once in
  (Docx.sections doc <> [] -> twice <> once)
  /\ forall i s hdr,
       Docx.sections doc !! i = Some s ->
       own_header i s = Some hdr ->
       let p0 := default empty_paragraph (first_paragraph hdr) in
       let n := sharing (Docx.sections doc) i in
       exists s1 s2 hdr1 hdr2,
         Docx.sections once !! i = Some s1
         /\ Docx.sections twice !! i = Some s2
         /\ Docx.header s1 = Some hdr1
         /\ Docx.header s2 = Some hdr2
         /\ Docx.runs <$> first_paragraph hdr1
            = Some (Docx.runs p0 ++ replicate n (watermark_run text))
         /\ Docx.runs <$> first_paragraph hdr2
            = Some (Docx.runs p0 ++ replicate (n + n) (watermark_run text)).
Proof.
  intros once twice.
  assert (Hall : forall i s hdr,
       Docx.sections doc !! i = Some s ->
       own_header i s = Some hdr ->
       let p0 := default empty_paragraph (first_paragraph hdr) in
       let n := sharing (Docx.sections doc) i in
       exists s1 s2 hdr1 hdr2,
         Docx.sections once !! i = Some s1
         /\ Docx.sections twice !! i = Some s2
         /\ Docx.header s1 = Some hdr1
         /\ Docx.header s2 = Some hdr2
         /\ Docx.runs <$> first_paragraph hdr1
            = Some (Docx.runs p0 ++ replicate n (watermark_run text))
         /\ Docx.runs <$> first_paragraph hdr2
            = Some (Docx.runs p0 ++ replicate (n + n) (watermark_run text))).
  { intros i s hdr Hi Ho p0 n.
    destruct (watermark_document_sections text doc) as (_ & _ & Hpt1).
    destruct (watermark_document_sections text once) as (_ & _ & Hpt2).
    destruct (Hpt1 i s Hi) as (s1 & Es1 & _ & Hh1).
    destruct (Hpt2 i s1 Es1) as (s2 & Es2 & _ & Hh2).
    rewrite Ho in Hh1. cbn [mbind option_bind] in Hh1.
    assert (Ho1 : own_header i s1 = Some (Nat.iter n (watermark_header text) hdr)).
    { unfold own_header. by rewrite Hh1. }
    unfold once in Hh2.
    rewrite Ho1, sharing_watermark_document in Hh2. cbn [mbind option_bind] in Hh2.
    rewrite <- Nat.iter_add in Hh2. fold n in Hh2.
    exists s1, s2. eexists _, _.
    split; [exact Es1|]. split; [exact Es2|].
    split; [exact Hh1|]. split; [exact Hh2|].
    unfold n, sharing. cbn [Nat.add].
    by rewrite !first_paragraph_watermark_header_iter. }
  split; [|exact Hall]. intros Hne.
  destruct (Docx.sections doc) as [|s rest] eqn:Hs; [done|].
  destruct (own_header 0 s) as [hdr|] eqn:Ho;
    [|unfold own_header in Ho; by destruct (Docx.header s)].
  destruct (Hall 0%nat s hdr eq_refl Ho)
    as (s1 & s2 & hdr1 & hdr2 & H1 & H2 & E1 & E2 & R1 & R2).
  intros Heq. rewrite Heq in H2. rewrite H1 in H2. injection H2 as <-.
  rewrite E1 in E2. injection E2 as <-.
  rewrite R1 in R2. injection R2 as R2.
  apply (f_equal length) in R2. rewrite !length_app in R2. simpl in R2.
  rewrite !length_replicate in R2. unfold sharing in R2. lia.
Qed.

(** C7, amended.  For every document with at least one section and every
    non-empty text, applying the Word handler and then applying it again to
    what it wrote succeeds both times, and the second output differs from
    the first.  In every header the first paragraph ends with the runs of
    both applications: for a header that [n] sections use, [n] watermark
    runs after the first application and [n + n] after the second; for a
    header of one section, one and two.  No run is replaced. *)
Theorem docx_twice_appends_two_runs input_path once_path twice_path text doc w :
  DOCX_SUPPORT = true ->
  text <> "" ->
  Docx.sections doc <> [] ->
  stat w input_path = Some (File (DocxFile doc)) ->
  writable w once_path ->
  writable w twice_path ->
  exists w1 w2 once twice,
    add_watermark_docx input_path once_path text w = Ok true w1
    /\ stat w1 once_path = Some (File (DocxFile once))
    /\ add_watermark_docx once_path twice_path text w1 = Ok true w2
    /\ stat w2 twice_path = Some (File (DocxFile twice))
    /\ twice <> once
    /\ forall i s hdr,
         Docx.sections doc !! i = Some s ->
         own_header i s = Some hdr ->
         let p0 := default empty_paragraph (first_paragraph hdr) in
         let n := sharing (Docx.sections doc) i in
         exists s1 s2 hdr1 hdr2,
           Docx.sections once !! i = Some s1
           /\ Docx.sections twice !! i = Some s2
           /\ Docx.header s1 = Some hdr1
           /\ Docx.header s2 = Some hdr2
           /\ Docx.runs <$> first_paragraph hdr1
              = Some (Docx.runs p0 ++ replicate n (watermark_run text))
           /\ Docx.runs <$> first_paragraph hdr2
              = Some (Docx.runs p0 ++ replicate (n + n) (watermark_run text)).
Proof.
  intros Hsup _ Hne Hin Hw1 Hw2.
  pose proof (write_file_writable w once_path
                (DocxFile (watermark_document text doc)) Hw1) as [_ Hst1].
  pose proof (writable_after_write w once_path twice_path
                (DocxFile (watermark_document text doc)) Hw1 Hw2) as Hw2'.
  set (w1 := set_fs w _) in *.
  pose proof (write_file_writable w1 twice_path
                (DocxFile (watermark_document text (watermark_document text doc)))
                Hw2') as [_ Hst2].
  destruct (watermark_document_twice text doc) as [Hdiff Hruns].
  eexists w1, _, _, _.
  split; [by apply add_watermark_docx_valid|]. split; [exact Hst1|].
  split; [by apply add_watermark_docx_valid|]. split; [exact Hst2|].
  split; [by apply Hdiff|exact Hruns].
Qed.

(** *** What can be raised *)

Lemma bind_ret_l {A B} (a : A) (f : A -> M B) : bind (ret a) f = f a.
Proof. reflexivity. Qed.

Lemma returns_no_exit {A} (m : M A) : returns m -> no_exit m.
Proof. intros H w e w' E. destruct (H w) as (a & w1 & E1). congruence. Qed.

Lemma returns_ret {A} (a : A) : returns (ret a).
Proof. intros w. by exists a, w. Qed.

Lemma returns_print line : returns (print line).
Proof. intros w. by eexists _, _. Qed.

Lemma returns_bind {A B} (m : M A) (f : A -> M B) :
  returns m -> (forall a, returns (f a)) -> returns (bind m f).
Proof.
  intros Hm Hf w. unfold bind. destruct (Hm w) as (a & w1 & ->). apply Hf.
Qed.

Lemma no_exit_bind {A B} (m : M A) (f : A -> M B) :
  no_exit m -> (forall a, no_exit (f a)) -> no_exit (bind m f).
Proof.
  intros Hm Hf w e w'. unfold bind. destruct (m w) as [a w1|e1 w1] eqn:E.
  - apply Hf.
  - intros [= <- <-]. by apply (Hm w e1 w1).
Qed.

Lemma returns_try_except {A} (body : M A) (handler : exn -> M A) :
  no_exit body -> (forall e, returns (handler e)) ->
  returns (try_except body handler).
Proof.
  intros Hb Hh w. unfold try_except. destruct (body w) as [a w1|e w1] eqn:E.
  - by exists a, w1.
  - rewrite (Hb w e w1 E). apply Hh.
Qed.

Lemma no_exit_raise {A} e : is_Exception e = true -> no_exit (@raise A e).
Proof. intros He w e' w'. unfold raise. by intros [= <- <-]. Qed.

Lemma no_exit_read_file p : no_exit (read_file p).
Proof.
  intros w e w'. unfold read_file.
  destruct (stat w p) as [[|]|]; intros [= <- <-]; done.
Qed.

Lemma check_parent_Exception w p e :
  check_parent w p = Some e -> is_Exception e = true.
Proof.
  unfold check_parent. destruct (negb (truthy p)); [by intros [= <-]|].
  destruct (key w p) as [|c k]; [by intros [= <-]|].
  destruct (lookup_key w (removelast (c :: k))) as [[|]|]; intros [= <-]; done.
Qed.

Lemma no_exit_write_file p c : no_exit (write_file p c).
Proof.
  intros w e w'. unfold write_file.
  destruct (check_parent w p) as [e1|] eqn:E.
  - intros [= <- <-]. by eapply check_parent_Exception.
  - destruct (stat w p) as [[|]|]; intros [= <- <-]; done.
Qed.

Lemma no_exit_os_rename src dst : no_exit (os_rename src dst).
Proof.
  intros w e w'. unfold os_rename.
  destruct (stat w src) as [[c|]|]; [| |by intros [= <- <-]];
    (destruct (check_parent w dst) as [e1|] eqn:E;
     [intros [= <- <-]; by eapply check_parent_Exception|]);
    destruct (stat w dst) as [[|]|]; repeat case_match; intros [= <- <-]; done.
Qed.

Lemma no_exit_os_remove p : no_exit (os_remove p).
Proof.
  intros w e w'. unfold os_remove.
  destruct (stat w p) as [[|]|]; intros [= <- <-]; done.
Qed.

Lemma no_exit_os_makedirs name exist_ok : no_exit (os_makedirs name exist_ok).
Proof.
  intros w e w'. unfold os_makedirs.
  repeat case_match; intros [= <- <-]; done.
Qed.

Lemma no_exit_relpath p start : no_exit (relpath p start).
Proof.
  intros w e w'. unfold relpath, abspath, os_getcwd, bind, ret, raise.
  repeat case_match; simplify_eq; intros [= <- <-]; done.
Qed.

(** The handlers catch what they raise: each returns a boolean. *)
Lemma add_watermark_pdf_returns input_path output_path text :
  returns (add_watermark_pdf input_path output_path text).
Proof.
  unfold add_watermark_pdf. destruct PDF_SUPPORT; simpl.
  - apply returns_try_except.
    + apply no_exit_bind.
      * apply no_exit_bind; [apply no_exit_read_file|].
        intros [| | |]; (apply returns_no_exit, returns_ret || by apply no_exit_raise).
      * intros reader. apply no_exit_bind.
        { intros w e w'. by rewrite merge_pages_map. }
        intros writer. apply no_exit_bind; [apply no_exit_write_file|].
        intros _. apply returns_no_exit, returns_ret.
    + intros e. apply returns_bind; [apply returns_print|]. intros _. apply returns_ret.
  - repeat (apply returns_bind; [apply returns_print|]; intros _). apply returns_ret.
Qed.

Lemma add_watermark_docx_returns input_path output_path text :
  returns (add_watermark_docx input_path output_path text).
Proof.
  unfold add_watermark_docx. destruct DOCX_SUPPORT; simpl.
  - apply returns_try_except.
    + apply no_exit_bind.
      * apply no_exit_bind; [apply no_exit_read_file|].
        intros [| | |]; (apply returns_no_exit, returns_ret || by apply no_exit_raise).
      * intros doc. apply no_exit_bind; [apply no_exit_write_file|].
        intros _. apply returns_no_exit, returns_ret.
    + intros e. apply returns_bind; [apply returns_print|]. intros _. apply returns_ret.
  - repeat (apply returns_bind; [apply returns_print|]; intros _). apply returns_ret.
Qed.

Lemma no_exit_load_workbook p : no_exit (load_workbook p).
Proof.
  unfold load_workbook. case_match; [by apply no_exit_raise|].
  apply no_exit_bind; [apply no_exit_read_file|].
  intros [| | |]; (apply returns_no_exit, returns_ret || by apply no_exit_raise).
Qed.

Lemma add_watermark_xlsx_returns input_path output_path text :
  returns (add_watermark_xlsx input_path output_path text).
Proof.
  unfold add_watermark_xlsx. destruct XLSX_SUPPORT; simpl.
  - apply returns_try_except.
    + apply no_exit_bind.
      * apply no_exit_load_workbook.
      * intros wb. apply no_exit_bind; [apply no_exit_write_file|].
        intros _. apply returns_no_exit, returns_ret.
    + intros e. apply returns_bind; [apply returns_print|]. intros _. apply returns_ret.
  - repeat (apply returns_bind; [apply returns_print|]; intros _). apply returns_ret.
Qed.

Lemma handler_for_returns ext add_watermark input_path output_path text :
  handler_for ext = Some add_watermark ->
  returns (add_watermark input_path output_path text).
Proof.
  unfold handler_for. repeat case_match; intros [= <-];
    auto using add_watermark_pdf_returns, add_watermark_docx_returns,
      add_watermark_xlsx_returns.
Qed.

(** *** One file: what can be raised *)

Lemma no_exit_resolve_paths file_path output_dir overwrite :
  no_exit (resolve_paths file_path output_dir overwrite).
Proof.
  unfold resolve_paths. destruct (given output_dir) as [d|].
  - apply no_exit_bind; [apply no_exit_os_makedirs|].
    intros _. apply returns_no_exit, returns_ret.
  - destruct overwrite.
    + apply no_exit_bind; [apply no_exit_os_rename|].
      intros _. apply returns_no_exit, returns_ret.
    + destruct (splitext file_path). apply returns_no_exit, returns_ret.
Qed.

Lemma no_exit_process_file file_path text output_dir overwrite :
  no_exit (process_file file_path text output_dir overwrite).
Proof.
  unfold process_file. apply no_exit_bind; [apply no_exit_resolve_paths|].
  intros [input_path output_path].
  destruct (handler_for _) as [add_watermark|] eqn:Hh.
  - apply no_exit_bind; [eapply returns_no_exit, handler_for_returns, Hh|].
    intros success. apply no_exit_bind; [|intros _; apply returns_no_exit, returns_ret].
    destruct (overwrite && _); [|apply returns_no_exit, returns_ret].
    destruct success; [apply no_exit_os_remove|apply no_exit_os_rename].
  - apply returns_no_exit, returns_bind; [apply returns_print|].
    intros _. apply returns_ret.
Qed.

(** Without an output directory and without [overwrite], nothing outside a
    handler can fail: the call returns. *)
Lemma process_file_sibling_returns file_path text output_dir :
  given output_dir = None ->
  returns (process_file file_path text output_dir false).
Proof.
  intros Hg. unfold process_file, resolve_paths. rewrite Hg.
  destruct (splitext file_path) as [base extension] eqn:Hs.
  apply returns_bind; [apply returns_ret|]. intros [input_path output_path].
  destruct (handler_for _) as [add_watermark|] eqn:Hh.
  - apply returns_bind; [eapply handler_for_returns, Hh|].
    intros success. simpl. apply returns_bind; apply returns_ret || (intros; apply returns_ret).
  - apply returns_bind; [apply returns_print|]. intros _. apply returns_ret.
Qed.

(** *** What a handler does to the file store *)

Ltac handler_write_tac w output_path :=
  destruct (check_parent w output_path) as [e|] eqn:Hpar; simpl;
  [destruct (is_Exception e) eqn:He;
     [eexists false, _; split; [reflexivity|]; split; reflexivity
     |apply check_parent_Exception in Hpar; congruence]|];
  destruct (stat w output_path) as [[c|]|] eqn:Hout; simpl;
  try (eexists false, _; split; [reflexivity|]; split; reflexivity);
  (eexists true, _; split; [reflexivity|]; split; [reflexivity|];
   eexists _, _; split; [first [reflexivity|eassumption]|]; split; [|reflexivity];
   split; [done|congruence]).

Ltac handler_effect_tac :=
  intros input_path output_path text w;
  unfold try_except, bind, read_file, write_file, writable, print, ret, raise;
  destruct (stat w input_path) as [[[d|d|d|d]|]|] eqn:Hin; simpl;
  try (eexists false, _; split; [reflexivity|]; split; reflexivity);
  rewrite ?merge_pages_map;
  handler_write_tac w output_path.

Lemma add_watermark_pdf_effect : handler_effect add_watermark_pdf.
Proof.
  unfold handler_effect, add_watermark_pdf, PdfReader.
  destruct PDF_SUPPORT; simpl; [handler_effect_tac|].
  intros. eexists false, _. split; [reflexivity|]. split; reflexivity.
Qed.

Lemma add_watermark_docx_effect : handler_effect add_watermark_docx.
Proof.
  unfold handler_effect, add_watermark_docx, Document.
  destruct DOCX_SUPPORT; simpl; [handler_effect_tac|].
  intros. eexists false, _. split; [reflexivity|]. split; reflexivity.
Qed.

(** [load_workbook] returns the workbook of a file whose name it takes and
    raises for every other path, without touching anything. *)
Lemma load_workbook_cases p w :
  (exists wb,
      load_workbook p w = Ok wb w
      /\ stat w p = Some (File (XlsxFile wb))
      /\ lower (splitext p).2 ∈ Xlsx.SUPPORTED_FORMATS)
  \/ (exists e,
        load_workbook p w = Raise e w
        /\ is_Exception e = true
        /\ forall wb, stat w p = Some (File (XlsxFile wb)) ->
                      lower (splitext p).2 ∉ Xlsx.SUPPORTED_FORMATS).
Proof.
  unfold load_workbook. case_bool_decide as Hfmt; cbn [negb].
  - unfold bind, read_file, ret, raise.
    destruct (stat w p) as [[[d|d|d|d]|]|] eqn:Hin;
      first [left; by exists d | right; eexists; by repeat split].
  - right. eexists. by repeat split.
Qed.

Lemma add_watermark_xlsx_effect : handler_effect add_watermark_xlsx.
Proof.
  unfold handler_effect, add_watermark_xlsx.
  destruct XLSX_SUPPORT; simpl.
  2:{ intros. eexists false, _. split; [reflexivity|]. split; reflexivity. }
  intros input_path output_path text w.
  unfold try_except, bind at 1.
  destruct (load_workbook_cases input_path w)
    as [(wb & -> & Hin & _)|(e & -> & He & _)].
  - unfold bind, write_file, writable, print, ret.
    handler_write_tac w output_path.
  - rewrite He. unfold bind, print, ret.
    eexists false, _. split; [reflexivity|]. split; reflexivity.
Qed.

Lemma handler_for_effect ext add_watermark :
  handler_for ext = Some add_watermark -> handler_effect add_watermark.
Proof.
  unfold handler_for. repeat case_match; intros [= <-];
    auto using add_watermark_pdf_effect, add_watermark_docx_effect,
      add_watermark_xlsx_effect.
Qed.

(** *** Overwriting in place *)

Lemma well_formed_parent w k n :
  well_formed w = true -> fs w !! k = Some n ->
  lookup_key w (removelast k) = Some Dir.
Proof.
  unfold well_formed. rewrite forallb_forall. intros Hwf Hk.
  specialize (Hwf (k, n)). simpl in Hwf.
  destruct (lookup_key w (removelast k)) as [[|]|]; try done;
    discriminate Hwf; apply list_elem_of_In, elem_of_map_to_list, Hk.
Qed.

Lemma stat_Some_truthy w p n : stat w p = Some n -> truthy p = true.
Proof. unfold stat. by destruct (truthy p). Qed.

(** A regular file whose backup name can be created is named by a last
    component of its own, and the backup lies beside it. *)
Lemma backup_keys w p c :
  well_formed w = true ->
  stat w p = Some (File c) ->
  check_parent w (p +:+ ".tmp") = None ->
  exists stack l,
    key w p = stack ++ [l]
    /\ key w (p +:+ ".tmp") = stack ++ [l +:+ ".tmp"]
    /\ lookup_key w stack = Some Dir
    /\ fs w !! (stack ++ [l]) = Some (File c).
Proof.
  intros Hwf Hst Hpar. pose proof (stat_Some_truthy _ _ _ Hst) as Hp.
  apply check_parent_None in Hpar as (_ & _ & Hdir).
  unfold stat in Hst. rewrite Hp in Hst. unfold key in *.
  destruct (resolve_backup (cwd w) p) as (stack & l & Ek & Ekt).
  rewrite Ekt, removelast_last in Hdir. rewrite Ek in Hst.
  exists stack, l. unfold resolve_step in *.
  destruct (String.eqb l "" || String.eqb l curdir); [congruence|].
  destruct (String.eqb l pardir).
  - exfalso. destruct stack as [|x stack _] using rev_ind; [done|].
    rewrite removelast_last in *.
    assert (fs w !! (stack ++ [x]) = Some Dir) as Hx.
    { unfold lookup_key in Hdir.
      destruct (stack ++ [x]) eqn:E; [by destruct stack|done]. }
    apply (well_formed_parent _ _ _ Hwf) in Hx.
    rewrite removelast_last in Hx. congruence.
  - do 3 (split; [done|]). unfold lookup_key in Hst.
    by destruct (stack ++ [l]) eqn:E; [destruct stack|].
Qed.

Lemma os_rename_file src dst c w :
  stat w src = Some (File c) ->
  writable w dst ->
  os_rename src dst w
  = Ok tt (set_fs w (<[key w dst := File c]> (delete (key w src) (fs w)))).
Proof.
  intros Hsrc [Hpar Hdir]. unfold os_rename. rewrite Hsrc, Hpar.
  by destruct (stat w dst) as [[|]|].
Qed.

Lemma os_remove_file p c w :
  stat w p = Some (File c) ->
  os_remove p w = Ok tt (set_fs w (delete (key w p) (fs w))).
Proof. intros Hp. unfold os_remove. by rewrite Hp. Qed.

Lemma lookup_key_snoc w stack l :
  lookup_key w (stack ++ [l]) = fs w !! (stack ++ [l]).
Proof. unfold lookup_key. by destruct stack. Qed.

Lemma check_parent_snoc w p stack l :
  truthy p = true -> key w p = stack ++ [l] -> lookup_key w stack = Some Dir ->
  check_parent w p = None.
Proof.
  intros Hp Hk Hdir. unfold check_parent. rewrite Hp, Hk. cbn [negb].
  destruct (stack ++ [l]) as [|x k] eqn:E; [by destruct stack|].
  by rewrite <- E, removelast_last, Hdir.
Qed.

(** With [overwrite] and no output directory, for a regular file with a
    supported extension whose path does not contain [.tmp]: the call
    returns, no backup is left, the original path holds the handler's
    output on success and its former content on failure, and every other
    path is as before. *)
Lemma overwrite_outcome file_path text c add_watermark w :
  well_formed w = true ->
  stat w file_path = Some (File c) ->
  writable w (file_path +:+ ".tmp") ->
  handler_for (lower (splitext file_path).2) = Some add_watermark ->
  occurs ".tmp" file_path = false ->
  exists b w',
    process_file file_path text None true w = Ok b w'
    /\ stat w' (file_path +:+ ".tmp") = None
    /\ (if b then exists c', stat w' file_path = Some (File c')
        else stat w' file_path = Some (File c))
    /\ forall q, key w q <> key w file_path ->
                 key w q <> key w (file_path +:+ ".tmp") ->
                 stat w' q = stat w q.
Proof.
  intros Hwf Hst Hbak Hh Hrep%(replace_absent _ _ "").
  destruct (backup_keys _ _ _ Hwf Hst (proj1 Hbak))
    as (stack & l & Ek & Ekt & Hstack & Hfile).
  pose proof (stat_Some_truthy _ _ _ Hst) as Hp.
  assert (truthy (file_path +:+ ".tmp") = true) as Hpt by by destruct file_path.
  assert (Hne : stack ++ [l] <> stack ++ [l +:+ ".tmp"]).
  { intros E. apply app_inj_tail in E as [_ E]. apply (f_equal String.length) in E.
    rewrite length_app_str in E. simpl in E. lia. }
  assert (Hs1 : stack <> stack ++ [l]).
  { intros E. apply (f_equal length) in E. rewrite length_app in E. simpl in E. lia. }
  assert (Hs2 : stack <> stack ++ [l +:+ ".tmp"]).
  { intros E. apply (f_equal length) in E. rewrite length_app in E. simpl in E. lia. }
  unfold process_file, resolve_paths. simpl given. rewrite Hh.
  unfold bind at 1 2. rewrite (os_rename_file _ _ c) by done.
  set (w1 := set_fs w _). unfold ret at 1.
  destruct (handler_for_effect _ _ Hh (file_path +:+ ".tmp") file_path text w1)
    as (b & w2 & Eh & Hcwd & Heff).
  unfold bind at 1. rewrite Eh.
  assert (Hkey : forall q, key w2 q = key w q).
  { intros q. unfold key. by rewrite Hcwd. }
  replace (true && negb (bool_decide (is_Some (given None)))) with true by done.
  rewrite Hrep. unfold bind, ret.
  destruct b.
  - destruct Heff as (c0 & c' & _ & _ & Hfs).
    change (key w1 file_path) with (key w file_path) in Hfs.
    rewrite Ek in Hfs. unfold w1 in Hfs. simpl in Hfs. rewrite Ek, Ekt in Hfs.
    rewrite (os_remove_file _ c).
    2:{ rewrite stat_key, Hkey, Ekt, lookup_key_snoc, Hfs by done.
        by rewrite lookup_insert_ne, lookup_insert_eq. }
    exists true. eexists. split; [reflexivity|].
    rewrite !stat_key by done.
    rewrite !key_set_fs, !Hkey, Ek, Ekt, !lookup_key_snoc. cbn [fs set_fs]. rewrite Hfs.
    split; [by rewrite lookup_delete_eq|].
    split; [exists c'; by rewrite lookup_delete_ne, lookup_insert_eq|].
    intros q Hq1 Hq2. unfold stat. destruct (truthy q); [|done].
    rewrite key_set_fs, Hkey.
    apply lookup_key_frame. intros _. cbn [fs set_fs].
    by rewrite lookup_delete_ne, lookup_insert_ne, lookup_insert_ne, lookup_delete_ne.
  - assert (Hfs : fs w2 = <[stack ++ [l +:+ ".tmp"] := File c]>
                             (delete (stack ++ [l]) (fs w))).
    { rewrite Heff. unfold w1. simpl. by rewrite Ek, Ekt. }
    rewrite (os_rename_file _ _ c).
    2:{ rewrite stat_key, Hkey, Ekt, lookup_key_snoc, Hfs by done.
        by rewrite lookup_insert_eq. }
    2:{ split.
        - apply (check_parent_snoc _ _ stack l); [done|by rewrite Hkey|].
          rewrite (lookup_key_frame w w2), Hstack; [done|].
          intros _. rewrite Hfs. by rewrite lookup_insert_ne, lookup_delete_ne.
        - rewrite stat_key, Hkey, Ek, lookup_key_snoc, Hfs by done.
          by rewrite lookup_insert_ne, lookup_delete_eq. }
    exists false. eexists. split; [reflexivity|].
    rewrite !stat_key by done.
    rewrite !key_set_fs, !Hkey, Ek, Ekt, !lookup_key_snoc. cbn [fs set_fs]. rewrite Hfs.
    split; [by rewrite lookup_insert_ne, lookup_delete_eq|].
    split; [by rewrite lookup_insert_eq|].
    intros q Hq1 Hq2. unfold stat. destruct (truthy q); [|done].
    rewrite key_set_fs, Hkey.
    apply lookup_key_frame. intros _. cbn [fs set_fs].
    by rewrite lookup_insert_ne, lookup_delete_ne, lookup_insert_ne, lookup_delete_ne.
Qed.

Lemma os_rename_moves_file src c w w1 :
  stat w src = Some (File c) ->
  os_rename src (src +:+ ".tmp") w = Ok tt w1 ->
  stat w1 (src +:+ ".tmp") = Some (File c) /\ stat w1 src = None.
Proof.
  intros Hsrc. unfold os_rename. rewrite Hsrc.
  destruct (check_parent w (src +:+ ".tmp")) as [e|] eqn:Hpar; [done|].
  apply check_parent_None in Hpar as (Hpt & Hkt & _).
  destruct (stat w (src +:+ ".tmp")) as [[|]|]; intros [= <-]; try done.
  all: split; [by apply stat_insert|].
  all: pose proof (stat_Some_truthy _ _ _ Hsrc) as Hp.
  all: rewrite stat_key, key_set_fs by done.
  all: rewrite stat_key in Hsrc by done.
  all: unfold lookup_key in *; destruct (key w src) eqn:E; [done|]; rewrite <- E.
  all: cbn [fs set_fs].
  all: rewrite lookup_insert_ne, lookup_delete_eq; [done|apply key_backup_ne].
Qed.

(** With [overwrite], a regular file whose extension has no handler is
    left under its backup name: the rename comes before the dispatch, and
    the branch for an unsupported extension returns at once. *)
Lemma overwrite_unsupported_strands_backup file_path text c w :
  stat w file_path = Some (File c) ->
  writable w (file_path +:+ ".tmp") ->
  handler_for (lower (splitext file_path).2) = None ->
  exists w',
    process_file file_path text None true w = Ok false w'
    /\ stat w' (file_path +:+ ".tmp") = Some (File c)
    /\ stat w' file_path = None.
Proof.
  intros Hst Hbak Hh. unfold process_file, resolve_paths. simpl given. rewrite Hh.
  unfold bind at 1 2. rewrite (os_rename_file _ _ c) by done.
  pose proof (os_rename_file _ _ c w Hst Hbak) as Hren.
  apply (os_rename_moves_file _ _ _ _ Hst) in Hren as [H1 H2].
  eexists. split; [reflexivity|]. split; [exact H1|exact H2].
Qed.

(** *** Where the output goes *)

Lemma lookup_mkdir_all (l : list (list string)) (m : gmap (list string) node) k :
  foldr (fun a m => <[a := Dir]> m) m l !! k
  = if bool_decide (k ∈ l) then Some Dir else m !! k.
Proof.
  induction l as [|a l IH]; simpl; [done|].
  destruct (decide (a = k)) as [->|Hne].
  - rewrite lookup_insert_eq, bool_decide_eq_true_2; [done|by left].
  - rewrite lookup_insert_ne, IH by done.
    destruct (decide (k ∈ l)) as [Hin|Hin].
    + rewrite !bool_decide_eq_true_2; [done|by right|done].
    + rewrite !bool_decide_eq_false_2; [done| |done].
      intros [->|?]%elem_of_cons; done.
Qed.

Lemma self_in_ancestors k : k <> [] -> k ∈ ancestors_and_self k.
Proof.
  intros Hk. unfold ancestors_and_self. apply list_elem_of_In, in_map_iff.
  exists (length k). split; [apply firstn_all|].
  apply in_seq. destruct k; simpl in *; [done|lia].
Qed.

Lemma ancestors_nonempty k a : a ∈ ancestors_and_self k -> a <> [].
Proof.
  unfold ancestors_and_self. intros Ha%list_elem_of_In%in_map_iff.
  destruct Ha as (n & <- & Hn%in_seq). destruct k, n; simpl in *; done || lia.
Qed.

(** [os.makedirs(name, exist_ok=True)], when it returns: the directory
    exists; if it did not before, so does every directory on the way to
    it; and nothing that was in the file store is lost. *)
Lemma os_makedirs_creates name w w1 :
  os_makedirs name true w = Ok tt w1 ->
  stat w1 name = Some Dir
  /\ cwd w1 = cwd w
  /\ (stat w name = None ->
      forall a, a ∈ ancestors_and_self (key w name) -> lookup_key w1 a = Some Dir)
  /\ (forall k n, fs w !! k = Some n -> fs w1 !! k = Some n).
Proof.
  unfold os_makedirs. destruct (truthy name) eqn:Hn; cbn [negb]; [|done].
  unfold stat. rewrite Hn.
  destruct (lookup_key w (key w name)) as [[c|]|] eqn:Hk; [done| |].
  - intros [= <-]. by rewrite Hk.
  - destruct (existsb _ _) eqn:Hfile; [done|]. intros [= <-].
    rewrite key_set_fs.
    assert (Hne : key w name <> []) by (intros E; by rewrite E in Hk).
    split; [|split; [done|split]].
    + unfold lookup_key. destruct (key w name) eqn:E; [done|]. rewrite <- E.
      cbn [fs set_fs]. rewrite lookup_mkdir_all, bool_decide_eq_true_2; [done|].
      apply self_in_ancestors. by rewrite E.
    + intros _ a Ha. unfold lookup_key. destruct a; [done|].
      cbn [fs set_fs]. by rewrite lookup_mkdir_all, bool_decide_eq_true_2.
    + intros k n Hkn. cbn [fs set_fs]. rewrite lookup_mkdir_all.
      case_bool_decide as Hin; [|done].
      assert (is_file_at w k = false) as Hnf.
      { apply not_true_is_false. intros Ht.
        assert (existsb (is_file_at w) (ancestors_and_self (key w name)) = true);
          [|congruence].
        apply existsb_exists. exists k. split; [by apply list_elem_of_In|done]. }
      apply ancestors_nonempty in Hin.
      unfold is_file_at, lookup_key in Hnf. destruct k; [done|].
      rewrite Hkn in Hnf. by destruct n.
Qed.

Lemma process_file_unfold file_path text output_dir overwrite :
  process_file file_path text output_dir overwrite
  = (paths <- resolve_paths file_path output_dir overwrite ;;
     run_handler (lower (splitext file_path).2) text output_dir overwrite paths).
Proof. reflexivity. Qed.

(** C4.  The paths [process_file] hands to the handler.  With an output
    directory (a non-empty [output_dir]), whatever [overwrite] says: the
    directory is created with the missing directories on the way to it,
    the input is the original and the output is
    [output_dir/basename(file_path)].  Otherwise, with [overwrite]: the
    original is first renamed to [file_path.tmp], which is the input, and
    the output is the original path.  Otherwise the input is the original
    and the output is the original's name with [_watermarked] put before
    the extension, in the original's directory. *)
Theorem output_path_resolution file_path text output_dir overwrite w :
  process_file file_path text output_dir overwrite w
  = (paths <- resolve_paths file_path output_dir overwrite ;;
     run_handler (lower (splitext file_path).2) text output_dir overwrite paths) w
  /\ (forall d, given output_dir = Some d ->
        match os_makedirs d true w with
        | Ok _ w1 =>
            resolve_paths file_path output_dir overwrite w
            = Ok (file_path, join d (basename file_path)) w1
            /\ join d (basename file_path)
               = (if endswith_char d sep then d +:+ basename file_path
                  else d +:+ "/" +:+ basename file_path)
            /\ stat w1 d = Some Dir
            /\ (stat w d = None ->
                forall a, a ∈ ancestors_and_self (key w d) ->
                          lookup_key w1 a = Some Dir)
        | Raise e w1 =>
            resolve_paths file_path output_dir overwrite w = Raise e w1
        end)
  /\ (given output_dir = None -> overwrite = true ->
        match os_rename file_path (file_path +:+ ".tmp") w with
        | Ok _ w1 =>
            resolve_paths file_path output_dir overwrite w
            = Ok (file_path +:+ ".tmp", file_path) w1
            /\ forall c, stat w file_path = Some (File c) ->
                         stat w1 (file_path +:+ ".tmp") = Some (File c)
                         /\ stat w1 file_path = None
        | Raise e w1 =>
            resolve_paths file_path output_dir overwrite w = Raise e w1
        end)
  /\ (given output_dir = None -> overwrite = false ->
        exists base extension stem,
          splitext file_path = (base, extension)
          /\ resolve_paths file_path output_dir overwrite w
             = Ok (file_path, base +:+ "_watermarked" +:+ extension) w
          /\ dirname (base +:+ "_watermarked" +:+ extension) = dirname file_path
          /\ basename file_path = stem +:+ extension
          /\ basename (base +:+ "_watermarked" +:+ extension)
             = stem +:+ "_watermarked" +:+ extension).
Proof.
  split; [reflexivity|]. split; [|split].
  - intros d Hd. unfold resolve_paths. rewrite Hd. unfold bind, ret.
    destruct (os_makedirs d true w) as [[] w1|e w1] eqn:E; [|done].
    apply os_makedirs_creates in E as (Hdir & _ & Hanc & _).
    split; [done|]. split; [|done]. eapply join_basename, given_truthy, Hd.
  - intros Hg ->. unfold resolve_paths. rewrite Hg. unfold bind, ret.
    destruct (os_rename _ _ w) as [[] w1|e w1] eqn:E; [|done].
    split; [done|]. intros c Hc. by apply (os_rename_moves_file _ _ w).
  - intros Hg ->. unfold resolve_paths. rewrite Hg.
    destruct (splitext file_path) as [base extension] eqn:Hs.
    destruct (sibling_next_to_original _ _ _ Hs) as (Hdir & stem & Hb1 & Hb2).
    by exists base, extension, stem.
Qed.

(** C10.  For a file with a supported extension the handler is chosen by
    the extension of the path [process_file] was called with: with
    [overwrite] it is the handler the call without [overwrite] runs, now
    reading [file_path.tmp] and writing the original path.  The extension
    of the input path itself, [.tmp], has no handler. *)
Theorem overwrite_dispatch_by_original_extension file_path text w :
  lower (splitext file_path).2 ∈ supported_exts ->
  exists add_watermark,
    handler_for (lower (splitext file_path).2) = Some add_watermark
    /\ process_file file_path text None false w
       = (success <- add_watermark file_path
                       ((splitext file_path).1 +:+ "_watermarked"
                        +:+ (splitext file_path).2) text ;;
          ret success) w
    /\ process_file file_path text None true w
       = (os_rename file_path (file_path +:+ ".tmp") ;;
          success <- add_watermark (file_path +:+ ".tmp") file_path text ;;
          (if success then os_remove (file_path +:+ ".tmp")
           else os_rename (file_path +:+ ".tmp") (replace file_path ".tmp" "")) ;;
          ret success) w
    /\ lower (splitext (file_path +:+ ".tmp")).2 = ".tmp"
    /\ handler_for ".tmp" = None.
Proof.
  intros Hext.
  assert (exists add_watermark,
             handler_for (lower (splitext file_path).2) = Some add_watermark)
    as [add_watermark Hh].
  { unfold supported_exts in Hext. unfold handler_for.
    repeat (apply elem_of_cons in Hext as [->|Hext]; [by eexists|]).
    by apply elem_of_nil in Hext. }
  exists add_watermark. split; [done|].
  assert ((splitext file_path).2 <> "") as Hne.
  { intros E. rewrite E in Hh. done. }
  split; [|split; [|split]].
  - unfold process_file, resolve_paths. simpl given. rewrite Hh.
    by destruct (splitext file_path).
  - unfold process_file, resolve_paths. simpl given. rewrite Hh.
    unfold bind at 1 2 5. by destruct (os_rename _ _ w).
  - by rewrite splitext_backup.
  - reflexivity.
Qed.

(** *** A directory *)

Lemma walk_unfold dir_path text output_dir overwrite root dirs files res :
  walk dir_path text output_dir overwrite root (DirTree dirs files) res
  = (res <- visit_files dir_path text output_dir overwrite root files res ;;
     walk_dirs dir_path text output_dir overwrite root dirs res).
Proof. reflexivity. Qed.

(** Induction on a listing, with the property for every subdirectory. *)
Lemma dirtree_nested_ind (P : dirtree -> Prop) :
  (forall dirs files, Forall (fun d : string * dirtree => P d.2) dirs ->
                      P (DirTree dirs files)) ->
  forall t, P t.
Proof.
  intros H. fix IH 1. intros [dirs files]. apply H.
  induction dirs as [|[d sub] rest IHrest]; constructor; [apply IH|exact IHrest].
Qed.

Lemma eligible_split f :
  eligible f
  = negb (startswith f "~$" || startswith f ".")
    && bool_decide (lower (splitext f).2 ∈ supported_exts).
Proof. reflexivity. Qed.

Lemma visit_file_skipped dir_path text output_dir overwrite root f res :
  eligible f = false ->
  visit_file dir_path text output_dir overwrite root f res = ret res.
Proof.
  unfold visit_file. rewrite eligible_split.
  destruct (startswith f "~$" || startswith f "."); [done|]. simpl.
  by intros ->.
Qed.

Lemma visit_files_filter dir_path text output_dir overwrite root files res w :
  visit_files dir_path text output_dir overwrite root files res w
  = visit_files dir_path text output_dir overwrite root
      (filter (fun f => eligible f = true) files) res w.
Proof.
  revert res w. induction files as [|f rest IH]; intros res w; [done|].
  rewrite filter_cons. destruct (decide (eligible f = true)) as [He|He].
  - cbn [visit_files]. unfold bind.
    destruct (visit_file _ _ _ _ _ _ _ w); [apply IH|done].
  - apply not_true_is_false in He. cbn [visit_files]. unfold bind.
    rewrite visit_file_skipped by done. apply IH.
Qed.


Lemma visit_file_counts dir_path text output_dir overwrite root f res w res' w' :
  visit_file dir_path text output_dir overwrite root f res w = Ok res' w' ->
  success res' + failed res'
  = success res + failed res + (if eligible f then 1 else 0).
Proof.
  destruct (eligible f) eqn:He.
  - unfold visit_file. rewrite eligible_split in He.
    apply andb_true_iff in He as [He1 He2]. apply negb_true_iff in He1.
    rewrite He1, He2. simpl. unfold bind, print, ret.
    destruct (given output_dir) as [d|].
    + unfold bind, ret. destruct (relpath root dir_path w) as [rel w1|]; [|done].
      destruct (process_file _ _ _ _ _) as [[|] w2|];
        intros [= <- <-]; simpl; lia.
    + destruct (process_file _ _ _ _ _) as [[|] w2|];
        intros [= <- <-]; simpl; lia.
  - rewrite visit_file_skipped by done. intros [= <- <-]. lia.
Qed.

Lemma visit_files_counts dir_path text output_dir overwrite root files :
  forall res w res' w',
    visit_files dir_path text output_dir overwrite root files res w = Ok res' w' ->
    success res' + failed res'
    = success res + failed res + length (filter (fun f => eligible f = true) files).
Proof.
  induction files as [|f rest IH]; intros res w res' w'; cbn [visit_files].
  - intros [= <- <-]. simpl. lia.
  - unfold bind. destruct (visit_file _ _ _ _ _ _ _ w) as [res1 w1|] eqn:E; [|done].
    intros H. apply IH in H. apply visit_file_counts in E.
    rewrite filter_cons. destruct (decide (eligible f = true)) as [He|He].
    + rewrite He in E. simpl. lia.
    + apply not_true_is_false in He. rewrite He in E. lia.
Qed.

Lemma walk_counts dir_path text output_dir overwrite t :
  forall root res w res' w',
    walk dir_path text output_dir overwrite root t res w = Ok res' w' ->
    success res' + failed res' = success res + failed res + count_eligible t.
Proof.
  induction t as [dirs files IH] using dirtree_nested_ind.
  intros root res w res' w'. rewrite walk_unfold. unfold bind.
  destruct (visit_files _ _ _ _ _ _ _ w) as [res1 w1|] eqn:E; [|done].
  apply visit_files_counts in E. cbn [count_eligible].
  set (n := length _) in *. clearbody n.
  assert (forall res w, walk_dirs dir_path text output_dir overwrite root dirs res w
                        = Ok res' w' ->
            success res' + failed res'
            = success res + failed res
              + (fix count_dirs (ds : list (string * dirtree)) : nat :=
                   match ds with
                   | [] => 0
                   | (d, sub) :: rest =>
                       if hidden d then count_dirs rest
                       else count_eligible sub + count_dirs rest
                   end) dirs) as Hdirs.
  { clear E. induction IH as [|[d sub] rest Hsub _ IHrest]; intros r0 w0.
    - intros [= <- <-]. lia.
    - cbn [walk_dirs]. simpl in Hsub. destruct (hidden d); [apply IHrest|].
      unfold bind. destruct (walk _ _ _ _ _ sub r0 w0) as [r1 w2|] eqn:E1; [|done].
      intros H. apply IHrest in H. apply Hsub in E1. lia. }
  intros H. apply Hdirs in H. lia.
Qed.

Lemma no_exit_visit_file dir_path text output_dir overwrite root f res :
  no_exit (visit_file dir_path text output_dir overwrite root f res).
Proof.
  unfold visit_file. destruct (_ || _); [apply returns_no_exit, returns_ret|].
  destruct (negb _); [apply returns_no_exit, returns_ret|].
  apply no_exit_bind.
  { destruct (given output_dir); [|apply returns_no_exit, returns_ret].
    apply no_exit_bind; [apply no_exit_relpath|].
    intros rel_path. apply returns_no_exit, returns_ret. }
  intros file_output_dir.
  apply no_exit_bind; [apply returns_no_exit, returns_print|]. intros _.
  apply no_exit_bind; [apply no_exit_process_file|].
  intros [|]; apply returns_no_exit;
    (apply returns_bind; [apply returns_print|]; intros _; apply returns_ret).
Qed.

Lemma no_exit_visit_files dir_path text output_dir overwrite root files :
  forall res, no_exit (visit_files dir_path text output_dir overwrite root files res).
Proof.
  induction files as [|f rest IH]; intros res; cbn [visit_files].
  - apply returns_no_exit, returns_ret.
  - apply no_exit_bind; [apply no_exit_visit_file|]. intros res1. apply IH.
Qed.

Lemma no_exit_walk dir_path text output_dir overwrite t :
  forall root res, no_exit (walk dir_path text output_dir overwrite root t res).
Proof.
  induction t as [dirs files IH] using dirtree_nested_ind. intros root res.
  rewrite walk_unfold. apply no_exit_bind; [apply no_exit_visit_files|].
  clear res. induction IH as [|[d sub] rest Hsub _ IHrest]; intros res.
  - apply returns_no_exit, returns_ret.
  - cbn [walk_dirs]. destruct (hidden d); [apply IHrest|].
    apply no_exit_bind; [apply Hsub|]. intros res1. apply IHrest.
Qed.

Lemma no_exit_process_directory listing dir_path text output_dir overwrite :
  no_exit (process_directory listing dir_path text output_dir overwrite).
Proof. apply no_exit_walk. Qed.

(** Without an output directory and without [overwrite] the walk returns
    its tally, whatever the files hold. *)
Lemma visit_file_sibling_returns dir_path text output_dir root f res :
  given output_dir = None ->
  returns (visit_file dir_path text output_dir false root f res).
Proof.
  intros Hg. unfold visit_file. rewrite Hg.
  destruct (_ || _); [apply returns_ret|].
  destruct (negb _); [apply returns_ret|].
  rewrite bind_ret_l.
  apply returns_bind; [apply returns_print|]. intros _.
  apply returns_bind.
  - by apply process_file_sibling_returns.
  - intros [|]; (apply returns_bind; [apply returns_print|]; intros _; apply returns_ret).
Qed.

Lemma visit_files_sibling_returns dir_path text output_dir root files :
  given output_dir = None ->
  forall res, returns (visit_files dir_path text output_dir false root files res).
Proof.
  intros Hg. induction files as [|f rest IH]; intros res; cbn [visit_files].
  - apply returns_ret.
  - apply returns_bind; [by apply visit_file_sibling_returns|]. apply IH.
Qed.

Lemma walk_sibling_returns dir_path text output_dir t :
  given output_dir = None ->
  forall root res, returns (walk dir_path text output_dir false root t res).
Proof.
  intros Hg. induction t as [dirs files IH] using dirtree_nested_ind.
  intros root res. rewrite walk_unfold.
  apply returns_bind; [by apply visit_files_sibling_returns|].
  clear res. induction IH as [|[d sub] rest Hsub _ IHrest]; intros res.
  - apply returns_ret.
  - cbn [walk_dirs]. destruct (hidden d); [apply IHrest|].
    apply returns_bind; [apply Hsub|]. apply IHrest.
Qed.

(** With originals kept and no output directory, [process_directory]
    returns a tally that counts every eligible file once. *)
Lemma process_directory_sibling_tally listing dir_path text output_dir w :
  given output_dir = None ->
  exists res w',
    process_directory listing dir_path text output_dir false w = Ok res w'
    /\ success res + failed res = count_eligible listing.
Proof.
  intros Hg. unfold process_directory.
  destruct (walk_sibling_returns dir_path text output_dir listing Hg
              dir_path (Results 0 0) w) as (res & w' & E).
  exists res, w'. split; [done|]. apply walk_counts in E. simpl in E. lia.
Qed.

(** *** The command line *)

Lemma run_cases args listing w :
  run args listing w
  = match target_of args with
    | None => ExitStatus 1
    | Some target =>
        match stat w target with
        | None => ExitStatus 1
        | Some (File _) =>
            match process_file target (arg_text args) (arg_output args)
                    (arg_overwrite args) w with
            | Ok true _ => ExitStatus 0
            | Ok false _ => ExitStatus 1
            | Raise _ _ => ExitStatus 1
            end
        | Some Dir =>
            match process_directory listing target (arg_text args)
                    (arg_output args) (arg_overwrite args) w with
            | Ok _ _ => ExitStatus 0
            | Raise _ _ => ExitStatus 1
            end
        end
    end.
Proof.
  unfold run, main, target_of.
  destruct (given (arg_directory args)) as [target|];
    [|destruct (given (arg_path args)) as [target|]; [|reflexivity]].
  all: cbv [bind ret os_path_exists os_path_isfile print sys_exit raise].
  all: destruct (stat w target) as [[c|]|] eqn:Hst.
  all: rewrite ?bool_decide_eq_true_2 by done.
  all: rewrite ?bool_decide_eq_false_2 by (by intros [? ?]).
  all: cbn [negb]; rewrite ?Hst; cbn beta iota; try reflexivity.
  all: try (destruct (process_file _ _ _ _ w) as [[|] w1|e w1] eqn:E;
            [reflexivity|reflexivity|];
            pose proof (no_exit_process_file _ _ _ _ _ _ _ E) as He;
            by destruct e).
  all: destruct (process_directory _ _ _ _ _ w) as [res w1|e w1] eqn:E;
         [reflexivity|];
         pose proof (no_exit_process_directory _ _ _ _ _ _ _ _ E) as He;
         by destruct e.
Qed.

(** The exit status of a run, case by case.  It is 0 exactly when the
    target is a file and [process_file] returns true, or the target is a
    directory and [process_directory] returns, whatever the tally.  It is
    1 exactly when no target could be resolved from the arguments, when
    the target does not exist, when the target is a file and
    [process_file] returns false, or when [process_file] or
    [process_directory] raises: [main] catches nothing.  No other status
    is ever set. *)
Lemma exit_status_cases args listing w :
  (run args listing w = ExitStatus 0 <->
     exists target w',
       target_of args = Some target
       /\ ((exists c, stat w target = Some (File c))
            /\ process_file target (arg_text args) (arg_output args)
                 (arg_overwrite args) w = Ok true w'
           \/ stat w target = Some Dir
              /\ exists res,
                   process_directory listing target (arg_text args)
                     (arg_output args) (arg_overwrite args) w = Ok res w'))
  /\ (run args listing w = ExitStatus 1 <->
        target_of args = None
        \/ (exists target, target_of args = Some target /\ stat w target = None)
        \/ (exists target c w',
              target_of args = Some target
              /\ stat w target = Some (File c)
              /\ process_file target (arg_text args) (arg_output args)
                   (arg_overwrite args) w = Ok false w')
        \/ (exists target e w',
              target_of args = Some target
              /\ ((exists c, stat w target = Some (File c))
                   /\ process_file target (arg_text args) (arg_output args)
                        (arg_overwrite args) w = Raise e w'
                  \/ stat w target = Some Dir
                     /\ process_directory listing target (arg_text args)
                          (arg_output args) (arg_overwrite args) w = Raise e w')))
  /\ (forall code, run args listing w = ExitStatus code -> code = 0%Z \/ code = 1%Z).
Proof.
  rewrite run_cases. split; [|split].
  - split.
    + destruct (target_of args) as [target|]; [|done].
      destruct (stat w target) as [[c|]|] eqn:Hst; [| |done].
      * destruct (process_file _ _ _ _ w) as [[|] w1|e w1] eqn:E; try done.
        intros _. exists target, w1. split; [done|]. left. split; [by exists c|done].
      * destruct (process_directory _ _ _ _ _ w) as [res w1|e w1] eqn:E; [|done].
        intros _. exists target, w1. split; [done|]. right. split; [done|by exists res].
    + intros (target & w' & -> & [[[c ->] ->]|[-> [res ->]]]); done.
  - split.
    + destruct (target_of args) as [target|]; [|by left].
      destruct (stat w target) as [[c|]|] eqn:Hst.
      * destruct (process_file _ _ _ _ w) as [[|] w1|e w1] eqn:E; try done.
        -- intros _. right. right. left. by exists target, c, w1.
        -- intros _. right. right. right. exists target, e, w1.
           split; [done|]. left. split; [by exists c|done].
      * destruct (process_directory _ _ _ _ _ w) as [res w1|e w1] eqn:E; [done|].
        intros _. right. right. right. exists target, e, w1.
        split; [done|]. by right.
      * intros _. right. left. by exists target.
    + intros [->|[(target & -> & ->)|[(target & c & w' & -> & -> & ->)
                |(target & e & w' & -> & [[[c ->] ->]|[-> ->]])]]]; done.
  - intros code. destruct (target_of args) as [target|]; [|intros [= <-]; by right].
    destruct (stat w target) as [[c|]|].
    + destruct (process_file _ _ _ _ w) as [[|] w1|e w1]; intros [= <-]; auto.
    + destruct (process_directory _ _ _ _ _ w); intros [= <-]; auto.
    + intros [= <-]; auto.
Qed.


(** ** Further properties of the module *)

(** *** More on strings, paths and keys *)

Lemma all_char_app c s t : all_char c (s +:+ t) = all_char c s && all_char c t.
Proof.
  induction s as [|a s IH]; [done|]. rewrite app_cons. simpl.
  by rewrite IH, andb_assoc.
Qed.

Lemma startswith_nosep t : has sep t = false -> startswith t "/" = false.
Proof.
  destruct t as [|a t]; [done|]. simpl. intros H.
  apply orb_false_elim in H as [Ha _]. unfold sep in Ha. by rewrite Ha.
Qed.

Lemma split_nonempty c s : Str.split c s <> [].
Proof. destruct (split_snoc c s) as (init & l & ->). by destruct init. Qed.

(** Splitting at a separator splits the list of components. *)
Lemma split_sep_app c s t :
  Str.split c (s +:+ String c t) = Str.split c s ++ Str.split c t.
Proof.
  induction s as [|a s IH].
  - simpl. by rewrite Ascii.eqb_refl.
  - rewrite app_cons. cbn [Str.split]. rewrite IH.
    destruct (Ascii.eqb a c); [done|].
    pose proof (split_nonempty c s) as Hne.
    by destruct (Str.split c s).
Qed.

(** A component with a character that is not a dot is pushed as it is. *)
Lemma resolve_step_plain stack x :
  all_char extsep x = false -> resolve_step stack x = stack ++ [x].
Proof.
  intros Hx. unfold resolve_step.
  assert (String.eqb x "" = false /\ String.eqb x curdir = false
          /\ String.eqb x pardir = false) as (-> & -> & ->); [|done].
  repeat split; apply String.eqb_neq; intros ->; done.
Qed.

(** The key of a path depends on what follows the last separator only
    through the last component. *)
Lemma resolve_tail cwd q :
  exists stack l,
    forall t, has sep t = false ->
      resolve cwd (q +:+ t) = resolve_step stack (l +:+ t).
Proof.
  set (pre := if isabs q then "" else cwd +:+ "/").
  destruct (split_snoc sep (pre +:+ q)) as (init & l & E).
  exists (foldl resolve_step [] init), l. intros t Ht.
  unfold resolve.
  assert ((if isabs (q +:+ t) then q +:+ t else cwd +:+ "/" +:+ q +:+ t)
          = (pre +:+ q) +:+ t) as ->.
  { unfold pre. destruct q as [|a q].
    - rewrite app_nil_l_str. unfold isabs at 1. rewrite (startswith_nosep t Ht).
      change (isabs "") with false. cbn iota. by rewrite !app_assoc_str.
    - change (isabs (String a q +:+ t)) with (isabs (String a q)).
      destruct (isabs (String a q)); [done|]. by rewrite !app_assoc_str. }
  rewrite (split_app_nosep sep _ t init l Ht E). by rewrite foldl_snoc.
Qed.

(** [os.path.join] of a directory and a name resolves to the name in the
    directory. *)
Lemma resolve_slash_app cwd d t :
  truthy d = true -> has sep t = false ->
  resolve cwd (d +:+ "/" +:+ t) = resolve_step (resolve cwd d) t.
Proof.
  intros Hd Ht. unfold resolve.
  assert (isabs (d +:+ "/" +:+ t) = isabs d) as -> by by destruct d.
  assert ((if isabs d then d +:+ "/" +:+ t else cwd +:+ "/" +:+ d +:+ "/" +:+ t)
          = (if isabs d then d else cwd +:+ "/" +:+ d) +:+ String sep t) as ->.
  { destruct (isabs d); [done|]. by rewrite !app_assoc_str. }
  rewrite split_sep_app, (split_nosep sep t Ht). by rewrite foldl_snoc.
Qed.

Lemma endswith_char_snoc s c :
  endswith_char s c = true -> exists s', s = s' +:+ String c "".
Proof.
  induction s as [|a s IH]; [done|]. simpl. destruct s as [|b s].
  - intros ->%Ascii.eqb_eq. by exists "".
  - intros H. destruct (IH H) as (s' & E). exists (String a s'). by rewrite E.
Qed.

Lemma resolve_sep_app cwd d t :
  endswith_char d sep = true -> has sep t = false ->
  resolve cwd (d +:+ t) = resolve_step (resolve cwd d) t.
Proof.
  intros Hd Ht. destruct (endswith_char_snoc _ _ Hd) as (d' & ->).
  rewrite app_assoc_str. change (String sep "" +:+ t) with ("/" +:+ t).
  destruct d' as [|a d'].
  - simpl. unfold resolve. simpl. rewrite app_nil_l_str.
    by rewrite (split_nosep sep t Ht).
  - rewrite resolve_slash_app by done.
    rewrite <- (app_nil_r_str (String a d' +:+ String sep "")).
    rewrite app_assoc_str. change (String sep "" +:+ "") with ("/" +:+ "").
    by rewrite (resolve_slash_app cwd (String a d') "").
Qed.

Lemma key_join w d x :
  truthy d = true -> has sep x = false ->
  key w (join d x) = resolve_step (key w d) x.
Proof.
  intros Hd Hx. unfold key, join. rewrite (startswith_nosep x Hx), Hd. cbn [negb orb].
  destruct (endswith_char d sep) eqn:E.
  - by apply resolve_sep_app.
  - by apply resolve_slash_app.
Qed.

Lemma truthy_join a b : truthy a = true -> truthy (join a b) = true.
Proof.
  intros Ha. unfold join. destruct (startswith b "/") eqn:E; [by destruct b|].
  rewrite Ha. cbn [negb orb]. destruct a; [done|]. by destruct (endswith_char _ _).
Qed.

(** *** The shape of a path with an extension *)

Lemma rfind_from_at c s i acc :
  (acc < i)%Z -> (i <= rfind_from c s i acc)%Z ->
  exists rest, slice_from (Z.to_nat (rfind_from c s i acc - i)) s = String c rest.
Proof.
  revert i acc. induction s as [|a s IH]; intros i acc Hacc; cbn [rfind_from]; [lia|].
  destruct (Ascii.eqb a c) eqn:E.
  - apply Ascii.eqb_eq in E as ->. intros _.
    destruct (rfind_from_range c s (i + 1) i ltac:(lia)) as [[-> _]|H].
    + replace (Z.to_nat (i - i)) with 0 by lia. by exists s.
    + destruct (IH (i + 1)%Z i ltac:(lia) ltac:(lia)) as (rest & Hrest).
      exists rest. rewrite <- Hrest.
      replace (Z.to_nat (rfind_from c s (i + 1) i - i))
        with (S (Z.to_nat (rfind_from c s (i + 1) i - (i + 1)))) by lia.
      done.
  - intros Hle.
    destruct (rfind_from_range c s (i + 1) acc ltac:(lia)) as [[Heq _]|H]; [lia|].
    destruct (IH (i + 1)%Z acc ltac:(lia) ltac:(lia)) as (rest & Hrest).
    exists rest. rewrite <- Hrest.
    replace (Z.to_nat (rfind_from c s (i + 1) acc - i))
      with (S (Z.to_nat (rfind_from c s (i + 1) acc - (i + 1)))) by lia.
    done.
Qed.

Lemma slice_from_S n s a r : slice_from n s = String a r -> slice_from (S n) s = r.
Proof.
  revert s. induction n as [|n IH]; intros [|b s]; simpl; try done.
  - by intros [= _ ->].
  - apply IH.
Qed.

(** At the index [rfind] gives stands the character, and none follows. *)
Lemma rfind_at s c (d : nat) :
  Z.of_nat d = rfind s c ->
  exists rest, slice_from d s = String c rest /\ has c rest = false.
Proof.
  intros Hd. unfold rfind in Hd.
  destruct (rfind_from_at c s 0 (-1) ltac:(lia) ltac:(lia)) as (rest & Hrest).
  rewrite <- Hd, Z.sub_0_r, Nat2Z.id in Hrest.
  exists rest. split; [done|].
  rewrite <- (slice_from_S _ _ _ _ Hrest). apply rfind_after.
  unfold rfind. lia.
Qed.

(** A path with an extension: a directory part, a stem with a character
    that is not a dot, and a dot followed by neither dot nor separator. *)
Lemma splitext_inv p b e :
  splitext p = (b, e) -> e <> "" ->
  exists q stem rest,
    b = q +:+ stem /\ e = String extsep rest
    /\ has sep stem = false /\ has sep rest = false /\ has extsep rest = false
    /\ all_char extsep stem = false
    /\ basename p = stem +:+ e.
Proof.
  intros Hs He. destruct (splitext_cases p) as [E|(d & Hd & Hdot & Hall & E)];
    rewrite E in Hs; injection Hs as <- <-; [done|].
  pose proof (rfind_range p sep) as Hr.
  set (i := Z.to_nat (rfind p sep + 1)) in *.
  assert (Hid : i <= d) by lia.
  destruct (rfind_at p extsep d Hdot) as (rest & Hrest & Hnodot).
  exists (slice_to i p), (slice_from i (slice_to d p)), rest.
  assert (Hbase : basename p = slice_from i (slice_to d p) +:+ slice_from d p).
  { rewrite <- slice_from_app by (rewrite length_slice_to; lia).
    by rewrite slice_to_from. }
  pose proof (basename_nosep p) as Hnosep. rewrite Hbase in Hnosep.
  rewrite has_app, Hrest in Hnosep. apply orb_false_elim in Hnosep as [Hs1 Hs2].
  cbn [has] in Hs2. apply orb_false_elim in Hs2 as [_ Hs2].
  split; [|by rewrite <- Hrest].
  rewrite <- (slice_to_slice_to i d p) by done. by rewrite slice_to_from.
Qed.

(** Conversely, such a base and extension are what [splitext] returns for
    their concatenation. *)
Lemma splitext_intro q stem rest :
  has sep stem = false -> has sep rest = false -> has extsep rest = false ->
  all_char extsep stem = false ->
  splitext (q +:+ stem +:+ String extsep rest) = (q +:+ stem, String extsep rest).
Proof.
  intros Hs1 Hs2 Hdot Hall. rewrite <- app_assoc_str.
  set (b := q +:+ stem). set (e := String extsep rest).
  assert (Hsep : rfind (b +:+ e) sep = rfind q sep).
  { unfold b. rewrite app_assoc_str. apply rfind_app_no.
    rewrite has_app, Hs1. unfold e. cbn [has]. by rewrite Hs2. }
  assert (Hext : rfind (b +:+ e) extsep = Z.of_nat (String.length b)).
  { unfold rfind, e. rewrite rfind_from_app. cbn [rfind_from].
    rewrite Ascii.eqb_refl. rewrite rfind_from_no by done. lia. }
  pose proof (rfind_range q sep) as Hr.
  assert (Hlen : String.length b = String.length q + String.length stem)
    by apply length_app_str.
  unfold splitext. rewrite Hsep, Hext.
  rewrite (proj2 (Z.ltb_lt _ _)) by lia.
  rewrite Nat2Z.id, slice_to_slice_from, slice_to_length, slice_from_length.
  unfold b at 1. rewrite slice_from_app by lia.
  rewrite all_char_app, Hall. by rewrite andb_false_r.
Qed.

(** The sibling output of a path with an extension, part by part. *)
Lemma sibling_shape p :
  (splitext p).2 <> "" ->
  exists q stem rest,
    p = q +:+ stem +:+ String extsep rest
    /\ splitext p = (q +:+ stem, String extsep rest)
    /\ sibling_path p = q +:+ (stem +:+ "_watermarked") +:+ String extsep rest
    /\ has sep stem = false /\ has sep rest = false /\ has extsep rest = false
    /\ all_char extsep stem = false
    /\ basename p = stem +:+ String extsep rest.
Proof.
  intros He. destruct (splitext p) as [b e] eqn:Hs. simpl in He.
  destruct (splitext_inv _ _ _ Hs He) as (q & stem & rest & -> & -> & H).
  exists q, stem, rest. split.
  - rewrite <- (splitext_app _ _ _ Hs). by rewrite app_assoc_str.
  - split; [done|]. split; [|done]. unfold sibling_path. rewrite Hs. simpl.
    by rewrite !app_assoc_str.
Qed.

(** The sibling output has the extension of the original. *)
Lemma splitext_sibling p :
  (splitext p).2 <> "" ->
  splitext (sibling_path p) = ((splitext p).1 +:+ "_watermarked", (splitext p).2).
Proof.
  intros He.
  destruct (sibling_shape p He)
    as (q & stem & rest & _ & -> & -> & H1 & H2 & H3 & H4 & _).
  simpl. rewrite (app_assoc_str q stem).
  apply (splitext_intro q (stem +:+ "_watermarked") rest); try done.
  - by rewrite has_app, H1.
  - by rewrite all_char_app, H4.
Qed.

(** The keys of a path with an extension and of its sibling output: two
    names in one directory. *)
Lemma sibling_keys w p :
  (splitext p).2 <> "" ->
  exists stack l l',
    key w p = stack ++ [l] /\ key w (sibling_path p) = stack ++ [l'] /\ l <> l'.
Proof.
  intros He.
  destruct (sibling_shape p He)
    as (q & stem & rest & Hp & _ & Hsib & H1 & H2 & H3 & H4 & _).
  destruct (resolve_tail (cwd w) q) as (stack & l & Hres).
  exists stack, (l +:+ stem +:+ String extsep rest),
    (l +:+ (stem +:+ "_watermarked") +:+ String extsep rest).
  unfold key. rewrite Hsib. rewrite Hp at 1.
  rewrite !Hres.
  - rewrite !resolve_step_plain.
    + do 2 (split; [done|]). intros E. apply (f_equal String.length) in E.
      rewrite !length_app_str in E. simpl in E. lia.
    + rewrite !all_char_app, H4. cbn [andb]. apply andb_false_r.
    + rewrite !all_char_app, H4. cbn [andb]. apply andb_false_r.
  - rewrite !has_app, H1. cbn [has]. by rewrite H2.
  - rewrite has_app, H1. cbn [has]. by rewrite H2.
Qed.

Lemma key_sibling_ne w p :
  (splitext p).2 <> "" -> key w (sibling_path p) <> key w p.
Proof.
  intros He. destruct (sibling_keys w p He) as (stack & l & l' & -> & -> & Hne).
  intros E. apply app_inj_tail in E as [_ E]. congruence.
Qed.

(** *** The handlers *)

Lemma add_watermark_xlsx_valid input_path output_path text wb w :
  XLSX_SUPPORT = true ->
  lower (splitext input_path).2 ∈ Xlsx.SUPPORTED_FORMATS ->
  stat w input_path = Some (File (XlsxFile wb)) ->
  writable w output_path ->
  add_watermark_xlsx input_path output_path text w
  = Ok true (set_fs w (<[key w output_path :=
               File (XlsxFile (map (watermark_sheet text) wb))]> (fs w))).
Proof.
  intros Hsup Hfmt Hin Hout. unfold add_watermark_xlsx. rewrite Hsup. simpl.
  unfold try_except, bind, load_workbook.
  rewrite bool_decide_eq_true_2 by done. cbn [negb].
  unfold bind, read_file. rewrite Hin. simpl.
  destruct (write_file_writable w output_path
              (XlsxFile (map (watermark_sheet text) wb)) Hout) as [-> _].
  reflexivity.
Qed.

(** The handler chosen for an extension, on a file it can load under the
    name it is given, stores the watermarked document at the output path
    and reports success. *)
Lemma handler_for_valid ext add_watermark input_path output_path text c w :
  handler_for ext = Some add_watermark ->
  loads ext c ->
  accepted input_path c ->
  stat w input_path = Some (File c) ->
  writable w output_path ->
  add_watermark input_path output_path text w
  = Ok true (set_fs w (<[key w output_path := File (watermarked text c)]> (fs w))).
Proof.
  intros Hh Hl Ha Hin Hout.
  destruct c as [pages|doc|wb|data]; simpl in Hl; [| | |done];
    destruct Hl as [-> Hsup]; injection Hh as <-.
  - by apply add_watermark_pdf_valid.
  - by apply add_watermark_docx_valid.
  - by apply add_watermark_xlsx_valid.
Qed.

Lemma loads_handler ext c :
  loads ext c -> exists add_watermark, handler_for ext = Some add_watermark.
Proof.
  destruct c; simpl; [| | |done]; intros [-> _]; by eexists.
Qed.

(** A file the handler for its own extension can load is taken under its
    own name. *)
Lemma loads_accepted file_path c :
  loads (lower (splitext file_path).2) c -> accepted file_path c.
Proof.
  destruct c; simpl; [done|done| |done]. intros [-> _].
  unfold Xlsx.SUPPORTED_FORMATS. by left.
Qed.

Lemma watermark_sheet_marked text sheet :
  Xlsx.title (watermark_sheet text sheet) = Xlsx.title sheet
  /\ Xlsx.cells (watermark_sheet text sheet) = Xlsx.cells sheet
  /\ header_marked text (Xlsx.oddHeader sheet)
       (Xlsx.oddHeader (watermark_sheet text sheet))
  /\ header_marked text (Xlsx.evenHeader sheet)
       (Xlsx.evenHeader (watermark_sheet text sheet)).
Proof. by repeat split. Qed.

(** X1.  For a valid workbook under a name openpyxl takes, a text that is
    not empty and holds no [&], double quote or control character, and an
    output path that can be written,
    the Excel handler succeeds and writes a workbook with the same sheets:
    each keeps its title and its cells, and in both its odd-page and its
    even-page header the centre part holds the text, size 24 and colour
    C0C0C0, whatever text, size and colour it held before, while its font
    and the left and right parts are as they were.  Nothing else in the
    file store changes. *)
Theorem xlsx_headers_on_every_sheet input_path output_path text wb w :
  XLSX_SUPPORT = true ->
  lower (splitext input_path).2 ∈ Xlsx.SUPPORTED_FORMATS ->
  plain_text text ->
  stat w input_path = Some (File (XlsxFile wb)) ->
  writable w output_path ->
  exists w' wb',
    add_watermark_xlsx input_path output_path text w = Ok true w'
    /\ stat w' output_path = Some (File (XlsxFile wb'))
    /\ fs w' = <[key w output_path := File (XlsxFile wb')]> (fs w)
    /\ length wb' = length wb
    /\ forall i sheet, wb !! i = Some sheet ->
         exists sheet',
           wb' !! i = Some sheet'
           /\ Xlsx.title sheet' = Xlsx.title sheet
           /\ Xlsx.cells sheet' = Xlsx.cells sheet
           /\ header_marked text (Xlsx.oddHeader sheet) (Xlsx.oddHeader sheet')
           /\ header_marked text (Xlsx.evenHeader sheet) (Xlsx.evenHeader sheet').
Proof.
  intros Hsup Hfmt _ Hin Hout.
  eexists _, _. split; [by apply add_watermark_xlsx_valid|].
  split; [by apply write_file_writable|].
  split; [reflexivity|]. split; [by rewrite length_map|].
  intros i sheet Hi. exists (watermark_sheet text sheet).
  rewrite lookup_map, Hi. split; [done|]. apply watermark_sheet_marked.
Qed.

(** X2.  The Excel handler replaces an earlier watermark.  For texts that
    are not empty and hold no [&], double quote or control character, and
    with the original and the first output under names openpyxl takes: applied to its own output with a
    second text, the handler writes the workbook it writes when applied to
    the original with the second text alone.  With the same text twice,
    the second output is the first. *)
Theorem xlsx_rewatermark_replaces input_path once_path twice_path text1 text2 wb w :
  XLSX_SUPPORT = true ->
  lower (splitext input_path).2 ∈ Xlsx.SUPPORTED_FORMATS ->
  lower (splitext once_path).2 ∈ Xlsx.SUPPORTED_FORMATS ->
  plain_text text1 ->
  plain_text text2 ->
  stat w input_path = Some (File (XlsxFile wb)) ->
  writable w once_path ->
  writable w twice_path ->
  exists w1 w2 wd once twice,
    add_watermark_xlsx input_path once_path text1 w = Ok true w1
    /\ stat w1 once_path = Some (File (XlsxFile once))
    /\ add_watermark_xlsx once_path twice_path text2 w1 = Ok true w2
    /\ stat w2 twice_path = Some (File (XlsxFile twice))
    /\ add_watermark_xlsx input_path twice_path text2 w = Ok true wd
    /\ stat wd twice_path = Some (File (XlsxFile twice))
    /\ (text1 = text2 -> twice = once).
Proof.
  intros Hsup Hfmt Hfmt1 _ _ Hin Hw1 Hw2.
  pose proof (write_file_writable w once_path
                (XlsxFile (map (watermark_sheet text1) wb)) Hw1) as [_ Hst1].
  pose proof (writable_after_write w once_path twice_path
                (XlsxFile (map (watermark_sheet text1) wb)) Hw1 Hw2) as Hw2'.
  set (w1 := set_fs w _) in *.
  pose proof (write_file_writable w1 twice_path
                (XlsxFile (map (watermark_sheet text2) (map (watermark_sheet text1) wb)))
                Hw2') as [_ Hst2].
  pose proof (write_file_writable w twice_path
                (XlsxFile (map (watermark_sheet text2) wb)) Hw2) as [_ Hstd].
  assert (Hmap : map (watermark_sheet text2) (map (watermark_sheet text1) wb)
                 = map (watermark_sheet text2) wb).
  { rewrite map_map. by apply map_ext. }
  eexists w1, _, _, _, _.
  split; [by apply add_watermark_xlsx_valid|]. split; [exact Hst1|].
  split; [by apply add_watermark_xlsx_valid|]. split; [exact Hst2|].
  split; [by apply add_watermark_xlsx_valid|].
  split; [by rewrite Hmap|].
  intros ->. exact Hmap.
Qed.

(** X3.  The PDF handler stacks: applied to its own output, it draws a
    second overlay over the first on every page.  Each page of the second
    output has the box of the original page and its content followed by
    the content of the first overlay and then of the second; for a document
    with a page the second output differs from the first. *)
Theorem pdf_twice_stacks_overlays input_path once_path twice_path text1 text2 pages w :
  PDF_SUPPORT = true ->
  stat w input_path = Some (File (PdfFile pages)) ->
  writable w once_path ->
  writable w twice_path ->
  exists w1 w2 once twice,
    add_watermark_pdf input_path once_path text1 w = Ok true w1
    /\ stat w1 once_path = Some (File (PdfFile once))
    /\ add_watermark_pdf once_path twice_path text2 w1 = Ok true w2
    /\ stat w2 twice_path = Some (File (PdfFile twice))
    /\ length twice = length pages
    /\ (pages <> [] -> twice <> once)
    /\ forall i pg, pages !! i = Some pg ->
         exists ov1 ov2,
           create_watermark_pdf text1 (Pdf.mediabox_width pg) (Pdf.mediabox_height pg)
           = [ov1]
           /\ create_watermark_pdf text2 (Pdf.mediabox_width pg) (Pdf.mediabox_height pg)
              = [ov2]
           /\ once !! i
              = Some (Pdf.Page (Pdf.mediabox_width pg) (Pdf.mediabox_height pg)
                        (Pdf.contents pg ++ Pdf.contents ov1))
           /\ twice !! i
              = Some (Pdf.Page (Pdf.mediabox_width pg) (Pdf.mediabox_height pg)
                        (Pdf.contents pg ++ Pdf.contents ov1 ++ Pdf.contents ov2)).
Proof.
  intros Hsup Hin Hw1 Hw2.
  set (stamp := fun text pg => Pdf.merge_page pg (overlay_page text pg)).
  pose proof (write_file_writable w once_path (PdfFile (map (stamp text1) pages)) Hw1)
    as [_ Hst1].
  pose proof (writable_after_write w once_path twice_path
                (PdfFile (map (stamp text1) pages)) Hw1 Hw2) as Hw2'.
  set (w1 := set_fs w _) in *.
  pose proof (write_file_writable w1 twice_path
                (PdfFile (map (stamp text2) (map (stamp text1) pages))) Hw2')
    as [_ Hst2].
  assert (Hpages : forall i pg, pages !! i = Some pg ->
            map (stamp text1) pages !! i = Some (stamp text1 pg)
            /\ map (stamp text2) (map (stamp text1) pages) !! i
               = Some (stamp text2 (stamp text1 pg))).
  { intros i pg Hi. by rewrite !lookup_map, Hi. }
  eexists w1, _, _, _.
  split; [by apply add_watermark_pdf_valid|]. split; [exact Hst1|].
  split; [by apply add_watermark_pdf_valid|]. split; [exact Hst2|].
  split; [by rewrite !length_map|]. split.
  - destruct pages as [|pg rest]; [done|]. intros _ Heq.
    destruct (Hpages 0%nat pg eq_refl) as [H1 H2].
    rewrite Heq, H1 in H2. injection H2 as H2.
    apply (f_equal length) in H2. rewrite !length_app in H2. simpl in H2. lia.
  - intros i pg Hi. destruct (Hpages i pg Hi) as [H1 H2].
    exists (overlay_page text1 pg), (overlay_page text2 pg).
    split; [apply create_watermark_pdf_code|].
    split; [apply create_watermark_pdf_code|].
    split; [exact H1|]. rewrite H2. unfold stamp, Pdf.merge_page. simpl.
    by rewrite <- app_assoc.
Qed.

(** X4.  What any of the three handlers does, whatever its input: it
    returns a boolean and raises nothing; it leaves the current directory
    alone; whether it returns true or false, every path other than its
    output path is as before (of the output path of a handler that failed
    nothing is said: the handler may have failed once the output was
    open); when it returns true its input was a regular file, and the only
    change to the file store is the file stored at the output path. *)
Theorem handlers_change_only_the_output ext add_watermark input_path output_path text w :
  handler_for ext = Some add_watermark ->
  exists b w',
    add_watermark input_path output_path text w = Ok b w'
    /\ cwd w' = cwd w
    /\ (forall k, k <> key w output_path -> fs w' !! k = fs w !! k)
    /\ (b = true ->
        exists c c',
          stat w input_path = Some (File c)
          /\ writable w output_path
          /\ fs w' = <[key w output_path := File c']> (fs w)).
Proof.
  intros Hh.
  destruct (handler_for_effect _ _ Hh input_path output_path text w)
    as (b & w' & E & Hcwd & Heff).
  exists b, w'. do 2 (split; [done|]). destruct b.
  - split; [|done]. destruct Heff as (c & c' & _ & _ & ->).
    intros k Hk. by rewrite lookup_insert_ne.
  - split; [|done]. intros k _. by rewrite Heff.
Qed.

(** *** When a handler succeeds *)

Lemma add_watermark_pdf_true input_path output_path text w w' :
  add_watermark_pdf input_path output_path text w = Ok true w' ->
  PDF_SUPPORT = true
  /\ exists pages, stat w input_path = Some (File (PdfFile pages))
                   /\ writable w output_path.
Proof.
  unfold add_watermark_pdf. destruct PDF_SUPPORT; simpl; [|discriminate].
  unfold try_except, bind, PdfReader, bind, read_file.
  destruct (stat w input_path) as [[c|]|]; simpl; try discriminate.
  destruct c as [pages|d|d|d]; simpl; try discriminate.
  rewrite merge_pages_map.
  unfold write_file, ret, writable.
  destruct (check_parent w output_path) as [e|]; simpl; [destruct e; discriminate|].
  destruct (stat w output_path) as [[c|]|] eqn:Hout; simpl; try discriminate;
    intros _; (split; [done|]); exists pages; done.
Qed.

Lemma add_watermark_xlsx_true input_path output_path text w w' :
  add_watermark_xlsx input_path output_path text w = Ok true w' ->
  XLSX_SUPPORT = true
  /\ exists wb, stat w input_path = Some (File (XlsxFile wb))
                /\ lower (splitext input_path).2 ∈ Xlsx.SUPPORTED_FORMATS
                /\ writable w output_path.
Proof.
  unfold add_watermark_xlsx. destruct XLSX_SUPPORT; simpl; [|discriminate].
  unfold try_except, bind at 1.
  destruct (load_workbook_cases input_path w)
    as [(wb & -> & Hin & Hfmt)|(e & -> & He & _)].
  2:{ rewrite He. discriminate. }
  unfold bind, write_file, ret, writable.
  destruct (check_parent w output_path) as [e|]; simpl; [destruct e; discriminate|].
  destruct (stat w output_path) as [[c|]|] eqn:Hout; simpl; try discriminate;
    intros _; (split; [done|]); exists wb; done.
Qed.

Lemma add_watermark_docx_support input_path output_path text w w' :
  add_watermark_docx input_path output_path text w = Ok true w' ->
  DOCX_SUPPORT = true.
Proof. unfold add_watermark_docx. by destruct DOCX_SUPPORT. Qed.

(** A handler that returns true was given a file it can load, under a
    name its library takes, and an output path it can write. *)
Lemma handler_true_inv ext add_watermark input_path output_path text w w' :
  handler_for ext = Some add_watermark ->
  add_watermark input_path output_path text w = Ok true w' ->
  exists c, stat w input_path = Some (File c)
            /\ loads ext c
            /\ accepted input_path c
            /\ writable w output_path.
Proof.
  unfold handler_for.
  repeat case_match; intros [= <-] E;
    match goal with H : String.eqb ext _ = true |- _ => apply String.eqb_eq in H as -> end.
  - apply add_watermark_pdf_true in E as (Hsup & pages & Hin & Hout).
    by exists (PdfFile pages).
  - pose proof (add_watermark_docx_support _ _ _ _ _ E) as Hsup.
    apply add_watermark_docx_true in E as (doc & Hin & Hout & _).
    by exists (DocxFile doc).
  - apply add_watermark_xlsx_true in E as (Hsup & wb & Hin & Hfmt & Hout).
    by exists (XlsxFile wb).
Qed.

(** X5.  When a handler succeeds.  The handler chosen for an extension
    returns true exactly when its input path names a regular file that
    holds a document of the handler's kind, the handler's library is
    installed and takes the file under the name of the input path
    (openpyxl wants one of its own extensions on it), and the output path
    can be written: its directory exists and the path does not name a
    directory.  In every other case it returns false. *)
Theorem handler_succeeds_exactly_when ext add_watermark input_path output_path text w :
  handler_for ext = Some add_watermark ->
  ((exists w', add_watermark input_path output_path text w = Ok true w')
   <-> (exists c, stat w input_path = Some (File c)
                  /\ loads ext c
                  /\ accepted input_path c
                  /\ writable w output_path))
  /\ ((exists w', add_watermark input_path output_path text w = Ok false w')
      <-> ~ (exists c, stat w input_path = Some (File c)
                       /\ loads ext c
                       /\ accepted input_path c
                       /\ writable w output_path)).
Proof.
  intros Hh.
  assert (Hiff : (exists w', add_watermark input_path output_path text w = Ok true w')
                 <-> (exists c, stat w input_path = Some (File c)
                                /\ loads ext c
                                /\ accepted input_path c
                                /\ writable w output_path)).
  { split.
    - intros (w' & E). by apply (handler_true_inv _ _ _ _ _ _ _ Hh E).
    - intros (c & Hin & Hl & Ha & Hout). eexists.
      by apply (handler_for_valid ext add_watermark input_path output_path text c w). }
  split; [exact Hiff|].
  destruct (handler_for_returns _ _ input_path output_path text Hh w) as (b & w' & E).
  split.
  - intros (w1 & E1) Hex. apply Hiff in Hex as (w2 & E2). congruence.
  - intros Hno. destruct b; [|by exists w'].
    exfalso. apply Hno, Hiff. by exists w'.
Qed.

(** *** The font search *)

(** X6.  [register_chinese_font] returns true exactly when the PDF
    libraries are there and one of its five candidate paths exists and can
    be loaded: a candidate that is missing, or that exists and fails to
    load, does not end the search.  It raises nothing and leaves the world
    as it was. *)
Theorem register_chinese_font_tries_every_candidate registerFont w :
  register_chinese_font registerFont w
  = Ok (PDF_SUPPORT
        && existsb (fun fp => bool_decide (is_Some (stat w fp)) && registerFont fp)
             font_paths) w.
Proof.
  unfold register_chinese_font. destruct PDF_SUPPORT; [|done]. cbn [negb andb].
  generalize font_paths. intros fps.
  induction fps as [|fp rest IH]; [done|].
  cbn [existsb]. unfold bind at 1, os_path_exists at 1.
  destruct (bool_decide (is_Some (stat w fp))); cbn [andb orb]; [|exact IH].
  destruct (registerFont fp); [done|exact IH].
Qed.

(** *** One file, mode by mode *)

Lemma handler_ext_nonempty file_path add_watermark :
  handler_for (lower (splitext file_path).2) = Some add_watermark ->
  (splitext file_path).2 <> "".
Proof. intros Hh E. by rewrite E in Hh. Qed.

(** The keys of a path with an extension and of its backup: two names in
    one directory. *)
Lemma backup_keys_ext w p :
  (splitext p).2 <> "" ->
  exists stack l,
    key w p = stack ++ [l] /\ key w (p +:+ ".tmp") = stack ++ [l +:+ ".tmp"].
Proof.
  intros He.
  destruct (sibling_shape p He)
    as (q & stem & rest & Hp & _ & _ & H1 & H2 & H3 & H4 & _).
  destruct (resolve_tail (cwd w) q) as (stack & l & Hres).
  set (t := stem +:+ String extsep rest) in *.
  assert (Ht : has sep t = false).
  { unfold t. rewrite has_app, H1. cbn [has]. by rewrite H2. }
  assert (Hall : forall u, all_char extsep (l +:+ t +:+ u) = false).
  { intros u. unfold t. rewrite !all_char_app, H4. cbn [andb]. apply andb_false_r. }
  exists stack, (l +:+ t). unfold key. split.
  - rewrite Hp, Hres by done. apply resolve_step_plain.
    rewrite <- (app_nil_r_str t). apply Hall.
  - rewrite Hp, app_assoc_str, Hres by (by rewrite has_app, Ht).
    rewrite <- app_assoc_str. apply resolve_step_plain.
    rewrite app_assoc_str. apply Hall.
Qed.

Lemma stat_frame w w' p :
  cwd w' = cwd w ->
  (key w p <> [] -> fs w' !! key w p = fs w !! key w p) ->
  stat w' p = stat w p.
Proof.
  intros Hcwd Hfs. unfold stat. destruct (truthy p); [|done].
  unfold key. rewrite Hcwd. apply lookup_key_frame, Hfs.
Qed.

Lemma process_file_sibling file_path text output_dir w :
  given output_dir = None ->
  process_file file_path text output_dir false w
  = match handler_for (lower (splitext file_path).2) with
    | Some add_watermark =>
        add_watermark file_path (sibling_path file_path) text w
    | None =>
        Ok false (World (cwd w) (fs w)
                    (stdout w ++ ["不支持的文件类型: " +:+ lower (splitext file_path).2]))
    end.
Proof.
  intros Hg. unfold process_file, resolve_paths, sibling_path. rewrite Hg.
  destruct (splitext file_path) as [base extension]. cbn [fst snd].
  destruct (handler_for (lower extension)) as [add_watermark|]; [|done].
  unfold bind, ret.
  by destruct (add_watermark file_path _ text w).
Qed.

(** X7.  Without an output directory and without [overwrite],
    [process_file] raises nothing and never touches the file it was given:
    it returns a boolean; the original holds what it held; whether the
    result is true or false, every path other than the sibling path is as
    before (of the sibling path after a failure nothing is said: the
    handler may have failed once the output was open); when the result is
    true the only change is the file stored at the sibling path.  For a
    file whose extension has a handler the sibling path is never the path
    of the original. *)
Theorem sibling_mode_keeps_the_original file_path text output_dir w :
  given output_dir = None ->
  exists b w',
    process_file file_path text output_dir false w = Ok b w'
    /\ cwd w' = cwd w
    /\ stat w' file_path = stat w file_path
    /\ (forall k, k <> key w (sibling_path file_path) -> fs w' !! k = fs w !! k)
    /\ (is_Some (handler_for (lower (splitext file_path).2)) ->
        key w (sibling_path file_path) <> key w file_path)
    /\ (b = true ->
        exists c', fs w' = <[key w (sibling_path file_path) := File c']> (fs w)).
Proof.
  intros Hg. rewrite process_file_sibling by done.
  destruct (handler_for _) as [add_watermark|] eqn:Hh.
  - destruct (handler_for_effect _ _ Hh file_path (sibling_path file_path) text w)
      as (b & w' & E & Hcwd & Heff).
    pose proof (key_sibling_ne w file_path (handler_ext_nonempty _ _ Hh)) as Hne.
    exists b, w'. do 2 (split; [done|]). destruct b.
    + destruct Heff as (c & c' & _ & _ & Hfs).
      split; [|split; [|split; [done|intros _; by exists c']]].
      * apply stat_frame; [done|]. intros _. rewrite Hfs. by apply lookup_insert_ne.
      * intros k Hk. rewrite Hfs. by apply lookup_insert_ne.
    + split; [|split; [|split; [done|done]]].
      * apply stat_frame; [done|]. by rewrite Heff.
      * intros k _. by rewrite Heff.
  - eexists false, _. split; [reflexivity|].
    split; [done|]. split; [done|]. split; [done|].
    split; [|done]. by intros [? ?].
Qed.

(** The call without an output directory and without [overwrite], on a
    file that can be loaded. *)
Lemma process_file_sibling_valid file_path text output_dir c w :
  given output_dir = None ->
  loads (lower (splitext file_path).2) c ->
  stat w file_path = Some (File c) ->
  writable w (sibling_path file_path) ->
  exists w',
    process_file file_path text output_dir false w = Ok true w'
    /\ stat w' (sibling_path file_path) = Some (File (watermarked text c))
    /\ stat w' file_path = Some (File c)
    /\ fs w' = <[key w (sibling_path file_path) := File (watermarked text c)]> (fs w)
    /\ stdout w' = stdout w.
Proof.
  intros Hg Hl Hst Hout. rewrite process_file_sibling by done.
  destruct (loads_handler _ _ Hl) as (add_watermark & Hh). rewrite Hh.
  rewrite (handler_for_valid _ _ _ _ text c w Hh Hl (loads_accepted _ _ Hl) Hst Hout).
  eexists. split; [reflexivity|].
  split; [by apply write_file_writable|].
  split; [|done].
  rewrite <- Hst. apply stat_frame; [done|]. intros _. cbn [fs set_fs].
  apply lookup_insert_ne, key_sibling_ne. by eapply handler_ext_nonempty.
Qed.

(** X8.  Without an output directory and without [overwrite], on a file
    the handler for its extension can load and with a sibling path that can
    be written: [process_file] returns true, the watermarked document is
    stored at the sibling path, the original still holds what it held,
    nothing else in the file store changes and nothing is printed. *)
Theorem sibling_mode_writes_watermarked_copy file_path text output_dir c w :
  given output_dir = None ->
  loads (lower (splitext file_path).2) c ->
  stat w file_path = Some (File c) ->
  writable w (sibling_path file_path) ->
  exists w',
    process_file file_path text output_dir false w = Ok true w'
    /\ stat w' (sibling_path file_path) = Some (File (watermarked text c))
    /\ stat w' file_path = Some (File c)
    /\ fs w' = <[key w (sibling_path file_path) := File (watermarked text c)]> (fs w)
    /\ stdout w' = stdout w.
Proof. apply process_file_sibling_valid. Qed.

(** The call with [overwrite], on a file that can be loaded under its
    backup name. *)
Lemma process_file_overwrite_valid file_path text output_dir c w :
  given output_dir = None ->
  loads (lower (splitext file_path).2) c ->
  accepted (file_path +:+ ".tmp") c ->
  stat w file_path = Some (File c) ->
  writable w (file_path +:+ ".tmp") ->
  exists w',
    process_file file_path text output_dir true w = Ok true w'
    /\ stat w' file_path = Some (File (watermarked text c))
    /\ stat w' (file_path +:+ ".tmp") = None
    /\ (forall q, key w q <> key w file_path ->
                  key w q <> key w (file_path +:+ ".tmp") ->
                  stat w' q = stat w q)
    /\ stdout w' = stdout w.
Proof.
  intros Hg Hl Ha Hst Hbak.
  destruct (loads_handler _ _ Hl) as (add_watermark & Hh).
  destruct (backup_keys_ext w file_path (handler_ext_nonempty _ _ Hh))
    as (stack & l & Ek & Ekt).
  pose proof (stat_Some_truthy _ _ _ Hst) as Hp.
  assert (truthy (file_path +:+ ".tmp") = true) as Hpt by by destruct file_path.
  destruct (check_parent_None _ _ (proj1 Hbak)) as (_ & _ & Hstack).
  rewrite Ekt, removelast_last in Hstack.
  assert (Hne : stack ++ [l] <> stack ++ [l +:+ ".tmp"]).
  { intros E. apply app_inj_tail in E as [_ E]. apply (f_equal String.length) in E.
    rewrite length_app_str in E. simpl in E. lia. }
  assert (Hs1 : stack <> stack ++ [l]).
  { intros E. apply (f_equal length) in E. rewrite length_app in E. simpl in E. lia. }
  assert (Hs2 : stack <> stack ++ [l +:+ ".tmp"]).
  { intros E. apply (f_equal length) in E. rewrite length_app in E. simpl in E. lia. }
  unfold process_file, resolve_paths. rewrite Hg, Hh.
  unfold bind at 1 2. rewrite (os_rename_file _ _ c) by done.
  set (w1 := set_fs w _). unfold ret at 1.
  assert (Hin1 : stat w1 (file_path +:+ ".tmp") = Some (File c)).
  { apply stat_insert; [done|]. rewrite Ekt. by destruct stack. }
  assert (Hout1 : writable w1 file_path).
  { split.
    - apply (check_parent_snoc _ _ stack l); [done|done|].
      rewrite (lookup_key_frame w w1), Hstack; [done|].
      intros _. unfold w1. cbn [fs set_fs]. rewrite Ek, Ekt.
      by rewrite lookup_insert_ne, lookup_delete_ne.
    - rewrite stat_key by done. change (key w1 file_path) with (key w file_path).
      rewrite Ek, lookup_key_snoc. unfold w1. cbn [fs set_fs]. rewrite Ek, Ekt.
      by rewrite lookup_insert_ne, lookup_delete_eq. }
  unfold bind at 1.
  rewrite (handler_for_valid _ _ _ _ text c w1 Hh Hl Ha Hin1 Hout1).
  set (w2 := set_fs w1 _).
  replace (true && negb (bool_decide (is_Some None))) with true by done.
  unfold bind, ret.
  assert (Hfs2 : fs w2 = <[stack ++ [l] := File (watermarked text c)]>
                           (<[stack ++ [l +:+ ".tmp"] := File c]>
                              (delete (stack ++ [l]) (fs w)))).
  { unfold w2, w1. cbn [fs set_fs]. change (key (set_fs w _) file_path) with (key w file_path).
    by rewrite Ek, Ekt. }
  rewrite (os_remove_file _ c).
  2:{ rewrite stat_key by done. change (key w2 (file_path +:+ ".tmp"))
        with (key w (file_path +:+ ".tmp")).
      rewrite Ekt, lookup_key_snoc, Hfs2.
      by rewrite lookup_insert_ne, lookup_insert_eq. }
  eexists. split; [reflexivity|].
  change (key w2 (file_path +:+ ".tmp")) with (key w (file_path +:+ ".tmp")).
  split; [|split; [|split; [|done]]].
  - rewrite stat_key by done. rewrite key_set_fs.
    change (key w2 file_path) with (key w file_path).
    rewrite Ek, Ekt, lookup_key_snoc. cbn [fs set_fs]. rewrite Hfs2.
    by rewrite lookup_delete_ne, lookup_insert_eq.
  - rewrite stat_key by done. rewrite key_set_fs.
    change (key w2 (file_path +:+ ".tmp")) with (key w (file_path +:+ ".tmp")).
    rewrite Ekt, lookup_key_snoc. cbn [fs set_fs].
    by rewrite lookup_delete_eq.
  - intros q Hq1 Hq2. apply stat_frame; [done|]. intros _.
    cbn [fs set_fs]. rewrite Hfs2, Ekt. rewrite Ek in Hq1. rewrite Ekt in Hq2.
    by rewrite lookup_delete_ne, lookup_insert_ne, lookup_insert_ne, lookup_delete_ne.
Qed.

(** X9.  With [overwrite] and no output directory, on a PDF or Word file
    that its handler can load and whose backup name can be written:
    [process_file] returns true, the original path holds the watermarked
    document, no backup is left (a file that was at the backup name before
    the call is gone), every other path is as before and nothing is
    printed. *)
Theorem overwrite_mode_replaces_in_place file_path text output_dir c w :
  given output_dir = None ->
  lower (splitext file_path).2 ∈ [".pdf"; ".docx"] ->
  loads (lower (splitext file_path).2) c ->
  stat w file_path = Some (File c) ->
  writable w (file_path +:+ ".tmp") ->
  exists w',
    process_file file_path text output_dir true w = Ok true w'
    /\ stat w' file_path = Some (File (watermarked text c))
    /\ stat w' (file_path +:+ ".tmp") = None
    /\ (forall q, key w q <> key w file_path ->
                  key w q <> key w (file_path +:+ ".tmp") ->
                  stat w' q = stat w q)
    /\ stdout w' = stdout w.
Proof.
  intros Hg Hext Hl. apply process_file_overwrite_valid; [done|done|].
  destruct c as [pages|doc|wb|data]; try done.
  destruct Hl as [E _]. rewrite E, !elem_of_cons, elem_of_nil in Hext.
  by destruct Hext as [?|[?|?]].
Qed.

(** The call with [overwrite], for a file whose path does not contain
    [.tmp]: what [overwrite_outcome] says of it, with the result of the
    handler, which ran between the two renames on the backup. *)
Lemma overwrite_outcome_handler file_path text c add_watermark w :
  well_formed w = true ->
  stat w file_path = Some (File c) ->
  writable w (file_path +:+ ".tmp") ->
  handler_for (lower (splitext file_path).2) = Some add_watermark ->
  occurs ".tmp" file_path = false ->
  exists b w' w1 w2,
    process_file file_path text None true w = Ok b w'
    /\ os_rename file_path (file_path +:+ ".tmp") w = Ok tt w1
    /\ add_watermark (file_path +:+ ".tmp") file_path text w1 = Ok b w2
    /\ stdout w1 = stdout w
    /\ stdout w' = stdout w2.
Proof.
  intros Hwf Hst Hbak Hh Hocc.
  destruct (overwrite_outcome file_path text c add_watermark w Hwf Hst Hbak Hh Hocc)
    as (b & w' & E & _).
  revert E. unfold process_file, resolve_paths. simpl given. rewrite Hh.
  unfold bind at 1 2. rewrite (os_rename_file _ _ c) by done.
  set (w1 := set_fs w _). unfold ret at 1.
  destruct (handler_for_returns _ _ (file_path +:+ ".tmp") file_path text Hh w1)
    as (b2 & w2 & Eh).
  unfold bind at 1. rewrite Eh.
  replace (true && negb (bool_decide (is_Some (given None)))) with true by done.
  unfold bind, ret. intros E.
  exists b, w', w1, w2. split; [|split; [done|]].
  { rewrite (os_rename_file _ _ c) by done. fold w1. cbn beta iota.
    rewrite Eh. exact E. }
  destruct b2.
  - unfold os_remove in E. repeat case_match; simplify_eq; done.
  - unfold os_rename in E. repeat case_match; simplify_eq; done.
Qed.

(** X10.  With [overwrite] and no output directory, for a regular file
    with a supported extension whose path does not contain [.tmp] and
    whose backup name [file_path.tmp] can be taken (its directory exists,
    and it does not name a directory), in a file store where every entry
    lies in a directory: [process_file] returns, whatever the file holds
    and whether or not the library is installed; no backup is left; on
    success the original path holds a file again, on failure it holds what
    it held before the call; and every other path is as before. *)
Theorem overwrite_replaces_or_restores file_path text c add_watermark w :
  well_formed w = true ->
  stat w file_path = Some (File c) ->
  writable w (file_path +:+ ".tmp") ->
  handler_for (lower (splitext file_path).2) = Some add_watermark ->
  occurs ".tmp" file_path = false ->
  exists b w',
    process_file file_path text None true w = Ok b w'
    /\ stat w' (file_path +:+ ".tmp") = None
    /\ (b = true -> exists c', stat w' file_path = Some (File c'))
    /\ (b = false -> stat w' file_path = Some (File c))
    /\ forall q, key w q <> key w file_path ->
                 key w q <> key w (file_path +:+ ".tmp") ->
                 stat w' q = stat w q.
Proof.
  intros Hwf Hst Hbak Hh Hocc.
  destruct (overwrite_outcome file_path text c add_watermark w Hwf Hst Hbak Hh Hocc)
    as (b & w' & E & Htmp & Horig & Hrest).
  exists b, w'. do 2 (split; [done|]). destruct b; repeat split; done.
Qed.

(** The Excel handler on a name openpyxl does not take: it fails before
    any file is opened. *)
Lemma add_watermark_xlsx_refused input_path output_path text w :
  lower (splitext input_path).2 ∉ Xlsx.SUPPORTED_FORMATS ->
  exists lines,
    add_watermark_xlsx input_path output_path text w
    = Ok false (World (cwd w) (fs w) (stdout w ++ lines))
    /\ (XLSX_SUPPORT = true ->
        exists msg, lines = ["Excel 处理失败: " +:+ msg]).
Proof.
  intros Hfmt. unfold add_watermark_xlsx. destruct XLSX_SUPPORT; simpl.
  - unfold try_except, bind at 1, load_workbook.
    rewrite bool_decide_eq_false_2 by done. cbn [negb]. unfold raise.
    cbn [is_Exception]. unfold bind, print, ret. cbn [cwd fs stdout].
    eexists [_]. split; [reflexivity|]. intros _. by eexists.
  - unfold bind, print, ret. cbn [cwd fs stdout]. rewrite <- app_assoc.
    eexists [_; _]. split; [reflexivity|]. done.
Qed.

(** X27.  [overwrite] never marks an Excel file.  With [overwrite] and
    no output directory the handler is given the backup, [file_path.tmp],
    and openpyxl refuses a name that does not end in one of its
    extensions.  So for every regular file named [.xlsx] whose path does
    not contain [.tmp] and whose backup name can be taken, in a file store
    where every entry lies in a directory, whatever the file holds:
    [process_file] returns false, the original is put back with what it
    held, no backup is left, and every other path is as before; with
    openpyxl installed one line is printed, the failure of the Excel
    handler. *)
Theorem overwrite_never_marks_a_workbook file_path text c w :
  well_formed w = true ->
  stat w file_path = Some (File c) ->
  writable w (file_path +:+ ".tmp") ->
  lower (splitext file_path).2 = ".xlsx" ->
  occurs ".tmp" file_path = false ->
  exists w',
    process_file file_path text None true w = Ok false w'
    /\ stat w' file_path = Some (File c)
    /\ stat w' (file_path +:+ ".tmp") = None
    /\ (forall q, key w q <> key w file_path ->
                  key w q <> key w (file_path +:+ ".tmp") ->
                  stat w' q = stat w q)
    /\ (XLSX_SUPPORT = true ->
        exists msg, stdout w' = stdout w ++ ["Excel 处理失败: " +:+ msg]).
Proof.
  intros Hwf Hst Hbak Hext Hocc.
  assert (Hh : handler_for (lower (splitext file_path).2) = Some add_watermark_xlsx)
    by by rewrite Hext.
  assert (Hfmt : lower (splitext (file_path +:+ ".tmp")).2 ∉ Xlsx.SUPPORTED_FORMATS).
  { rewrite splitext_backup by (intros E; by rewrite E in Hext).
    unfold Xlsx.SUPPORTED_FORMATS. rewrite !elem_of_cons, elem_of_nil.
    by intros [?|[?|[?|[?|?]]]]. }
  destruct (overwrite_outcome file_path text c _ w Hwf Hst Hbak Hh Hocc)
    as (b & w' & E & Htmp & Horig & Hrest).
  destruct (overwrite_outcome_handler file_path text c _ w Hwf Hst Hbak Hh Hocc)
    as (b' & w'' & w1 & w2 & E' & _ & Eh & Hout1 & Hout2).
  rewrite E in E'. injection E' as <- <-.
  destruct (add_watermark_xlsx_refused (file_path +:+ ".tmp") file_path text w1 Hfmt)
    as (lines & Er & Hlines).
  rewrite Er in Eh. injection Eh as <- <-.
  exists w'. do 4 (split; [done|]).
  intros Hsup. destruct (Hlines Hsup) as (msg & ->). exists msg.
  rewrite Hout2. cbn [stdout]. by rewrite Hout1.
Qed.

Lemma ancestors_length k a : a ∈ ancestors_and_self k -> length a <= length k.
Proof.
  unfold ancestors_and_self. intros Ha%list_elem_of_In%in_map_iff.
  destruct Ha as (n & <- & _). rewrite length_take. lia.
Qed.

(** [os.makedirs] prints nothing and leaves alone what lies deeper than
    the directory it is asked for. *)
Lemma os_makedirs_frame name w w1 :
  os_makedirs name true w = Ok tt w1 ->
  stdout w1 = stdout w
  /\ forall k, length (key w name) < length k -> fs w1 !! k = fs w !! k.
Proof.
  unfold os_makedirs. destruct (truthy name); cbn [negb]; [|done].
  destruct (lookup_key w (key w name)) as [[c|]|]; [done| |].
  - by intros [= <-].
  - destruct (existsb _ _); [done|]. intros [= <-]. split; [done|].
    intros k Hk. cbn [fs set_fs]. rewrite lookup_mkdir_all.
    rewrite bool_decide_eq_false_2; [done|].
    intros Hin%ancestors_length. lia.
Qed.

(** The call with an output directory, on a file that can be loaded. *)
Lemma process_file_output_dir_valid
    file_path text output_dir overwrite d c w w1 :
  given output_dir = Some d ->
  loads (lower (splitext file_path).2) c ->
  stat w file_path = Some (File c) ->
  os_makedirs d true w = Ok tt w1 ->
  stat w (join d (basename file_path)) <> Some Dir ->
  exists w',
    process_file file_path text output_dir overwrite w = Ok true w'
    /\ stat w' d = Some Dir
    /\ key w (join d (basename file_path)) = key w d ++ [basename file_path]
    /\ stat w' (join d (basename file_path)) = Some (File (watermarked text c))
    /\ fs w' = <[key w (join d (basename file_path)) := File (watermarked text c)]> (fs w1)
    /\ (key w (join d (basename file_path)) <> key w file_path ->
        stat w' file_path = Some (File c))
    /\ stdout w' = stdout w.
Proof.
  intros Hg Hl Hst Hmk Hnodir.
  destruct (loads_handler _ _ Hl) as (add_watermark & Hh).
  pose proof (given_truthy _ _ Hg) as Hd.
  pose proof (stat_Some_truthy _ _ _ Hst) as Hp.
  destruct (os_makedirs_creates _ _ _ Hmk) as (Hdir & Hcwd & _ & Hkeep).
  destruct (os_makedirs_frame _ _ _ Hmk) as (Hout & Hdeep).
  set (out := join d (basename file_path)) in *.
  assert (Hkey1 : forall q, key w1 q = key w q) by (intros q; unfold key; by rewrite Hcwd).
  assert (Hko : key w out = key w d ++ [basename file_path]).
  { unfold out. rewrite key_join by (done || apply basename_nosep).
    apply resolve_step_plain.
    destruct (sibling_shape file_path (handler_ext_nonempty _ _ Hh))
      as (q & stem & rest & _ & _ & _ & _ & _ & _ & H4 & ->).
    by rewrite all_char_app, H4. }
  assert (Hto : truthy out = true) by by apply truthy_join.
  assert (Hin1 : stat w1 file_path = Some (File c)).
  { rewrite stat_key in Hst |- * by done. rewrite Hkey1.
    unfold lookup_key in *. destruct (key w file_path); [done|]. by apply Hkeep. }
  assert (Hout1 : writable w1 out).
  { split.
    - apply (check_parent_snoc _ _ (key w d) (basename file_path)); [done| |].
      + by rewrite Hkey1.
      + rewrite stat_key, Hkey1 in Hdir by done. exact Hdir.
    - rewrite stat_key, Hkey1, Hko, lookup_key_snoc by done.
      rewrite Hdeep by (rewrite length_app; simpl; lia).
      rewrite stat_key, Hko, lookup_key_snoc in Hnodir by done. exact Hnodir. }
  unfold process_file, resolve_paths. rewrite Hg, Hh.
  unfold bind at 1 2. rewrite Hmk. unfold ret at 1. fold out.
  unfold bind at 1.
  rewrite (handler_for_valid _ _ _ _ text c w1 Hh Hl (loads_accepted _ _ Hl) Hin1 Hout1).
  replace (overwrite && negb (bool_decide (is_Some (Some d)))) with false
    by (rewrite bool_decide_eq_true_2 by done; by destruct overwrite).
  unfold bind, ret.
  eexists. split; [reflexivity|].
  split.
  { rewrite <- Hdir. apply stat_frame; [done|]. intros _. cbn [fs set_fs].
    rewrite !Hkey1. apply lookup_insert_ne. rewrite Hko.
    intros E. apply (f_equal length) in E. rewrite length_app in E. simpl in E. lia. }
  split; [done|].
  split; [by apply write_file_writable|].
  split; [cbn [fs set_fs]; by rewrite Hkey1|].
  split; [|done].
  intros Hne. rewrite <- Hin1. apply stat_frame; [done|]. intros _.
  cbn [fs set_fs]. rewrite !Hkey1. by apply lookup_insert_ne.
Qed.

(** X11.  With an output directory that can be created, on a file the
    handler for its extension can load, and with no directory in the way
    of the output: [process_file] returns true whatever [overwrite] says;
    the directory exists; the watermarked document is stored in it under
    the base name of the original; besides the directories
    [os.makedirs] created this is the only change; nothing is printed;
    and the original holds what it held, unless the output path names the
    original itself. *)
Theorem output_dir_mode_writes_into_directory
    file_path text output_dir overwrite d c w w1 :
  given output_dir = Some d ->
  loads (lower (splitext file_path).2) c ->
  stat w file_path = Some (File c) ->
  os_makedirs d true w = Ok tt w1 ->
  stat w (join d (basename file_path)) <> Some Dir ->
  exists w',
    process_file file_path text output_dir overwrite w = Ok true w'
    /\ stat w' d = Some Dir
    /\ key w (join d (basename file_path)) = key w d ++ [basename file_path]
    /\ stat w' (join d (basename file_path)) = Some (File (watermarked text c))
    /\ fs w' = <[key w (join d (basename file_path)) := File (watermarked text c)]> (fs w1)
    /\ (key w (join d (basename file_path)) <> key w file_path ->
        stat w' file_path = Some (File c))
    /\ stdout w' = stdout w.
Proof. apply process_file_output_dir_valid. Qed.

(** X12.  An output directory is created before the extension is looked
    at: for a file whose extension has no handler, [process_file] with an
    output directory that can be created still creates it, then prints
    that the type is not supported and returns false.  Nothing else
    changes. *)
Theorem unsupported_file_still_creates_output_dir
    file_path text output_dir overwrite d w w1 :
  given output_dir = Some d ->
  handler_for (lower (splitext file_path).2) = None ->
  os_makedirs d true w = Ok tt w1 ->
  exists w',
    process_file file_path text output_dir overwrite w = Ok false w'
    /\ fs w' = fs w1
    /\ stat w' d = Some Dir
    /\ stdout w' = stdout w ++ ["不支持的文件类型: " +:+ lower (splitext file_path).2].
Proof.
  intros Hg Hh Hmk.
  destruct (os_makedirs_creates _ _ _ Hmk) as (Hdir & _).
  destruct (os_makedirs_frame _ _ _ Hmk) as (Hout & _).
  unfold process_file, resolve_paths. rewrite Hg, Hh.
  unfold bind, ret, print. rewrite Hmk.
  eexists. split; [reflexivity|]. split; [done|]. split; [exact Hdir|].
  cbn [stdout]. by rewrite Hout.
Qed.

(** X13.  [process_file] returns true only after the output has been
    stored: when it returns true, a regular file is at the output path in
    the output directory's mode, in the original's place with [overwrite],
    at the sibling path otherwise. *)
Theorem success_means_output_exists file_path text output_dir overwrite w w' :
  process_file file_path text output_dir overwrite w = Ok true w' ->
  exists c',
    stat w' (match given output_dir with
             | Some d => join d (basename file_path)
             | None => if overwrite then file_path else sibling_path file_path
             end) = Some (File c').
Proof.
  unfold process_file. unfold bind at 1.
  destruct (resolve_paths file_path output_dir overwrite w)
    as [[input_path output_path] w1|e w1] eqn:Hres; [|done].
  destruct (handler_for _) as [add_watermark|] eqn:Hh; [|done].
  destruct (handler_for_effect _ _ Hh input_path output_path text w1)
    as (b & w2 & E & Hcwd & Heff).
  unfold bind at 1. rewrite E.
  assert (Hstored : b = true ->
            exists c', stat w2 output_path = Some (File c')
                       /\ fs w2 = <[key w1 output_path := File c']> (fs w1)
                       /\ truthy output_path = true).
  { intros ->. destruct Heff as (c & c' & _ & Hw & Hfs). exists c'.
    destruct (check_parent_None _ _ (proj1 Hw)) as (Ht & Hk & _).
    split; [|done].
    rewrite stat_key by done. unfold key. rewrite Hcwd. fold (key w1 output_path).
    unfold lookup_key. destruct (key w1 output_path) eqn:Ek; [done|].
    by rewrite Hfs, lookup_insert_eq. }
  unfold resolve_paths in Hres.
  destruct (given output_dir) as [d|] eqn:Hg.
  - unfold bind, ret in Hres.
    destruct (os_makedirs d true w) as [[] w0|]; [|done]. injection Hres as <- <- <-.
    replace (overwrite && negb (bool_decide (is_Some (Some d)))) with false
      by (rewrite bool_decide_eq_true_2 by done; by destruct overwrite).
    unfold bind, ret. intros [= -> <-].
    destruct (Hstored eq_refl) as (c' & Hc & _). by exists c'.
  - destruct overwrite.
    + unfold bind, ret in Hres.
      destruct (os_rename _ _ w) as [[] w0|]; [|done]. injection Hres as <- <- <-.
      replace (true && negb (bool_decide (is_Some None))) with true by done.
      unfold bind, ret. destruct b.
      * destruct (Hstored eq_refl) as (c' & Hc & Hfs & Ht).
        unfold os_remove.
        destruct (stat w2 (file_path +:+ ".tmp")) as [[c0|]|]; [|done|done].
        intros [= <-]. exists c'.
        rewrite stat_key in Hc |- * by done. rewrite key_set_fs.
        unfold lookup_key in *. destruct (key w2 file_path) eqn:Ek; [done|].
        rewrite <- Ek in *. cbn [fs set_fs].
        rewrite lookup_delete_ne; [done|]. apply key_backup_ne.
      * destruct (os_rename _ _ w2) as [[] w3|]; intros [= ? ?].
    + destruct (splitext file_path) as [base extension] eqn:Hs.
      unfold ret in Hres. injection Hres as <- <- <-.
      cbn [andb]. unfold bind, ret. intros [= -> <-].
      destruct (Hstored eq_refl) as (c' & Hc & _). exists c'.
      unfold sibling_path. by rewrite Hs.
Qed.

(** *** A missing input *)

Lemma os_makedirs_no_new_file name w w1 p :
  os_makedirs name true w = Ok tt w1 ->
  stat w p = None ->
  stat w1 p = None \/ stat w1 p = Some Dir.
Proof.
  intros Hmk Hst. destruct (os_makedirs_creates _ _ _ Hmk) as (_ & Hcwd & _).
  unfold stat in *. destruct (truthy p); [|by left].
  unfold key in *. rewrite Hcwd. revert Hmk. unfold os_makedirs.
  destruct (truthy name); cbn [negb]; [|done].
  destruct (lookup_key w (key w name)) as [[?|]|]; [done| |].
  - intros [= <-]. by left.
  - destruct (existsb _ _); [done|]. intros [= <-].
    unfold lookup_key in *. destruct (resolve (cwd w) p); [done|].
    cbn [fs set_fs]. rewrite lookup_mkdir_all. case_bool_decide; [by right|by left].
Qed.

Lemma handler_needs_file ext add_watermark input_path output_path text w :
  handler_for ext = Some add_watermark ->
  (forall c, stat w input_path <> Some (File c)) ->
  exists w',
    add_watermark input_path output_path text w = Ok false w' /\ fs w' = fs w.
Proof.
  intros Hh Hno.
  destruct (handler_for_effect _ _ Hh input_path output_path text w)
    as (b & w' & E & _ & Heff).
  destruct b; [|by exists w'].
  destruct Heff as (c & _ & Hc & _). by destruct (Hno c).
Qed.

(** X14.  A path that names nothing, mode by mode.  With [overwrite] and
    no output directory the backup rename raises [FileNotFoundError], which
    [process_file] lets through, before anything is printed or changed.
    Without [overwrite] and without output directory the call returns
    false and the file store is as before.  With an output directory that
    can be created the directory is created all the same, and the call
    returns false with no other change. *)
Theorem missing_input_by_mode file_path text output_dir w :
  stat w file_path = None ->
  (given output_dir = None ->
   process_file file_path text output_dir true w = Raise FileNotFoundError w)
  /\ (given output_dir = None ->
      exists w',
        process_file file_path text output_dir false w = Ok false w'
        /\ fs w' = fs w)
  /\ (forall d overwrite w1,
        given output_dir = Some d ->
        os_makedirs d true w = Ok tt w1 ->
        exists w',
          process_file file_path text output_dir overwrite w = Ok false w'
          /\ fs w' = fs w1).
Proof.
  intros Hst. split; [|split].
  - intros Hg. unfold process_file, resolve_paths. rewrite Hg.
    unfold bind, os_rename. by rewrite Hst.
  - intros Hg. rewrite process_file_sibling by done.
    destruct (handler_for _) as [add_watermark|] eqn:Hh; [|by eexists].
    apply (handler_needs_file _ _ _ _ _ _ Hh). intros c. by rewrite Hst.
  - intros d overwrite w1 Hg Hmk.
    unfold process_file, resolve_paths. rewrite Hg.
    unfold bind at 1 2. rewrite Hmk. unfold ret at 1.
    rewrite bool_decide_eq_true_2 by done. rewrite andb_false_r.
    destruct (handler_for _) as [add_watermark|] eqn:Hh; [|by eexists].
    destruct (handler_needs_file _ _ file_path (join d (basename file_path)) text w1 Hh)
      as (w' & E & Hfs).
    { intros c. by destruct (os_makedirs_no_new_file _ _ _ file_path Hmk Hst) as [-> | ->]. }
    unfold bind, ret. rewrite E. by exists w'.
Qed.

(** *** A directory, mode by mode *)

(** X15.  Without an output directory and without [overwrite],
    [process_directory] always returns: no file, whatever it holds or
    whether it is still there, makes the walk raise, and the tally counts
    every eligible file of the listing once. *)
Theorem sibling_walk_always_tallies listing dir_path text output_dir w :
  given output_dir = None ->
  exists res w',
    process_directory listing dir_path text output_dir false w = Ok res w'
    /\ success res + failed res = count_eligible listing.
Proof. apply process_directory_sibling_tally. Qed.

Lemma count_dirs_unfold d sub rest :
  count_eligible (DirTree ((d, sub) :: rest) [])
  = if hidden d then count_eligible (DirTree rest [])
    else count_eligible sub + count_eligible (DirTree rest []).
Proof. cbn [count_eligible]. simpl. by destruct (hidden d). Qed.

Lemma count_eligible_split dirs files :
  count_eligible (DirTree dirs files)
  = length (filter (fun f => eligible f = true) files) + count_eligible (DirTree dirs []).
Proof. reflexivity. Qed.

(** A listing without eligible files is walked without any effect. *)
Lemma walk_nothing dir_path text output_dir overwrite t :
  count_eligible t = 0 ->
  forall root res w, walk dir_path text output_dir overwrite root t res w = Ok res w.
Proof.
  induction t as [dirs files IH] using dirtree_nested_ind.
  rewrite count_eligible_split. intros Hc root res w.
  assert (filter (fun f => eligible f = true) files = []) as Hfiles.
  { apply length_zero_iff_nil. lia. }
  assert (count_eligible (DirTree dirs []) = 0) as Hdirs by lia. clear Hc.
  rewrite walk_unfold. unfold bind. rewrite visit_files_filter, Hfiles.
  cbn [visit_files]. unfold ret.
  induction IH as [|[d sub] rest Hsub _ IHrest]; [done|].
  rewrite count_dirs_unfold in Hdirs. cbn [walk_dirs]. simpl in Hsub.
  destruct (hidden d); [by apply IHrest|].
  unfold bind. rewrite Hsub by lia. apply IHrest. lia.
Qed.

(** X16.  A listing in which no file is eligible (no file at all, or only
    hidden files, lock files, other extensions and hidden directories) is
    walked without any effect, in every mode: the tally is 0 and 0, nothing
    is printed, and the file store is untouched; in particular an output
    directory is not created. *)
Theorem walk_without_documents_does_nothing
    listing dir_path text output_dir overwrite w :
  count_eligible listing = 0 ->
  process_directory listing dir_path text output_dir overwrite w = Ok (Results 0 0) w.
Proof. intros Hc. unfold process_directory. by apply walk_nothing. Qed.

(** Without its library a handler prints and fails. *)
Lemma handler_unavailable ext add_watermark input_path output_path text w :
  PDF_SUPPORT = false -> DOCX_SUPPORT = false -> XLSX_SUPPORT = false ->
  handler_for ext = Some add_watermark ->
  exists w',
    add_watermark input_path output_path text w = Ok false w'
    /\ cwd w' = cwd w /\ fs w' = fs w.
Proof.
  intros Hpdf Hdocx Hxlsx. unfold handler_for.
  repeat case_match; intros [= <-].
  - unfold add_watermark_pdf. rewrite Hpdf. by eexists.
  - unfold add_watermark_docx. rewrite Hdocx. by eexists.
  - unfold add_watermark_xlsx. rewrite Hxlsx. by eexists.
Qed.

Lemma visit_file_no_library dir_path text output_dir root f res w :
  PDF_SUPPORT = false -> DOCX_SUPPORT = false -> XLSX_SUPPORT = false ->
  given output_dir = None ->
  exists w',
    visit_file dir_path text output_dir false root f res w
    = Ok (Results (success res) (failed res + (if eligible f then 1 else 0))) w'
    /\ cwd w' = cwd w /\ fs w' = fs w.
Proof.
  intros Hpdf Hdocx Hxlsx Hg. destruct (eligible f) eqn:He.
  - unfold visit_file. rewrite eligible_split in He.
    apply andb_true_iff in He as [He1 He2]. apply negb_true_iff in He1.
    rewrite He1, He2, Hg. cbn [negb]. rewrite bind_ret_l.
    unfold bind at 1, print at 1. unfold bind at 1.
    rewrite process_file_sibling by done.
    destruct (handler_for _) as [add_watermark|] eqn:Hh.
    + destruct (handler_unavailable _ _ (join root f) (sibling_path (join root f)) text
                  (World (cwd w) (fs w) (stdout w ++ ["处理: " +:+ f]))
                  Hpdf Hdocx Hxlsx Hh) as (w' & -> & Hcwd & Hfs).
      eexists. split; [reflexivity|]. done.
    + eexists. split; [reflexivity|]. done.
  - rewrite visit_file_skipped by done. exists w. destruct res. unfold ret. simpl.
    by rewrite Nat.add_0_r.
Qed.

Lemma visit_files_no_library dir_path text output_dir root files :
  PDF_SUPPORT = false -> DOCX_SUPPORT = false -> XLSX_SUPPORT = false ->
  given output_dir = None ->
  forall res w,
  exists w',
    visit_files dir_path text output_dir false root files res w
    = Ok (Results (success res)
            (failed res + length (filter (fun f => eligible f = true) files))) w'
    /\ cwd w' = cwd w /\ fs w' = fs w.
Proof.
  intros Hpdf Hdocx Hxlsx Hg. induction files as [|f rest IH]; intros res w.
  - exists w. destruct res. unfold visit_files, ret. simpl. by rewrite Nat.add_0_r.
  - cbn [visit_files]. unfold bind.
    destruct (visit_file_no_library dir_path text output_dir root f res w
                Hpdf Hdocx Hxlsx Hg) as (w1 & -> & Hcwd1 & Hfs1).
    destruct (IH (Results (success res) (failed res + (if eligible f then 1 else 0))) w1)
      as (w2 & -> & Hcwd2 & Hfs2).
    exists w2. split; [|split; congruence].
    f_equal. cbn [success failed]. f_equal.
    rewrite filter_cons. destruct (decide (eligible f = true)) as [->|Hn].
    + simpl. lia.
    + apply not_true_is_false in Hn. rewrite Hn. lia.
Qed.

Lemma walk_no_library dir_path text output_dir t :
  PDF_SUPPORT = false -> DOCX_SUPPORT = false -> XLSX_SUPPORT = false ->
  given output_dir = None ->
  forall root res w,
  exists w',
    walk dir_path text output_dir false root t res w
    = Ok (Results (success res) (failed res + count_eligible t)) w'
    /\ cwd w' = cwd w /\ fs w' = fs w.
Proof.
  intros Hpdf Hdocx Hxlsx Hg.
  induction t as [dirs files IH] using dirtree_nested_ind. intros root res w.
  rewrite walk_unfold, count_eligible_split. unfold bind.
  destruct (visit_files_no_library dir_path text output_dir root files
              Hpdf Hdocx Hxlsx Hg res w) as (w1 & -> & Hcwd1 & Hfs1).
  set (n := length _). clearbody n.
  assert (forall res w,
            exists w',
              walk_dirs dir_path text output_dir false root dirs res w
              = Ok (Results (success res)
                      (failed res + count_eligible (DirTree dirs []))) w'
              /\ cwd w' = cwd w /\ fs w' = fs w) as Hdirs.
  { clear w w1 res Hcwd1 Hfs1.
    induction IH as [|[d sub] rest Hsub _ IHrest]; intros res w.
    - exists w. destruct res. simpl. unfold ret. by rewrite Nat.add_0_r.
    - rewrite count_dirs_unfold. cbn [walk_dirs]. simpl in Hsub.
      destruct (hidden d); [apply IHrest|].
      unfold bind. destruct (Hsub (join root d) res w) as (w1 & -> & Hcwd1 & Hfs1).
      destruct (IHrest (Results (success res) (failed res + count_eligible sub)) w1)
        as (w2 & -> & Hcwd2 & Hfs2).
      exists w2. split; [|split; congruence].
      f_equal. cbn [success failed]. f_equal. lia. }
  destruct (Hdirs (Results (success res) (failed res + n)) w1)
    as (w2 & -> & Hcwd2 & Hfs2).
  exists w2. split; [|split; congruence].
  f_equal. cbn [success failed]. f_equal. lia.
Qed.

(** X17.  With none of the three libraries installed, without an output
    directory and without [overwrite], [process_directory] returns a tally
    of no success and one failure for every eligible file of the listing,
    and the file store is as before: every handler fails before it opens a
    file. *)
Theorem no_library_walk_fails_every_file listing dir_path text output_dir w :
  PDF_SUPPORT = false -> DOCX_SUPPORT = false -> XLSX_SUPPORT = false ->
  given output_dir = None ->
  exists w',
    process_directory listing dir_path text output_dir false w
    = Ok (Results 0 (count_eligible listing)) w'
    /\ cwd w' = cwd w /\ fs w' = fs w.
Proof.
  intros Hpdf Hdocx Hxlsx Hg. unfold process_directory.
  apply (walk_no_library dir_path text output_dir listing Hpdf Hdocx Hxlsx Hg
           dir_path (Results 0 0) w).
Qed.

(** *** Names in a directory *)

Lemma join_nosep root x : has sep x = false -> join root x = join_prefix root +:+ x.
Proof.
  intros Hx. unfold join, join_prefix. rewrite (startswith_nosep x Hx).
  destruct (negb (truthy root) || endswith_char root sep); [done|].
  by rewrite app_assoc_str.
Qed.

Lemma rfind_endswith s c :
  endswith_char s c = true -> rfind s c = (Z.of_nat (String.length s) - 1)%Z.
Proof.
  intros (s' & ->)%endswith_char_snoc. unfold rfind.
  rewrite rfind_from_app, length_app_str. cbn [rfind_from String.length].
  rewrite Ascii.eqb_refl. lia.
Qed.

Lemma join_prefix_rfind root :
  rfind (join_prefix root) sep = (Z.of_nat (String.length (join_prefix root)) - 1)%Z.
Proof.
  unfold join_prefix. destruct root as [|a root]; [done|]. cbn [truthy negb orb].
  destruct (endswith_char (String a root) sep) eqn:E; [by apply rfind_endswith|].
  apply rfind_endswith. clear E. generalize (String a root). intros s.
  induction s as [|b s IH]; [done|]. rewrite app_cons. cbn [endswith_char].
  destruct s; [done|]. exact IH.
Qed.

Lemma basename_join root f : has sep f = false -> basename (join root f) = f.
Proof.
  intros Hf. rewrite join_nosep by done. unfold basename.
  rewrite rfind_app_no by done. rewrite join_prefix_rfind.
  replace (Z.to_nat (Z.of_nat (String.length (join_prefix root)) - 1 + 1))
    with (String.length (join_prefix root)) by lia.
  apply slice_from_length.
Qed.

(** The extension of a name is its extension in any directory, and its
    sibling output there is the sibling name. *)
Lemma splitext_join root f :
  has sep f = false -> (splitext f).2 <> "" ->
  splitext (join root f) = (join root (splitext f).1, (splitext f).2)
  /\ sibling_path (join root f) = join root (sibling_path f)
  /\ has sep (sibling_path f) = false.
Proof.
  intros Hf He.
  destruct (sibling_shape f He)
    as (q & stem & rest & Hp & Hs & Hsib & H1 & H2 & H3 & H4 & _).
  assert (Hq : has sep q = false).
  { rewrite Hp, has_app in Hf. by apply orb_false_elim in Hf as [? _]. }
  assert (Hsplit : splitext (join root f)
                   = (join_prefix root +:+ q +:+ stem, String extsep rest)).
  { rewrite join_nosep by done. rewrite Hp at 1.
    rewrite <- !app_assoc_str. rewrite (app_assoc_str _ stem).
    rewrite (splitext_intro (join_prefix root +:+ q) stem rest) by done.
    by rewrite !app_assoc_str. }
  assert (Hnosep : has sep (sibling_path f) = false).
  { rewrite Hsib, !has_app, Hq, H1. cbn -[has]. cbn [has]. by rewrite H2. }
  split; [|split; [|done]].
  - rewrite Hsplit, Hs. cbn [fst snd].
    rewrite join_nosep by (by rewrite has_app, Hq, H1).
    by rewrite ?app_assoc_str.
  - unfold sibling_path at 1. rewrite Hsplit. cbn [fst snd].
    rewrite join_nosep, Hsib by done. by rewrite ?app_assoc_str.
Qed.

Lemma eligible_ext f : eligible f = true -> (splitext f).2 <> "".
Proof.
  rewrite eligible_split. intros [_ He]%andb_true_iff E.
  rewrite E in He. done.
Qed.

(** X18.  The output of a run without output directory and without
    [overwrite] is itself eligible: for an eligible file name of a listing,
    the sibling output [process_file] writes next to it has another name,
    which the walk would pick up in a later run as it picked up the
    original; it has the same extension, lower-cased or not. *)
Theorem walk_outputs_are_eligible root f w :
  has sep f = false ->
  eligible f = true ->
  exists f',
    resolve_paths (join root f) None false w = Ok (join root f, join root f') w
    /\ f' <> f
    /\ has sep f' = false
    /\ (splitext f').2 = (splitext f).2
    /\ eligible f' = true.
Proof.
  intros Hf He. pose proof (eligible_ext f He) as Hext.
  destruct (splitext_join root f Hf Hext) as (Hsplit & Hsib & Hnosep).
  exists (sibling_path f).
  split.
  { unfold resolve_paths. cbn [given]. rewrite <- Hsib. unfold sibling_path.
    by destruct (splitext (join root f)). }
  split.
  { intros E. apply (f_equal String.length) in E. unfold sibling_path in E.
    rewrite <- (splitext_app f _ _ (surjective_pairing _)) in E at 3.
    rewrite !length_app_str in E. simpl in E. lia. }
  split; [done|].
  rewrite splitext_sibling by done. split; [done|].
  rewrite eligible_split in He |- *. rewrite splitext_sibling by done. cbn [snd].
  apply andb_true_iff in He as [Hstart ->]. rewrite andb_true_r.
  destruct (sibling_shape f Hext)
    as (q & stem & rest & Hp & _ & Hs & _ & _ & _ & H4 & _).
  rewrite Hs. rewrite Hp in Hstart.
  rewrite <- app_assoc_str in Hstart |- *. rewrite <- !app_assoc_str.
  assert (q +:+ stem <> "") as Hb.
  { intros E. destruct q; [|done]. rewrite app_nil_l_str in E. by rewrite E in H4. }
  rewrite (app_assoc_str (q +:+ stem)).
  destruct (q +:+ stem) as [|a [|b s]]; [done| |].
  - simpl in *. by rewrite andb_false_r in *.
  - done.
Qed.

(** *** Backups and later walks *)

Lemma splitext_backup_any p :
  (splitext (p +:+ ".tmp")).2 = ".tmp" \/ (splitext (p +:+ ".tmp")).2 = "".
Proof.
  unfold splitext.
  rewrite (rfind_app_no p ".tmp" sep) by done.
  assert (rfind (p +:+ ".tmp") extsep = Z.of_nat (String.length p)) as ->.
  { unfold rfind. rewrite rfind_from_app. simpl. lia. }
  pose proof (rfind_range p sep) as Hs.
  rewrite (proj2 (Z.ltb_lt _ _)) by lia.
  destruct (all_char extsep _); [by right|left].
  cbn [snd]. by rewrite Nat2Z.id, slice_from_length.
Qed.

(** X19.  A backup is not eligible: whatever the name, the name with
    [.tmp] appended is passed over by the walk, so a backup that a call
    with [overwrite] left behind is never processed, restored or removed
    by a later run over the directory. *)
Theorem backup_names_are_not_eligible f :
  eligible (f +:+ ".tmp") = false
  /\ forall dir_path text output_dir overwrite root res w,
       visit_file dir_path text output_dir overwrite root (f +:+ ".tmp") res w
       = Ok res w.
Proof.
  assert (He : eligible (f +:+ ".tmp") = false).
  { rewrite eligible_split. apply andb_false_iff. right.
    by destruct (splitext_backup_any f) as [-> | ->]. }
  split; [done|]. intros. by rewrite visit_file_skipped.
Qed.

(** *** The output directory in a walk *)

Lemma key_join_curdir w d : truthy d = true -> key w (join d curdir) = key w d.
Proof. intros Hd. by rewrite key_join. Qed.

Lemma eligible_visit dir_path text output_dir overwrite root f res :
  eligible f = true ->
  visit_file dir_path text output_dir overwrite root f res
  = (file_output_dir <-
       match given output_dir with
       | Some output_dir =>
           rel_path <- relpath root dir_path ;;
           ret (Some (join output_dir rel_path))
       | None => ret None
       end ;;
     print ("处理: " +:+ f) ;;
     ok <- process_file (join root f) text file_output_dir overwrite ;;
     if ok then
       print "  ✓ 完成" ;;
       ret (Results (success res + 1) (failed res))
     else
       print "  ✗ 失败" ;;
       ret (Results (success res) (failed res + 1))).
Proof.
  rewrite eligible_split. intros [He1 He2]%andb_true_iff.
  apply negb_true_iff in He1. unfold visit_file. by rewrite He1, He2.
Qed.

Lemma main_target args listing w target :
  target_of args = Some target ->
  main args listing w
  = (found <- os_path_exists target ;;
     (if negb found then
        print ("错误: 路径不存在 - " +:+ target) ;;
        sys_exit 1
      else ret tt) ;;
     isfile <- os_path_isfile target ;;
     if isfile then
       ok <- process_file target (arg_text args) (arg_output args) (arg_overwrite args) ;;
       if ok then print "✓ 水印添加完成"
       else (print "✗ 水印添加失败" ;; sys_exit 1)
     else
       res <- process_directory listing target (arg_text args) (arg_output args)
                (arg_overwrite args) ;;
       print (newline +:+ "完成: " +:+ pretty (success res) +:+ " 成功, "
              +:+ pretty (failed res) +:+ " 失败")) w.
Proof.
  unfold target_of, main. destruct (given (arg_directory args)) as [d|].
  - by intros [= ->].
  - destruct (given (arg_path args)) as [p|]; [|done]. by intros [= ->].
Qed.

(** *** [normpath], [abspath] and [relpath] below the walked directory *)

Lemma normpath_eq path :
  truthy path = true ->
  normpath path
  = let p := String.concat "" (replicate (initial_slashes path) "/")
             +:+ str_join (normpath_comps path) in
    if truthy p then p else curdir.
Proof. intros Hp. unfold normpath. rewrite Hp. reflexivity. Qed.

Lemma abspath_eq p w : abspath p w = Ok (normpath (abs_raw w p)) w.
Proof. unfold abspath, abs_raw. by destruct (isabs p). Qed.

Lemma split_pieces_nosep c s : Forall (fun x => has c x = false) (Str.split c s).
Proof.
  induction s as [|a s IH]; simpl; [by constructor|].
  destruct (Ascii.eqb a c) eqn:E; [by constructor|].
  destruct (Str.split c s) as [|x xs]; [by repeat constructor; simpl; rewrite E|].
  inversion IH as [|? ? Hx Hxs]; subst. constructor; [|done]. simpl. by rewrite E.
Qed.

Lemma Forall_removelast {A} (P : A -> Prop) (l : list A) :
  Forall P l -> Forall P (removelast l).
Proof.
  induction l as [|a l IH]; [done|]. intros H. inversion H; subst.
  simpl. destruct l; [constructor|]. constructor; [done|]. by apply IH.
Qed.

Lemma normpath_comps_nice n l acc :
  Forall (fun x => has sep x = false /\ x <> "") acc ->
  Forall (fun x => has sep x = false) l ->
  Forall (fun x => has sep x = false /\ x <> "") (foldl (normpath_step n) acc l).
Proof.
  revert acc. induction l as [|x l IH]; intros acc Hacc Hl; [done|].
  inversion Hl; subst. cbn [foldl]. apply IH; [|done].
  unfold normpath_step. destruct (String.eqb x "") eqn:E; [done|]. cbn [orb].
  destruct (String.eqb x curdir); [done|].
  destruct (_ || _).
  - apply Forall_app. split; [done|]. constructor; [|done].
    split; [done|]. by apply String.eqb_neq.
  - by apply Forall_removelast.
Qed.

Lemma split_foldl_slash pre l :
  Forall (fun x => has sep x = false) l ->
  Str.split sep (foldl (fun acc x => acc +:+ "/" +:+ x) pre l) = Str.split sep pre ++ l.
Proof.
  revert pre. induction l as [|x l IH]; intros pre Hl; [by rewrite app_nil_r|].
  inversion Hl; subst. cbn [foldl]. rewrite IH by done.
  change (pre +:+ "/" +:+ x) with (pre +:+ String sep x).
  rewrite split_sep_app, (split_nosep sep x) by done. by rewrite <- app_assoc.
Qed.

Lemma filter_truthy_nice (l : list string) :
  Forall (fun x => has sep x = false /\ x <> "") l ->
  filter (fun x => truthy x = true) l = l.
Proof.
  induction l as [|x l IH]; [done|]. intros H. inversion H as [|? ? [_ Hx] Hl]; subst.
  rewrite filter_cons. destruct (decide (truthy x = true)) as [_|Hn].
  - by rewrite IH.
  - by destruct x.
Qed.

Lemma nonempty_components_str_join comps :
  Forall (fun x => has sep x = false /\ x <> "") comps ->
  nonempty_components (str_join comps) = comps.
Proof.
  intros H. unfold nonempty_components, str_join.
  destruct comps as [|a l]; [done|]. inversion H as [|? ? [Ha Hne] Hl]; subst.
  rewrite split_foldl_slash by (eapply Forall_impl; [exact Hl|by intros ? []]).
  rewrite (split_nosep sep a) by done.
  by apply (filter_truthy_nice (a :: l)).
Qed.

Lemma initial_slashes_abs X :
  isabs X = true -> initial_slashes X = 1 \/ initial_slashes X = 2.
Proof.
  unfold isabs, initial_slashes. intros ->. destruct (_ && _); auto.
Qed.

(** The components of a normalised absolute path. *)
Lemma nonempty_components_normpath X :
  isabs X = true -> nonempty_components (normpath X) = normpath_comps X.
Proof.
  intros Habs. assert (truthy X = true) as Ht by by destruct X.
  rewrite normpath_eq by done. cbn zeta.
  assert (Hnice : Forall (fun x => has sep x = false /\ x <> "") (normpath_comps X)).
  { apply normpath_comps_nice; [constructor|apply split_pieces_nosep]. }
  destruct (initial_slashes_abs X Habs) as [-> | ->]; cbn [replicate String.concat].
  - cbn [String.append truthy].
    transitivity (nonempty_components (str_join (normpath_comps X)));
      [reflexivity|by apply nonempty_components_str_join].
  - cbn [String.append truthy].
    transitivity (nonempty_components (str_join (normpath_comps X)));
      [reflexivity|by apply nonempty_components_str_join].
Qed.

Lemma join_rel a b : startswith b "/" = false -> join a b = join_prefix a +:+ b.
Proof.
  intros Hb. unfold join, join_prefix. rewrite Hb.
  destruct (negb (truthy a) || endswith_char a sep); [done|].
  by rewrite app_assoc_str.
Qed.

Lemma endswith_char_app s t c :
  truthy t = true -> endswith_char (s +:+ t) c = endswith_char t c.
Proof.
  intros Ht. induction s as [|a s IH]; [done|]. rewrite app_cons.
  cbn [endswith_char]. destruct (s +:+ t) eqn:E; [|done].
  destruct s; [|done]. rewrite app_nil_l_str in E. by rewrite E in Ht.
Qed.

Lemma truthy_app_r s t : truthy t = true -> truthy (s +:+ t) = true.
Proof. intros Ht. by destruct s. Qed.

Lemma join_prefix_app s t :
  truthy t = true -> join_prefix (s +:+ t) = s +:+ join_prefix t.
Proof.
  intros Ht. unfold join_prefix.
  rewrite truthy_app_r, endswith_char_app, Ht by done. cbn [negb orb].
  destruct (endswith_char t sep); [done|]. by rewrite app_assoc_str.
Qed.

Lemma startswith_app s t c :
  truthy s = true -> startswith (s +:+ t) (String c "") = startswith s (String c "").
Proof. intros Hs. by destruct s as [|a s]. Qed.

Lemma startswith_join_prefix r :
  truthy r = true -> forall x, startswith (join_prefix r +:+ x) "/" = startswith r "/".
Proof.
  intros Hr x. unfold join_prefix. rewrite Hr. cbn [negb orb].
  destruct (endswith_char r sep).
  - by apply startswith_app.
  - rewrite app_assoc_str. by apply startswith_app.
Qed.

(** Joining is associative on a non-empty middle part and a relative last
    part. *)
Lemma join_assoc a b c :
  truthy b = true -> startswith c "/" = false ->
  join a (join b c) = join (join a b) c.
Proof.
  intros Hb Hc. rewrite (join_rel b c) by done.
  destruct (startswith b "/") eqn:Eb.
  - unfold join at 1 3. rewrite startswith_join_prefix, Eb by done.
    by rewrite join_rel.
  - rewrite (join_rel a b) by done.
    rewrite (join_rel a) by (by rewrite startswith_join_prefix).
    rewrite (join_rel _ c) by done.
    by rewrite join_prefix_app, app_assoc_str.
Qed.

Lemma plain_rel s : plain s -> startswith s "/" = false.
Proof. intros [Hs _]. by apply startswith_nosep. Qed.

Lemma isabs_join r s :
  truthy r = true -> startswith s "/" = false -> isabs (join r s) = isabs r.
Proof.
  intros Hr Hs. unfold isabs. rewrite join_rel by done.
  by apply startswith_join_prefix.
Qed.

Lemma abs_raw_join w r s :
  truthy r = true -> startswith s "/" = false ->
  abs_raw w (join r s) = join (abs_raw w r) s.
Proof.
  intros Hr Hs. unfold abs_raw. rewrite isabs_join by done.
  destruct (isabs r); [done|]. by apply join_assoc.
Qed.

Lemma isabs_abs_raw w r : isabs (cwd w) = true -> isabs (abs_raw w r) = true.
Proof.
  intros Hcwd. unfold abs_raw. destruct (isabs r) eqn:E; [done|].
  rewrite isabs_join; [done|by destruct (cwd w)|done].
Qed.

Lemma normpath_step_abs n m acc c :
  n <> 0 -> m <> 0 -> normpath_step n acc c = normpath_step m acc c.
Proof. intros Hn Hm. unfold normpath_step. by destruct n, m. Qed.

Lemma foldl_normpath_step_abs n m l acc :
  n <> 0 -> m <> 0 ->
  foldl (normpath_step n) acc l = foldl (normpath_step m) acc l.
Proof.
  intros Hn Hm. revert acc. induction l as [|x l IH]; intros acc; [done|].
  cbn [foldl]. by rewrite IH, (normpath_step_abs n m).
Qed.

Lemma normpath_step_plain n acc s : plain s -> normpath_step n acc s = acc ++ [s].
Proof.
  intros (_ & H1 & H2 & H3). unfold normpath_step.
  apply String.eqb_neq in H1, H2, H3. by rewrite H1, H2, H3.
Qed.

(** One more name below an absolute path is one more component. *)
Lemma normpath_comps_join X s :
  isabs X = true -> plain s ->
  normpath_comps (join X s) = normpath_comps X ++ [s].
Proof.
  intros Habs Hs. pose proof Hs as (Hnosep & _).
  assert (truthy X = true) as Ht by by destruct X.
  assert (Habs' : isabs (join X s) = true).
  { rewrite isabs_join; [done|done|by apply plain_rel]. }
  unfold normpath_comps.
  rewrite (foldl_normpath_step_abs (initial_slashes (join X s)) (initial_slashes X)).
  2:{ destruct (initial_slashes_abs _ Habs') as [-> | ->]; done. }
  2:{ destruct (initial_slashes_abs _ Habs) as [-> | ->]; done. }
  set (n := initial_slashes X).
  rewrite join_nosep by done. unfold join_prefix. rewrite Ht. cbn [negb orb].
  destruct (endswith_char X sep) eqn:E.
  - destruct (endswith_char_snoc _ _ E) as (X' & ->).
    rewrite app_assoc_str. change (String sep "" +:+ s) with (String sep s).
    rewrite !split_sep_app, (split_nosep sep s) by done.
    change (Str.split sep "") with [""].
    rewrite !foldl_snoc. by rewrite normpath_step_plain.
  - rewrite app_assoc_str. change ("/" +:+ s) with (String sep s).
    rewrite split_sep_app, (split_nosep sep s) by done.
    rewrite foldl_snoc. by rewrite normpath_step_plain.
Qed.

(** The directory the walk reaches through the names [names], below the
    walked directory. *)
Lemma descend_comps w dir_path names :
  truthy dir_path = true -> isabs (cwd w) = true -> Forall plain names ->
  truthy (foldl join dir_path names) = true
  /\ normpath_comps (abs_raw w (foldl join dir_path names))
     = normpath_comps (abs_raw w dir_path) ++ names.
Proof.
  intros Hd Hcwd. induction names as [|s names IH] using rev_ind; intros Hn.
  - by rewrite app_nil_r.
  - apply Forall_app in Hn as [Hn Hs]. inversion Hs as [|? ? Hs' _]; subst.
    destruct (IH Hn) as [Ht Hc]. rewrite foldl_snoc.
    split; [by apply truthy_join|].
    rewrite abs_raw_join by (done || by apply plain_rel).
    rewrite normpath_comps_join by (done || by apply isabs_abs_raw).
    by rewrite Hc, <- app_assoc.
Qed.

Lemma commonprefix_len_app l l' : commonprefix_len l (l ++ l') = length l.
Proof. induction l as [|a l IH]; [by destruct l'|]. simpl. by rewrite String.eqb_refl, IH. Qed.

Lemma relpath_descend w dir_path names :
  truthy dir_path = true -> isabs (cwd w) = true -> Forall plain names ->
  relpath (foldl join dir_path names) dir_path w
  = Ok (match names with [] => curdir | _ => join_list names end) w.
Proof.
  intros Hd Hcwd Hn. destruct (descend_comps w dir_path names Hd Hcwd Hn) as [Ht Hc].
  unfold relpath. rewrite Ht. cbn [negb]. unfold bind.
  rewrite !abspath_eq. cbn iota beta.
  rewrite !nonempty_components_normpath by by apply isabs_abs_raw.
  rewrite Hc, commonprefix_len_app, Nat.sub_diag, drop_app_length.
  by destruct names.
Qed.

Lemma resolve_step_plain_name stack s : plain s -> resolve_step stack s = stack ++ [s].
Proof.
  intros (_ & H1 & H2 & H3). unfold resolve_step.
  apply String.eqb_neq in H1, H2, H3. by rewrite H1, H2, H3.
Qed.

Lemma join_list_rel names :
  Forall plain names -> names <> [] ->
  truthy (join_list names) = true /\ startswith (join_list names) "/" = false.
Proof.
  induction names as [|s names IH] using rev_ind; [done|]. intros Hn _.
  apply Forall_app in Hn as [Hn Hs]. inversion Hs as [|? ? Hs' _]; subst.
  destruct names as [|a names].
  - simpl. split; [by destruct Hs' as (_ & ? & _), s|by apply plain_rel].
  - destruct (IH Hn ltac:(done)) as [Ht Hr].
    change (join_list ((a :: names) ++ [s])) with (foldl join a (names ++ [s])).
    rewrite foldl_snoc. change (foldl join a names) with (join_list (a :: names)).
    split; [by apply truthy_join|].
    rewrite join_rel by by apply plain_rel.
    by rewrite startswith_join_prefix.
Qed.

(** The output directory for the directory reached through [names] names
    the directory reached through the same names below the output
    directory. *)
Lemma key_join_list w d names :
  truthy d = true -> Forall plain names -> names <> [] ->
  key w (join d (join_list names)) = key w d ++ names.
Proof.
  intros Hd. induction names as [|s names IH] using rev_ind; [done|]. intros Hn _.
  apply Forall_app in Hn as [Hn Hs]. inversion Hs as [|? ? Hs' _]; subst.
  pose proof Hs' as (Hnosep & _).
  destruct names as [|a names].
  - simpl. rewrite key_join by done. by apply resolve_step_plain_name.
  - destruct (join_list_rel (a :: names) Hn ltac:(done)) as [Ht Hr].
    change (join_list ((a :: names) ++ [s])) with (foldl join a (names ++ [s])).
    rewrite foldl_snoc. change (foldl join a names) with (join_list (a :: names)).
    rewrite join_assoc by (done || by apply plain_rel).
    rewrite key_join by (done || by apply truthy_join).
    rewrite IH by done. by rewrite resolve_step_plain_name, <- app_assoc.
Qed.

(** X20.  The walk keeps the directory structure below the output
    directory.  With an absolute current directory, as [os.getcwd] gives
    it: for the directory reached from the walked directory through the
    directory names [names] (none, for the walked directory itself), the
    relative path the loop computes is [.] or the names joined by
    separators, and the output directory handed to [process_file] for an
    eligible file found there names the directory reached through the same
    names below the output directory. *)
Theorem output_directory_mirrors_the_tree
    dir_path text output_dir overwrite d names f res w :
  truthy dir_path = true ->
  isabs (cwd w) = true ->
  given output_dir = Some d ->
  Forall plain names ->
  eligible f = true ->
  exists rel_path,
    relpath (foldl join dir_path names) dir_path w = Ok rel_path w
    /\ rel_path = match names with [] => curdir | _ => join_list names end
    /\ key w (join d rel_path) = key w d ++ names
    /\ visit_file dir_path text output_dir overwrite (foldl join dir_path names) f res w
       = (print ("处理: " +:+ f) ;;
          ok <- process_file (join (foldl join dir_path names) f) text
                  (Some (join d rel_path)) overwrite ;;
          if ok then
            print "  ✓ 完成" ;;
            ret (Results (success res + 1) (failed res))
          else
            print "  ✗ 失败" ;;
            ret (Results (success res) (failed res + 1))) w.
Proof.
  intros Hdp Hcwd Hg Hn He. pose proof (given_truthy _ _ Hg) as Hd.
  eexists. split; [by apply relpath_descend|]. split; [done|]. split.
  - destruct names as [|a names].
    + rewrite app_nil_r. by apply key_join_curdir.
    + by apply key_join_list.
  - rewrite eligible_visit by done. rewrite Hg.
    unfold bind at 1 2. rewrite relpath_descend by done. reflexivity.
Qed.

(** *** One turn of the directory loop *)

Lemma os_makedirs_print name w w1 out :
  os_makedirs name true w = Ok tt w1 ->
  os_makedirs name true (World (cwd w) (fs w) out)
  = Ok tt (World (cwd w1) (fs w1) out).
Proof.
  unfold os_makedirs. destruct (truthy name); cbn [negb]; [|done].
  change (lookup_key (World (cwd w) (fs w) out) (key (World (cwd w) (fs w) out) name))
    with (lookup_key w (key w name)).
  destruct (lookup_key w (key w name)) as [[?|]|]; [done| |].
  - by intros [= <-].
  - change (existsb (is_file_at (World (cwd w) (fs w) out))
              (ancestors_and_self (key (World (cwd w) (fs w) out) name)))
      with (existsb (is_file_at w) (ancestors_and_self (key w name))).
    destruct (existsb _ _); [done|]. by intros [= <-].
Qed.

(** X21.  One turn of the directory loop with an output directory, for an
    eligible file that its handler can load, found in the directory reached
    from the walked directory through the directory names [names] (the
    current directory being absolute): when the mirrored directory below
    the output directory can be created, no directory is in the way of the
    output and the output path is not the original itself, the watermarked
    document is stored under the file's own name in the directory reached
    through the same names below the output directory, the original is
    left as it was, the file is announced and counted as one success. *)
Theorem file_lands_in_mirrored_directory
    dir_path text output_dir overwrite d names root out_dir f c res w w1 :
  truthy dir_path = true ->
  isabs (cwd w) = true ->
  given output_dir = Some d ->
  Forall plain names ->
  root = foldl join dir_path names ->
  out_dir = join d (match names with [] => curdir | _ => join_list names end) ->
  has sep f = false ->
  eligible f = true ->
  loads (lower (splitext f).2) c ->
  stat w (join root f) = Some (File c) ->
  os_makedirs out_dir true w = Ok tt w1 ->
  stat w (join out_dir f) <> Some Dir ->
  key w (join out_dir f) <> key w (join root f) ->
  exists w',
    visit_file dir_path text output_dir overwrite root f res w
    = Ok (Results (success res + 1) (failed res)) w'
    /\ key w (join out_dir f) = key w d ++ names ++ [f]
    /\ stat w' (join out_dir f) = Some (File (watermarked text c))
    /\ stat w' (join root f) = Some (File c)
    /\ fs w' = <[key w d ++ names ++ [f] := File (watermarked text c)]> (fs w1)
    /\ stdout w' = stdout w ++ ["处理: " +:+ f; "  ✓ 完成"].
Proof.
  intros Hdp Hcwd Hg Hn -> -> Hf He Hl Hst Hmk Hnodir Hne.
  pose proof (given_truthy _ _ Hg) as Hd.
  pose proof (eligible_ext f He) as Hext.
  set (root := foldl join dir_path names) in *.
  set (rel_path := match names with [] => curdir | _ => join_list names end) in *.
  set (out_dir := join d rel_path) in *.
  destruct (splitext_join root f Hf Hext) as (Hsplit & _ & _).
  assert (Hto : truthy out_dir = true) by by apply truthy_join.
  assert (Hkd : key w out_dir = key w d ++ names).
  { unfold out_dir, rel_path. destruct names as [|a names].
    - rewrite app_nil_r. by apply key_join_curdir.
    - by apply key_join_list. }
  assert (Hplain : all_char extsep f = false).
  { destruct (sibling_shape f Hext)
      as (q & stem & rest & -> & _ & _ & _ & _ & _ & H4 & _).
    rewrite !all_char_app, H4. cbn [andb]. apply andb_false_r. }
  assert (Hko : key w (join out_dir f) = key w d ++ names ++ [f]).
  { rewrite key_join, resolve_step_plain, Hkd by done. by rewrite <- app_assoc. }
  set (w0 := World (cwd w) (fs w) (stdout w ++ ["处理: " +:+ f])).
  destruct (process_file_output_dir_valid (join root f) text
              (Some out_dir) overwrite out_dir c w0
              (World (cwd w1) (fs w1) (stdout w ++ ["处理: " +:+ f])))
    as (w2 & E & Hdir & Hkey & Hout & Hfs & Horig & Hstdout).
  - cbn [given]. by rewrite Hto.
  - by rewrite Hsplit.
  - exact Hst.
  - by apply os_makedirs_print.
  - by rewrite basename_join.
  - rewrite basename_join in * by done.
    rewrite eligible_visit by done. rewrite Hg.
    unfold bind at 1 2. unfold root at 1. rewrite relpath_descend by done.
    fold rel_path. unfold ret at 1. fold out_dir.
    unfold bind at 1, print at 1. fold w0.
    unfold bind at 1. rewrite E. unfold bind, print, ret.
    eexists. split; [reflexivity|].
    set (w3 := World _ _ _).
    assert (Hst3 : forall p, stat w3 p = stat w2 p) by reflexivity.
    rewrite !Hst3.
    split; [exact Hko|]. split; [exact Hout|].
    split; [by apply Horig|].
    split.
    { unfold w3. cbn [fs]. rewrite Hfs. change (key w0) with (key w).
      by rewrite Hko. }
    unfold w3. cbn [stdout]. rewrite Hstdout. unfold w0. cbn [stdout].
    by rewrite <- app_assoc.
Qed.

Lemma eligible_handler root f :
  has sep f = false -> eligible f = true ->
  exists add_watermark,
    handler_for (lower (splitext (join root f)).2) = Some add_watermark
    /\ (splitext (join root f)).2 = (splitext f).2.
Proof.
  intros Hf He. pose proof (eligible_ext f He) as Hext.
  destruct (splitext_join root f Hf Hext) as (-> & _ & _). cbn [snd].
  rewrite eligible_split in He. apply andb_true_iff in He as [_ He].
  apply bool_decide_eq_true in He. unfold supported_exts in He. unfold handler_for.
  repeat (apply elem_of_cons in He as [->|He]; [by eexists|]).
  by apply elem_of_nil in He.
Qed.

(** X22.  What a turn of the directory loop counts, without output
    directory and without [overwrite].  An eligible file is counted as a
    success exactly when it is a regular file that the handler for its
    extension can load and its sibling path can be written; then the
    watermarked document is stored at the sibling path.  In every other
    case it is counted as a failure.  Either way the turn returns, the
    file is announced, and every path other than the sibling path is as
    before. *)
Theorem default_turn_counts_by_validity dir_path text output_dir root f res w :
  given output_dir = None ->
  has sep f = false ->
  eligible f = true ->
  exists res' w',
    visit_file dir_path text output_dir false root f res w = Ok res' w'
    /\ (forall k, k <> key w (sibling_path (join root f)) -> fs w' !! k = fs w !! k)
    /\ ((exists c, stat w (join root f) = Some (File c)
                   /\ loads (lower (splitext f).2) c
                   /\ writable w (sibling_path (join root f))
                   /\ stat w' (join root (sibling_path f))
                      = Some (File (watermarked text c)))
        /\ res' = Results (success res + 1) (failed res)
        \/ (~ exists c, stat w (join root f) = Some (File c)
                        /\ loads (lower (splitext f).2) c
                        /\ writable w (sibling_path (join root f)))
           /\ res' = Results (success res) (failed res + 1)).
Proof.
  intros Hg Hf He. pose proof (eligible_ext f He) as Hext.
  destruct (eligible_handler root f Hf He) as (add_watermark & Hh & Hsame).
  destruct (splitext_join root f Hf Hext) as (_ & Hsib & _).
  rewrite eligible_visit by done. rewrite Hg, bind_ret_l.
  unfold bind at 1, print at 1. unfold bind at 1.
  set (w0 := World (cwd w) (fs w) (stdout w ++ ["处理: " +:+ f])).
  rewrite process_file_sibling by done. rewrite Hh.
  destruct (handler_for_effect _ _ Hh (join root f) (sibling_path (join root f)) text w0)
    as (b & w1 & E & Hcwd & Heff).
  rewrite E. destruct b.
  - destruct (handler_true_inv _ _ _ _ _ _ _ Hh E) as (c & Hin & Hl & Ha & Hout).
    rewrite (handler_for_valid _ _ _ _ text c w0 Hh Hl Ha Hin Hout) in E.
    injection E as <-.
    eexists _, _. split; [reflexivity|]. split.
    { intros k Hk. cbn [fs set_fs]. by rewrite lookup_insert_ne. }
    left. split; [|done].
    exists c. split; [exact Hin|]. split; [by rewrite <- Hsame|]. split; [exact Hout|].
    rewrite <- Hsib.
    exact (proj2 (write_file_writable w0 (sibling_path (join root f))
                    (watermarked text c) Hout)).
  - eexists _, _. split; [reflexivity|]. split.
    { intros k _. cbn [fs]. by rewrite Heff. }
    right. split; [|done].
    intros (c & Hin & Hl & Hout). rewrite <- Hsame in Hl.
    rewrite (handler_for_valid _ _ _ _ text c w0 Hh Hl (loads_accepted _ _ Hl) Hin Hout)
      in E. done.
Qed.

(** *** [overwrite] beside an output directory *)

Lemma process_file_ignores_overwrite file_path text output_dir d w :
  given output_dir = Some d ->
  process_file file_path text output_dir true w
  = process_file file_path text output_dir false w.
Proof.
  intros Hg. unfold process_file, resolve_paths. rewrite Hg.
  rewrite bool_decide_eq_true_2 by done. reflexivity.
Qed.

Lemma visit_file_ignores_overwrite dir_path text output_dir d root f res w :
  given output_dir = Some d ->
  visit_file dir_path text output_dir true root f res w
  = visit_file dir_path text output_dir false root f res w.
Proof.
  intros Hg. pose proof (given_truthy _ _ Hg) as Hd.
  unfold visit_file. destruct (_ || _); [done|]. destruct (negb _); [done|].
  rewrite Hg. unfold bind, ret, print.
  destruct (relpath root dir_path w) as [rel_path w1|]; [|done].
  rewrite (process_file_ignores_overwrite _ _ _ (join d rel_path)); [done|].
  cbn [given]. by rewrite truthy_join.
Qed.

Lemma visit_files_ignores_overwrite dir_path text output_dir d root files :
  given output_dir = Some d ->
  forall res w,
    visit_files dir_path text output_dir true root files res w
    = visit_files dir_path text output_dir false root files res w.
Proof.
  intros Hg. induction files as [|f rest IH]; intros res w; [done|].
  cbn [visit_files]. unfold bind.
  rewrite (visit_file_ignores_overwrite _ _ _ d) by done.
  destruct (visit_file _ _ _ _ _ _ _ w); [apply IH|done].
Qed.

Lemma walk_ignores_overwrite dir_path text output_dir d t :
  given output_dir = Some d ->
  forall root res w,
    walk dir_path text output_dir true root t res w
    = walk dir_path text output_dir false root t res w.
Proof.
  intros Hg. induction t as [dirs files IH] using dirtree_nested_ind.
  intros root res w. rewrite !walk_unfold. unfold bind.
  rewrite (visit_files_ignores_overwrite _ _ _ d) by done.
  destruct (visit_files _ _ _ _ _ _ _ w) as [res1 w1|]; [|done].
  clear w res. revert res1 w1.
  induction IH as [|[d' sub] rest Hsub _ IHrest]; intros res w; [done|].
  cbn [walk_dirs]. simpl in Hsub. destruct (hidden d'); [apply IHrest|].
  unfold bind. rewrite Hsub.
  destruct (walk _ _ _ _ _ sub res w); [apply IHrest|done].
Qed.

(** X23.  With an output directory, [overwrite] changes nothing: a call
    of [process_file], a walk by [process_directory] and a whole run of
    [main] do the same with the flag as without it.  No original is renamed
    or removed. *)
Theorem overwrite_is_ignored_with_output_dir output_dir d text :
  given output_dir = Some d ->
  (forall file_path w,
      process_file file_path text output_dir true w
      = process_file file_path text output_dir false w)
  /\ (forall listing dir_path w,
        process_directory listing dir_path text output_dir true w
        = process_directory listing dir_path text output_dir false w)
  /\ (forall path directory listing w,
        main (Arguments_ path text directory output_dir true) listing w
        = main (Arguments_ path text directory output_dir false) listing w).
Proof.
  intros Hg. split; [|split].
  - intros. by apply (process_file_ignores_overwrite _ _ _ d).
  - intros. by apply (walk_ignores_overwrite _ _ _ d).
  - intros path directory listing w.
    destruct (target_of (Arguments_ path text directory output_dir true))
      as [target|] eqn:Ht.
    + rewrite (main_target _ _ _ target Ht).
      rewrite (main_target (Arguments_ path text directory output_dir false)
                 _ _ target Ht).
      cbn [arg_text arg_output arg_overwrite].
      unfold bind, process_directory, os_path_exists, os_path_isfile, ret.
      destruct (bool_decide (is_Some (stat w target))); cbn [negb]; [|done].
      destruct (stat w target) as [[c|]|].
      * by rewrite (process_file_ignores_overwrite _ _ _ d).
      * by rewrite (walk_ignores_overwrite _ _ _ d).
      * by rewrite (walk_ignores_overwrite _ _ _ d).
    + unfold target_of in Ht. unfold main.
      cbn [arg_directory arg_path] in *.
      destruct (given directory); [done|]. by destruct (given path).
Qed.

(** *** The command line *)

(** X24.  When the target does not exist, [main] prints one line that
    names it and exits with status 1; the file store is untouched and
    nothing else is printed. *)
Theorem missing_target_touches_nothing args listing w target :
  target_of args = Some target ->
  stat w target = None ->
  main args listing w
  = Raise (SystemExit 1)
      (World (cwd w) (fs w) (stdout w ++ ["错误: 路径不存在 - " +:+ target])).
Proof.
  intros Ht Hst. rewrite (main_target _ _ _ _ Ht).
  unfold bind, os_path_exists. rewrite Hst.
  rewrite bool_decide_eq_false_2 by (by intros [? ?]). reflexivity.
Qed.

(** X25.  A whole run on one file, [watermark.py -t TEXT FILE] (or with
    [-d FILE]): when the file can be loaded by the handler for its
    extension and the sibling path can be written, [main] returns, so the
    exit status is 0; the watermarked document is at the sibling path, the
    original holds what it held, nothing else in the file store changes,
    and the one line printed is the success message. *)
Theorem single_file_run_end_to_end args listing file_path c w :
  target_of args = Some file_path ->
  given (arg_output args) = None ->
  arg_overwrite args = false ->
  loads (lower (splitext file_path).2) c ->
  stat w file_path = Some (File c) ->
  writable w (sibling_path file_path) ->
  exists w',
    main args listing w = Ok tt w'
    /\ run args listing w = ExitStatus 0
    /\ stat w' (sibling_path file_path) = Some (File (watermarked (arg_text args) c))
    /\ stat w' file_path = Some (File c)
    /\ fs w' = <[key w (sibling_path file_path)
                 := File (watermarked (arg_text args) c)]> (fs w)
    /\ stdout w' = stdout w ++ ["✓ 水印添加完成"].
Proof.
  intros Ht Hg Hov Hl Hst Hout.
  destruct (process_file_sibling_valid file_path (arg_text args) (arg_output args)
              c w Hg Hl Hst Hout) as (w1 & E & Hsib & Horig & Hfs & Hstdout).
  assert (Hmain : main args listing w
                  = Ok tt (World (cwd w1) (fs w1) (stdout w1 ++ ["✓ 水印添加完成"]))).
  { rewrite (main_target _ _ _ _ Ht).
    unfold bind, os_path_exists, os_path_isfile, ret. rewrite Hst.
    rewrite bool_decide_eq_true_2 by done. cbn [negb].
    rewrite Hst, Hov, E. reflexivity. }
  eexists. split; [exact Hmain|].
  split; [unfold run; by rewrite Hmain|].
  split; [exact Hsib|]. split; [exact Horig|]. split; [exact Hfs|].
  cbn [stdout]. by rewrite Hstdout.
Qed.

(** *** What is never lost *)

Lemma nothing_lost_refl w : nothing_lost w w.
Proof. split; [done|]. split; [done|]. intros k c Hk. by exists c. Qed.

Lemma nothing_lost_trans w1 w2 w3 :
  nothing_lost w1 w2 -> nothing_lost w2 w3 -> nothing_lost w1 w3.
Proof.
  intros (Hc1 & Hd1 & Hf1) (Hc2 & Hd2 & Hf2). split; [congruence|]. split.
  - intros k Hk. by apply Hd2, Hd1.
  - intros k c Hk. destruct (Hf1 k c Hk) as (c' & Hk'). by apply (Hf2 k c').
Qed.

Lemma nothing_lost_same_store w w' :
  cwd w' = cwd w -> fs w' = fs w -> nothing_lost w w'.
Proof.
  intros Hc Hf. split; [done|]. rewrite Hf. split; [done|].
  intros k c Hk. by exists c.
Qed.

Lemma harmless_ret {A} (a : A) : harmless (ret a).
Proof. intros w. apply nothing_lost_refl. Qed.

Lemma harmless_raise {A} e : harmless (@raise A e).
Proof. intros w. apply nothing_lost_refl. Qed.

Lemma harmless_print line : harmless (print line).
Proof. intros w. by apply nothing_lost_same_store. Qed.

Lemma harmless_bind {A B} (m : M A) (f : A -> M B) :
  harmless m -> (forall a, harmless (f a)) -> harmless (bind m f).
Proof.
  intros Hm Hf w. unfold bind. specialize (Hm w).
  destruct (m w) as [a w1|e w1]; [|exact Hm].
  eapply nothing_lost_trans; [exact Hm|apply Hf].
Qed.

Lemma harmless_handler ext add_watermark input_path output_path text :
  handler_for ext = Some add_watermark ->
  harmless (add_watermark input_path output_path text).
Proof.
  intros Hh w.
  destruct (handler_for_effect _ _ Hh input_path output_path text w)
    as (b & w' & -> & Hcwd & Heff). cbn [final_world].
  destruct b; [|by apply nothing_lost_same_store].
  destruct Heff as (c & c' & _ & [Hpar Hnodir] & Hfs).
  destruct (check_parent_None _ _ Hpar) as (Ht & Hk & _).
  rewrite stat_key in Hnodir by done.
  assert (fs w !! key w output_path <> Some Dir) as Hnd.
  { unfold lookup_key in Hnodir. by destruct (key w output_path). }
  split; [done|]. rewrite Hfs. split.
  - intros k Hk'. rewrite lookup_insert_ne; [done|]. intros E. by rewrite <- E in Hk'.
  - intros k c0 Hk'. destruct (decide (key w output_path = k)) as [<-|Hne].
    + exists c'. by rewrite lookup_insert_eq.
    + exists c0. by rewrite lookup_insert_ne.
Qed.

Lemma harmless_os_makedirs name : harmless (os_makedirs name true).
Proof.
  intros w. destruct (os_makedirs name true w) as [[] w1|e w1] eqn:E.
  - destruct (os_makedirs_creates _ _ _ E) as (_ & Hcwd & _ & Hkeep).
    split; [done|]. split; [by intros k; apply Hkeep|].
    intros k c Hk. exists c. by apply Hkeep.
  - revert E. unfold os_makedirs.
    repeat case_match; intros [= <- <-]; apply nothing_lost_refl.
Qed.

Lemma harmless_relpath p start : harmless (relpath p start).
Proof.
  intros w. unfold relpath, abspath, os_getcwd, bind, ret, raise.
  repeat case_match; simplify_eq; apply nothing_lost_refl.
Qed.

(** [process_file] loses nothing unless it is asked to overwrite in
    place. *)
Lemma harmless_process_file file_path text output_dir overwrite :
  overwrite = false \/ given output_dir <> None ->
  harmless (process_file file_path text output_dir overwrite).
Proof.
  intros Hmode. unfold process_file. apply harmless_bind.
  - unfold resolve_paths. destruct (given output_dir) as [d|].
    + apply harmless_bind; [apply harmless_os_makedirs|]. intros _. apply harmless_ret.
    + destruct Hmode as [-> |Hn]; [|done].
      destruct (splitext file_path). apply harmless_ret.
  - intros [input_path output_path].
    destruct (handler_for _) as [add_watermark|] eqn:Hh.
    + apply harmless_bind; [by eapply harmless_handler|]. intros success.
      apply harmless_bind; [|intros _; apply harmless_ret].
      destruct (given output_dir) as [d|].
      * rewrite bool_decide_eq_true_2 by done. rewrite andb_false_r.
        apply harmless_ret.
      * destruct Hmode as [-> |Hn]; [|done]. apply harmless_ret.
    + apply harmless_bind; [apply harmless_print|]. intros _. apply harmless_ret.
Qed.

Lemma harmless_ext {A} (m m' : M A) :
  (forall w, m w = m' w) -> harmless m' -> harmless m.
Proof. intros E H w. rewrite E. apply H. Qed.

Lemma bind_bind_ret {A B C} (m : M A) (g : A -> B) (k : B -> M C) w :
  bind (bind m (fun r => ret (g r))) k w = bind m (fun r => k (g r)) w.
Proof. unfold bind, ret. by destruct (m w). Qed.

Lemma harmless_visit_file dir_path text output_dir overwrite root f res :
  overwrite = false \/ given output_dir <> None ->
  harmless (visit_file dir_path text output_dir overwrite root f res).
Proof.
  intros Hmode. unfold visit_file. destruct (_ || _); [apply harmless_ret|].
  destruct (negb _); [apply harmless_ret|].
  destruct (given output_dir) as [d|] eqn:Hg.
  - pose proof (given_truthy _ _ Hg) as Hd.
    eapply harmless_ext; [intros w; apply bind_bind_ret|].
    apply harmless_bind; [apply harmless_relpath|]. intros rel_path.
    apply harmless_bind; [apply harmless_print|]. intros _.
    apply harmless_bind.
    + apply harmless_process_file. right. cbn [given]. by rewrite truthy_join.
    + intros [|]; (apply harmless_bind; [apply harmless_print|]; intros _;
                   apply harmless_ret).
  - destruct Hmode as [-> |Hn]; [|done].
    rewrite bind_ret_l.
    apply harmless_bind; [apply harmless_print|]. intros _.
    apply harmless_bind; [apply harmless_process_file; by left|].
    intros [|]; (apply harmless_bind; [apply harmless_print|]; intros _;
                 apply harmless_ret).
Qed.

Lemma harmless_visit_files dir_path text output_dir overwrite root files :
  overwrite = false \/ given output_dir <> None ->
  forall res, harmless (visit_files dir_path text output_dir overwrite root files res).
Proof.
  intros Hmode. induction files as [|f rest IH]; intros res; cbn [visit_files].
  - apply harmless_ret.
  - apply harmless_bind; [by apply harmless_visit_file|]. apply IH.
Qed.

Lemma harmless_walk dir_path text output_dir overwrite t :
  overwrite = false \/ given output_dir <> None ->
  forall root res, harmless (walk dir_path text output_dir overwrite root t res).
Proof.
  intros Hmode. induction t as [dirs files IH] using dirtree_nested_ind.
  intros root res. rewrite walk_unfold.
  apply harmless_bind; [by apply harmless_visit_files|].
  clear res. induction IH as [|[d sub] rest Hsub _ IHrest]; intros res.
  - apply harmless_ret.
  - cbn [walk_dirs]. destruct (hidden d); [apply IHrest|].
    apply harmless_bind; [apply Hsub|]. apply IHrest.
Qed.

(** X26.  Outside overwriting in place, nothing is ever lost.  Without
    [overwrite], or with an output directory, a call of [process_file], a
    walk by [process_directory] and a whole run of [main] never remove or
    rename anything, whether they return or raise: in the world they end
    in, the current directory is the same, every directory that was there
    is still a directory, and every regular file that was there is still a
    regular file (with its content, or as the output that replaced it). *)
Theorem nothing_is_lost_outside_overwrite text output_dir overwrite :
  overwrite = false \/ given output_dir <> None ->
  (forall file_path w,
      nothing_lost w (final_world (process_file file_path text output_dir overwrite w)))
  /\ (forall listing dir_path w,
        nothing_lost w
          (final_world (process_directory listing dir_path text output_dir overwrite w)))
  /\ (forall path directory listing w,
        nothing_lost w
          (final_world
             (main (Arguments_ path text directory output_dir overwrite) listing w))).
Proof.
  intros Hmode. split; [|split].
  - intros file_path. by apply harmless_process_file.
  - intros listing dir_path. by apply harmless_walk.
  - intros path directory listing. unfold main.
    cbn [arg_directory arg_path arg_text arg_output arg_overwrite].
    apply harmless_bind.
    { destruct (given directory); [apply harmless_ret|].
      destruct (given path); [apply harmless_ret|].
      apply harmless_bind; [apply harmless_print|]. intros _. apply harmless_raise. }
    intros target. apply harmless_bind; [intros w; apply nothing_lost_refl|].
    intros found. apply harmless_bind.
    { destruct (negb found); [|apply harmless_ret].
      apply harmless_bind; [apply harmless_print|]. intros _. apply harmless_raise. }
    intros _. apply harmless_bind; [intros w; apply nothing_lost_refl|].
    intros [|].
    + apply harmless_bind; [by apply harmless_process_file|].
      intros [|]; [apply harmless_print|].
      apply harmless_bind; [apply harmless_print|]. intros _. apply harmless_raise.
    + apply harmless_bind; [by apply harmless_walk|]. intros res.
      apply harmless_print.
Qed.

End Watermark.

(** ** Properties of the walk and of whole runs *)

Section Runs.
Import Str PosixPath OS Sys.

Variable PDF_SUPPORT : bool.
Variable DOCX_SUPPORT : bool.
Variable XLSX_SUPPORT : bool.
Variable FONT_REGISTERED : bool.


(** *** Where the code departs from the specification *)

(** C1.  [watermark.py -t X --overwrite notes.txt]: the file is renamed
    to [notes.txt.tmp] before the extension is looked at, and the branch
    for an unsupported extension returns without undoing the rename.  The
    call returns false, the backup is still there and the original name
    is gone. *)
Theorem unsupported_overwrite_leaves_backup text :
  exists w',
    process_file PDF_SUPPORT DOCX_SUPPORT XLSX_SUPPORT FONT_REGISTERED
      "notes.txt" text None true Fixtures.notes_world = Ok false w'
    /\ stat w' "notes.txt.tmp" = Some (File (Bytes "minutes"))
    /\ stat w' "notes.txt" = None
    /\ stdout w' = ["不支持的文件类型: .txt"].
Proof.
  eexists. split; [vm_compute; reflexivity|]. vm_compute. repeat split; reflexivity.
Qed.

(** C2.  A damaged PDF named [report.tmp.pdf], with [overwrite]: the
    handler fails, and the backup [report.tmp.pdf.tmp] is renamed to the
    output path with every [.tmp] removed, [report.pdf].  The call returns
    false; the original name holds nothing and its content is now under
    another name. *)
Theorem restore_strips_tmp_from_original_name text :
  exists w',
    process_file PDF_SUPPORT DOCX_SUPPORT XLSX_SUPPORT FONT_REGISTERED
      "report.tmp.pdf" text None true Fixtures.report_world = Ok false w'
    /\ stat Fixtures.report_world "report.tmp.pdf"
       = Some (File (Bytes "%PDF-1.4 trunc"))
    /\ stat w' "report.tmp.pdf" = None
    /\ stat w' "report.pdf" = Some (File (Bytes "%PDF-1.4 trunc"))
    /\ stat w' "report.tmp.pdf.tmp" = None.
Proof.
  destruct PDF_SUPPORT.
  - eexists. split; [vm_compute; reflexivity|]. vm_compute. repeat split; reflexivity.
  - eexists. split; [vm_compute; reflexivity|]. vm_compute. repeat split; reflexivity.
Qed.

(** C3.  A walk with an output directory whose path is taken by a
    regular file: [os.makedirs] raises in [process_file] for the first
    file, nothing catches it, and [process_directory] raises instead of
    returning a tally; the second file is never reached. *)
Theorem walk_aborts_on_os_error text :
  exists e w',
    process_directory PDF_SUPPORT DOCX_SUPPORT XLSX_SUPPORT FONT_REGISTERED
      Fixtures.blocked_listing "root" text (Some "out") false
      Fixtures.blocked_world = Raise e w'
    /\ is_Exception e = true
    /\ stdout w' = ["处理: a.pdf"].
Proof.
  eexists _, _. split; [vm_compute; reflexivity|]. vm_compute. split; reflexivity.
Qed.

(** The same with [overwrite] when a listed file is gone by the time it
    is processed: the backup rename raises [FileNotFoundError]. *)
Lemma walk_aborts_on_vanished_file text :
  exists w',
    process_directory PDF_SUPPORT DOCX_SUPPORT XLSX_SUPPORT FONT_REGISTERED
      Fixtures.tree_listing "root" text None true Fixtures.raced_world
    = Raise FileNotFoundError w'
    /\ stdout w' = ["处理: a.pdf"].
Proof.
  eexists. split; [vm_compute; reflexivity|]. vm_compute. reflexivity.
Qed.

(** Without [overwrite] the same vanished file is a failure in the tally:
    the handler's own [try] catches the error. *)
Lemma walk_counts_vanished_file text :
  exists w',
    process_directory true true XLSX_SUPPORT FONT_REGISTERED
      Fixtures.tree_listing "root" text None false Fixtures.raced_world
    = Ok (Results 1 1) w'.
Proof. eexists. vm_compute. reflexivity. Qed.

(** C6.  [watermark.py -t X -d root -o out] where [out] is a regular
    file: the target is resolved and is an existing directory, so none of
    the three cases of the claim applies, and this is directory mode.
    [os.makedirs] raises in [process_file] for the first file; the
    exception passes through [process_directory] and [main], which catch
    nothing, and the interpreter ends the run with status 1.  No tally
    is printed. *)
Theorem directory_run_ends_with_status_1 text overwrite :
  target_of (Arguments_ None text (Some "root") (Some "out") overwrite) = Some "root"
  /\ stat Fixtures.blocked_world "root" = Some Dir
  /\ (exists e w',
        main PDF_SUPPORT DOCX_SUPPORT XLSX_SUPPORT FONT_REGISTERED
          (Arguments_ None text (Some "root") (Some "out") overwrite)
          Fixtures.blocked_listing Fixtures.blocked_world = Raise e w'
        /\ is_Exception e = true
        /\ stdout w' = ["处理: a.pdf"])
  /\ run PDF_SUPPORT DOCX_SUPPORT XLSX_SUPPORT FONT_REGISTERED
       (Arguments_ None text (Some "root") (Some "out") overwrite)
       Fixtures.blocked_listing Fixtures.blocked_world
     = ExitStatus 1.
Proof.
  split; [reflexivity|]. split; [vm_compute; reflexivity|].
  destruct overwrite.
  - split; [|vm_compute; reflexivity].
    eexists _, _. split; [vm_compute; reflexivity|]. vm_compute. split; reflexivity.
  - split; [|vm_compute; reflexivity].
    eexists _, _. split; [vm_compute; reflexivity|]. vm_compute. split; reflexivity.
Qed.

(** In single-file mode the same happens, with the same status: the output
    directory is taken by a regular file, and [process_file] raises
    instead of returning false. *)
Lemma file_run_ends_with_status_1 text :
  (exists e w',
      process_file PDF_SUPPORT DOCX_SUPPORT XLSX_SUPPORT FONT_REGISTERED
        "root/a.pdf" text (Some "out") false Fixtures.blocked_world = Raise e w'
      /\ is_Exception e = true)
  /\ run PDF_SUPPORT DOCX_SUPPORT XLSX_SUPPORT FONT_REGISTERED
       (Arguments_ (Some "root/a.pdf") text None (Some "out") false)
       Fixtures.blocked_listing Fixtures.blocked_world
     = ExitStatus 1.
Proof.
  split; [|vm_compute; reflexivity].
  eexists _, _. split; [vm_compute; reflexivity|]. reflexivity.
Qed.

(** C7 as stated fails on a document without sections: the loop over
    [doc.sections] has nothing to do, so the handler applied to its own
    output writes the same document again.  Both applications succeed. *)
Lemma sectionless_twice_is_once :
  exists w1 w2 once twice,
    "DRAFT" <> ""
    /\ stat Fixtures.plain_world "plain.docx" = Some (File (DocxFile Fixtures.sectionless))
    /\ add_watermark_docx true "plain.docx" "once.docx" "DRAFT" Fixtures.plain_world
       = Ok true w1
    /\ stat w1 "once.docx" = Some (File (DocxFile once))
    /\ add_watermark_docx true "once.docx" "twice.docx" "DRAFT" w1 = Ok true w2
    /\ stat w2 "twice.docx" = Some (File (DocxFile twice))
    /\ twice = once
    /\ ~ (forall (doc : Docx.document) (text : string),
            text <> "" ->
            watermark_document text (watermark_document text doc)
            <> watermark_document text doc).
Proof.
  eexists _, _, _, _. split; [discriminate|].
  split; [vm_compute; reflexivity|].
  split; [vm_compute; reflexivity|].
  split; [vm_compute; reflexivity|].
  split; [vm_compute; reflexivity|].
  split; [vm_compute; reflexivity|].
  split; [vm_compute; reflexivity|].
  intros H. by apply (H Fixtures.sectionless "DRAFT").
Qed.

End Runs.

(** ** The theorems at concrete inputs *)

Module Witnesses.
Import Str PosixPath OS Sys Fixtures.

(** C8 at [letter.pdf], written to [stamped.pdf]. *)
Lemma pdf_overlay_on_every_page_witness :
  (true = true
   /\ stat letter_world "letter.pdf" = Some (File (PdfFile letter))
   /\ writable letter_world "stamped.pdf")
  /\ exists w' pages',
       add_watermark_pdf true false "letter.pdf" "stamped.pdf" "DRAFT" letter_world
       = Ok true w'
       /\ stat w' "stamped.pdf" = Some (File (PdfFile pages'))
       /\ length pages' = 2.
Proof.
  assert (H1 : stat letter_world "letter.pdf" = Some (File (PdfFile letter)))
    by (vm_compute; reflexivity).
  assert (H2 : writable letter_world "stamped.pdf")
    by (split; vm_compute; [reflexivity|discriminate]).
  split; [by repeat split|].
  destruct (pdf_overlay_on_every_page true false "letter.pdf" "stamped.pdf" "DRAFT"
              letter letter_world eq_refl H1 H2)
    as (w' & pages' & E & Hout & Hlen & _).
  by exists w', pages'.
Defined.

(** C9 at [minutes.docx], written to [stamped.docx], for the second
    section: the header it uses is that of the first section, which has
    two runs more. *)
Lemma docx_only_headers_change_witness :
  (true = true
   /\ stat minutes_world "minutes.docx" = Some (File (DocxFile minutes))
   /\ writable minutes_world "stamped.docx")
  /\ exists w' doc',
       add_watermark_docx true "minutes.docx" "stamped.docx" "DRAFT" minutes_world
       = Ok true w'
       /\ stat w' "stamped.docx" = Some (File (DocxFile doc'))
       /\ Docx.body doc' = Docx.body minutes
       /\ exists s' hdr',
            Docx.sections doc' !! 0%nat = Some s'
            /\ Docx.header s' = Some hdr'
            /\ header_watermarked "DRAFT" 2
                 [Docx.Para (Docx.Paragraph [Docx.Run "ACME" None None] None)] hdr'.
Proof.
  assert (H1 : stat minutes_world "minutes.docx" = Some (File (DocxFile minutes)))
    by (vm_compute; reflexivity).
  assert (H2 : writable minutes_world "stamped.docx")
    by (split; vm_compute; [reflexivity|discriminate]).
  split; [by repeat split|].
  destruct (docx_only_headers_change true "minutes.docx" "stamped.docx" "DRAFT"
              minutes minutes_world eq_refl H1 H2)
    as (w' & doc' & E & Hout & _ & Hbody & _ & Hsec).
  destruct (Hsec 1%nat _ eq_refl)
    as (s' & sj & sj' & hdr & hdr' & _ & _ & _ & _ & Esj & Ho & Esj' & Eh & Hw & _).
  injection Esj as <-. injection Ho as <-.
  exists w', doc'. split; [exact E|]. split; [exact Hout|]. split; [exact Hbody|].
  exists sj', hdr'. split; [exact Esj'|]. split; [exact Eh|exact Hw].
Defined.

(** C7, amended, at [minutes.docx]: the paragraph of the header that the
    first two sections use ends with two watermark runs after one
    application and with four after two. *)
Lemma docx_twice_appends_two_runs_witness :
  (true = true
   /\ "DRAFT" <> ""
   /\ Docx.sections minutes <> []
   /\ stat minutes_world "minutes.docx" = Some (File (DocxFile minutes))
   /\ writable minutes_world "once.docx"
   /\ writable minutes_world "twice.docx")
  /\ exists w1 w2 once twice,
       add_watermark_docx true "minutes.docx" "once.docx" "DRAFT" minutes_world
       = Ok true w1
       /\ stat w1 "once.docx" = Some (File (DocxFile once))
       /\ add_watermark_docx true "once.docx" "twice.docx" "DRAFT" w1 = Ok true w2
       /\ stat w2 "twice.docx" = Some (File (DocxFile twice))
       /\ twice <> once
       /\ exists s1 s2 hdr1 hdr2,
            Docx.sections once !! 0%nat = Some s1
            /\ Docx.sections twice !! 0%nat = Some s2
            /\ Docx.header s1 = Some hdr1
            /\ Docx.header s2 = Some hdr2
            /\ Docx.runs <$> first_paragraph hdr1
               = Some (Docx.Run "ACME" None None
                       :: replicate 2 (watermark_run "DRAFT"))
            /\ Docx.runs <$> first_paragraph hdr2
               = Some (Docx.Run "ACME" None None
                       :: replicate 4 (watermark_run "DRAFT")).
Proof.
  assert (H0 : "DRAFT" <> "") by discriminate.
  assert (H1 : Docx.sections minutes <> []) by (simpl; discriminate).
  assert (H2 : stat minutes_world "minutes.docx" = Some (File (DocxFile minutes)))
    by (vm_compute; reflexivity).
  assert (H3 : writable minutes_world "once.docx")
    by (split; vm_compute; [reflexivity|discriminate]).
  assert (H4 : writable minutes_world "twice.docx")
    by (split; vm_compute; [reflexivity|discriminate]).
  split; [by repeat split|].
  destruct (docx_twice_appends_two_runs true "minutes.docx" "once.docx" "twice.docx"
              "DRAFT" minutes minutes_world eq_refl H0 H1 H2 H3 H4)
    as (w1 & w2 & once & twice & E1 & S1 & E2 & S2 & Hd & Hruns).
  destruct (Hruns 0%nat _ _ eq_refl eq_refl)
    as (s1 & s2 & hdr1 & hdr2 & Hs1 & Hs2 & Hh1 & Hh2 & R1 & R2).
  exists w1, w2, once, twice. do 5 (split; [done|]).
  by exists s1, s2, hdr1, hdr2.
Defined.

(** C10 at [letter.pdf]. *)
Lemma overwrite_dispatch_witness :
  lower (splitext "letter.pdf").2 ∈ supported_exts
  /\ exists add_watermark,
       handler_for true true true false (lower (splitext "letter.pdf").2)
       = Some add_watermark
       /\ lower (splitext ("letter.pdf" +:+ ".tmp")).2 = ".tmp".
Proof.
  assert (H : lower (splitext "letter.pdf").2 ∈ supported_exts)
    by (vm_compute; constructor).
  split; [exact H|].
  destruct (overwrite_dispatch_by_original_extension true true true false
              "letter.pdf" "DRAFT" letter_world H)
    as (add_watermark & Hh & _ & _ & Hext & _).
  by exists add_watermark.
Defined.

(** C4 at the three modes, for [root/a.pdf]. *)
Lemma output_path_resolution_witness :
  (given (Some "out") = Some "out"
   /\ exists w1,
        resolve_paths "root/a.pdf" (Some "out") true tree_world
        = Ok ("root/a.pdf", "out/a.pdf") w1
        /\ stat w1 "out" = Some Dir)
  /\ (exists w1,
        resolve_paths "root/a.pdf" None true tree_world
        = Ok ("root/a.pdf.tmp", "root/a.pdf") w1
        /\ stat w1 "root/a.pdf.tmp" = Some (File (PdfFile letter))
        /\ stat w1 "root/a.pdf" = None)
  /\ resolve_paths "root/a.pdf" None false tree_world
     = Ok ("root/a.pdf", "root/a_watermarked.pdf") tree_world.
Proof.
  pose proof (output_path_resolution true true true false "root/a.pdf" "DRAFT"
                (Some "out") true tree_world) as (_ & Hdir & _ & _).
  pose proof (output_path_resolution true true true false "root/a.pdf" "DRAFT"
                None true tree_world) as (_ & _ & Hover & _).
  pose proof (output_path_resolution true true true false "root/a.pdf" "DRAFT"
                None false tree_world) as (_ & _ & _ & Hsib).
  split; [split; [reflexivity|]|split].
  - specialize (Hdir "out" eq_refl).
    destruct (os_makedirs "out" true tree_world) as [[] w1|e w1] eqn:E;
      [|vm_compute in E; discriminate E].
    destruct Hdir as (Hp & _ & Hd & _). by exists w1.
  - specialize (Hover eq_refl eq_refl).
    destruct (os_rename "root/a.pdf" ("root/a.pdf" +:+ ".tmp") tree_world)
      as [[] w1|e w1] eqn:E; [|vm_compute in E; discriminate E].
    destruct Hover as (Hp & Hc).
    destruct (Hc (PdfFile letter)) as (H1 & H2); [vm_compute; reflexivity|].
    by exists w1.
  - destruct (Hsib eq_refl eq_refl) as (base & extension & stem & Hs & Hp & _).
    vm_compute in Hs. injection Hs as <- <-. exact Hp.
Defined.

(** Directory mode when every file fails (no library installed): the
    tally is 0 successes and 2 failures and the status is 0. *)
Lemma all_failed_directory_run_exits_0 :
  (exists w',
      process_directory false false false false tree_listing "root" "DRAFT"
        None false tree_world = Ok (Results 0 2) w')
  /\ run false false false false
       (Arguments_ None "DRAFT" (Some "root") None false) tree_listing tree_world
     = ExitStatus 0.
Proof.
  split; [eexists|]; vm_compute; reflexivity.
Qed.


(** The clean-up of [overwrite] at a supported file without [.tmp] in its
    path: nothing is left behind. *)
Lemma overwrite_outcome_example :
  exists b w',
    process_file true true true false "root/a.pdf" "DRAFT" None true tree_world
    = Ok b w'
    /\ stat w' "root/a.pdf.tmp" = None
    /\ (if b then exists c', stat w' "root/a.pdf" = Some (File c')
        else stat w' "root/a.pdf" = Some (File (PdfFile letter))).
Proof.
  destruct (overwrite_outcome true true true false "root/a.pdf" "DRAFT"
              (PdfFile letter) (add_watermark_pdf true false) tree_world)
    as (b & w' & E & Htmp & Horig & _).
  - vm_compute; reflexivity.
  - vm_compute; reflexivity.
  - split; vm_compute; [reflexivity|discriminate].
  - reflexivity.
  - vm_compute; reflexivity.
  - by exists b, w'.
Qed.


(** *** The further properties at concrete inputs *)

(** X1 at [ledger.xlsx], written to [stamped.xlsx]. *)
Lemma xlsx_headers_on_every_sheet_witness :
  (true = true
   /\ lower (splitext "ledger.xlsx").2 ∈ Xlsx.SUPPORTED_FORMATS
   /\ plain_text "DRAFT"
   /\ stat ledger_world "ledger.xlsx" = Some (File (XlsxFile ledger))
   /\ writable ledger_world "stamped.xlsx")
  /\ exists w' wb',
       add_watermark_xlsx true "ledger.xlsx" "stamped.xlsx" "DRAFT" ledger_world
       = Ok true w'
       /\ stat w' "stamped.xlsx" = Some (File (XlsxFile wb'))
       /\ length wb' = 1.
Proof.
  assert (H0 : lower (splitext "ledger.xlsx").2 ∈ Xlsx.SUPPORTED_FORMATS)
    by (vm_compute; constructor).
  assert (Ht : plain_text "DRAFT") by (split; [discriminate|reflexivity]).
  assert (H1 : stat ledger_world "ledger.xlsx" = Some (File (XlsxFile ledger)))
    by (vm_compute; reflexivity).
  assert (H2 : writable ledger_world "stamped.xlsx")
    by (split; vm_compute; [reflexivity|discriminate]).
  split; [by repeat split|].
  destruct (xlsx_headers_on_every_sheet true "ledger.xlsx" "stamped.xlsx" "DRAFT"
              ledger ledger_world eq_refl H0 Ht H1 H2)
    as (w' & wb' & E & Hout & _ & Hlen & _).
  by exists w', wb'.
Defined.

(** X2 at [ledger.xlsx], marked [DRAFT] and then [FINAL]. *)
Lemma xlsx_rewatermark_replaces_witness :
  (true = true
   /\ lower (splitext "ledger.xlsx").2 ∈ Xlsx.SUPPORTED_FORMATS
   /\ lower (splitext "once.xlsx").2 ∈ Xlsx.SUPPORTED_FORMATS
   /\ plain_text "DRAFT"
   /\ plain_text "FINAL"
   /\ stat ledger_world "ledger.xlsx" = Some (File (XlsxFile ledger))
   /\ writable ledger_world "once.xlsx"
   /\ writable ledger_world "twice.xlsx")
  /\ exists w1 w2 wd twice,
       add_watermark_xlsx true "ledger.xlsx" "once.xlsx" "DRAFT" ledger_world = Ok true w1
       /\ add_watermark_xlsx true "once.xlsx" "twice.xlsx" "FINAL" w1 = Ok true w2
       /\ stat w2 "twice.xlsx" = Some (File (XlsxFile twice))
       /\ add_watermark_xlsx true "ledger.xlsx" "twice.xlsx" "FINAL" ledger_world
          = Ok true wd
       /\ stat wd "twice.xlsx" = Some (File (XlsxFile twice)).
Proof.
  assert (F0 : lower (splitext "ledger.xlsx").2 ∈ Xlsx.SUPPORTED_FORMATS)
    by (vm_compute; constructor).
  assert (F1 : lower (splitext "once.xlsx").2 ∈ Xlsx.SUPPORTED_FORMATS)
    by (vm_compute; constructor).
  assert (T1 : plain_text "DRAFT") by (split; [discriminate|reflexivity]).
  assert (T2 : plain_text "FINAL") by (split; [discriminate|reflexivity]).
  assert (H1 : stat ledger_world "ledger.xlsx" = Some (File (XlsxFile ledger)))
    by (vm_compute; reflexivity).
  assert (H2 : writable ledger_world "once.xlsx")
    by (split; vm_compute; [reflexivity|discriminate]).
  assert (H3 : writable ledger_world "twice.xlsx")
    by (split; vm_compute; [reflexivity|discriminate]).
  split; [by repeat split|].
  destruct (xlsx_rewatermark_replaces true "ledger.xlsx" "once.xlsx" "twice.xlsx"
              "DRAFT" "FINAL" ledger ledger_world eq_refl F0 F1 T1 T2 H1 H2 H3)
    as (w1 & w2 & wd & once & twice & E1 & _ & E2 & S2 & Ed & Sd & _).
  by exists w1, w2, wd, twice.
Defined.

(** X3 at [letter.pdf], marked [DRAFT] and then [FINAL]. *)
Lemma pdf_twice_stacks_overlays_witness :
  (true = true
   /\ stat letter_world "letter.pdf" = Some (File (PdfFile letter))
   /\ writable letter_world "once.pdf"
   /\ writable letter_world "twice.pdf")
  /\ exists w1 w2 once twice,
       add_watermark_pdf true false "letter.pdf" "once.pdf" "DRAFT" letter_world
       = Ok true w1
       /\ add_watermark_pdf true false "once.pdf" "twice.pdf" "FINAL" w1 = Ok true w2
       /\ stat w1 "once.pdf" = Some (File (PdfFile once))
       /\ stat w2 "twice.pdf" = Some (File (PdfFile twice))
       /\ length twice = 2
       /\ twice <> once.
Proof.
  assert (H1 : stat letter_world "letter.pdf" = Some (File (PdfFile letter)))
    by (vm_compute; reflexivity).
  assert (H2 : writable letter_world "once.pdf")
    by (split; vm_compute; [reflexivity|discriminate]).
  assert (H3 : writable letter_world "twice.pdf")
    by (split; vm_compute; [reflexivity|discriminate]).
  split; [by repeat split|].
  destruct (pdf_twice_stacks_overlays true false "letter.pdf" "once.pdf" "twice.pdf"
              "DRAFT" "FINAL" letter letter_world eq_refl H1 H2 H3)
    as (w1 & w2 & once & twice & E1 & S1 & E2 & S2 & Hlen & Hne & _).
  exists w1, w2, once, twice. repeat split; try done. by apply Hne.
Defined.

(** X4 at the PDF handler. *)
Lemma handlers_change_only_the_output_witness :
  handler_for true true true false ".pdf" = Some (add_watermark_pdf true false)
  /\ exists b w',
       add_watermark_pdf true false "letter.pdf" "stamped.pdf" "DRAFT" letter_world
       = Ok b w'
       /\ cwd w' = cwd letter_world.
Proof.
  split; [reflexivity|].
  destruct (handlers_change_only_the_output true true true false ".pdf"
              (add_watermark_pdf true false) "letter.pdf" "stamped.pdf" "DRAFT"
              letter_world eq_refl)
    as (b & w' & E & Hcwd & _).
  by exists b, w'.
Defined.

(** X5 at the PDF handler and [letter.pdf]. *)
Lemma handler_succeeds_exactly_when_witness :
  handler_for true true true false ".pdf" = Some (add_watermark_pdf true false)
  /\ exists w',
       add_watermark_pdf true false "letter.pdf" "stamped.pdf" "DRAFT" letter_world
       = Ok true w'.
Proof.
  split; [reflexivity|].
  apply (proj1 (handler_succeeds_exactly_when true true true false ".pdf"
                  (add_watermark_pdf true false) "letter.pdf" "stamped.pdf" "DRAFT"
                  letter_world eq_refl)).
  exists (PdfFile letter). split; [vm_compute; reflexivity|].
  split; [by split|]. split; [exact I|].
  split; vm_compute; [reflexivity|discriminate].
Defined.

(** X7 at [letter.pdf]. *)
Lemma sibling_mode_keeps_the_original_witness :
  given None = None
  /\ exists b w',
       process_file true true true false "letter.pdf" "DRAFT" None false letter_world
       = Ok b w'
       /\ stat w' "letter.pdf" = stat letter_world "letter.pdf".
Proof.
  split; [reflexivity|].
  destruct (sibling_mode_keeps_the_original true true true false "letter.pdf" "DRAFT"
              None letter_world eq_refl)
    as (b & w' & E & _ & Hst & _).
  by exists b, w'.
Defined.

(** X8 at [letter.pdf]. *)
Lemma sibling_mode_writes_watermarked_copy_witness :
  (given None = None
   /\ loads true true true (lower (splitext "letter.pdf").2) (PdfFile letter)
   /\ stat letter_world "letter.pdf" = Some (File (PdfFile letter))
   /\ writable letter_world (sibling_path "letter.pdf"))
  /\ exists w',
       process_file true true true false "letter.pdf" "DRAFT" None false letter_world
       = Ok true w'
       /\ stat w' "letter_watermarked.pdf"
          = Some (File (watermarked false "DRAFT" (PdfFile letter)))
       /\ stat w' "letter.pdf" = Some (File (PdfFile letter)).
Proof.
  assert (H1 : loads true true true (lower (splitext "letter.pdf").2) (PdfFile letter))
    by (split; vm_compute; reflexivity).
  assert (H2 : stat letter_world "letter.pdf" = Some (File (PdfFile letter)))
    by (vm_compute; reflexivity).
  assert (H3 : writable letter_world (sibling_path "letter.pdf"))
    by (split; vm_compute; [reflexivity|discriminate]).
  split; [by repeat split|].
  destruct (sibling_mode_writes_watermarked_copy true true true false "letter.pdf"
              "DRAFT" None (PdfFile letter) letter_world eq_refl H1 H2 H3)
    as (w' & E & Hsib & Horig & _).
  by exists w'.
Defined.

(** X9 at [letter.pdf]. *)
Lemma overwrite_mode_replaces_in_place_witness :
  (given None = None
   /\ lower (splitext "letter.pdf").2 ∈ [".pdf"; ".docx"]
   /\ loads true true true (lower (splitext "letter.pdf").2) (PdfFile letter)
   /\ stat letter_world "letter.pdf" = Some (File (PdfFile letter))
   /\ writable letter_world ("letter.pdf" +:+ ".tmp"))
  /\ exists w',
       process_file true true true false "letter.pdf" "DRAFT" None true letter_world
       = Ok true w'
       /\ stat w' "letter.pdf" = Some (File (watermarked false "DRAFT" (PdfFile letter)))
       /\ stat w' "letter.pdf.tmp" = None.
Proof.
  assert (H0 : lower (splitext "letter.pdf").2 ∈ [".pdf"; ".docx"])
    by (vm_compute; constructor).
  assert (H1 : loads true true true (lower (splitext "letter.pdf").2) (PdfFile letter))
    by (split; vm_compute; reflexivity).
  assert (H2 : stat letter_world "letter.pdf" = Some (File (PdfFile letter)))
    by (vm_compute; reflexivity).
  assert (H3 : writable letter_world ("letter.pdf" +:+ ".tmp"))
    by (split; vm_compute; [reflexivity|discriminate]).
  split; [by repeat split|].
  destruct (overwrite_mode_replaces_in_place true true true false "letter.pdf"
              "DRAFT" None (PdfFile letter) letter_world eq_refl H0 H1 H2 H3)
    as (w' & E & Horig & Htmp & _).
  by exists w'.
Defined.

(** X10 at [root/a.pdf] in the example tree: no backup is left, and
    [root/c.txt] is as before. *)
Lemma overwrite_replaces_or_restores_witness :
  (well_formed tree_world = true
   /\ stat tree_world "root/a.pdf" = Some (File (PdfFile letter))
   /\ writable tree_world ("root/a.pdf" +:+ ".tmp")
   /\ handler_for true true true false (lower (splitext "root/a.pdf").2)
      = Some (add_watermark_pdf true false)
   /\ occurs ".tmp" "root/a.pdf" = false)
  /\ exists b w',
       process_file true true true false "root/a.pdf" "DRAFT" None true tree_world
       = Ok b w'
       /\ stat w' "root/a.pdf.tmp" = None
       /\ stat w' "root/c.txt" = Some (File (Bytes "plain text")).
Proof.
  assert (H0 : well_formed tree_world = true) by (vm_compute; reflexivity).
  assert (H1 : stat tree_world "root/a.pdf" = Some (File (PdfFile letter)))
    by (vm_compute; reflexivity).
  assert (H2 : writable tree_world ("root/a.pdf" +:+ ".tmp"))
    by (split; vm_compute; [reflexivity|discriminate]).
  assert (H3 : handler_for true true true false (lower (splitext "root/a.pdf").2)
               = Some (add_watermark_pdf true false)) by reflexivity.
  assert (H4 : occurs ".tmp" "root/a.pdf" = false) by (vm_compute; reflexivity).
  assert (H5 : stat tree_world "root/c.txt" = Some (File (Bytes "plain text")))
    by (vm_compute; reflexivity).
  split; [by repeat split|].
  destruct (overwrite_replaces_or_restores true true true false "root/a.pdf" "DRAFT"
              (PdfFile letter) (add_watermark_pdf true false) tree_world
              H0 H1 H2 H3 H4)
    as (b & w' & E & Htmp & _ & _ & Hrest).
  exists b, w'. split; [done|]. split; [done|].
  rewrite <- H5. apply Hrest; vm_compute; discriminate.
Defined.

(** X11 at [letter.pdf], written into a new directory [out]. *)
Lemma output_dir_mode_writes_into_directory_witness :
  (given (Some "out") = Some "out"
   /\ loads true true true (lower (splitext "letter.pdf").2) (PdfFile letter)
   /\ stat letter_world "letter.pdf" = Some (File (PdfFile letter))
   /\ (exists w1, os_makedirs "out" true letter_world = Ok tt w1)
   /\ stat letter_world (join "out" (basename "letter.pdf")) <> Some Dir)
  /\ exists w',
       process_file true true true false "letter.pdf" "DRAFT" (Some "out") true
         letter_world = Ok true w'
       /\ stat w' "out" = Some Dir
       /\ stat w' "out/letter.pdf"
          = Some (File (watermarked false "DRAFT" (PdfFile letter)))
       /\ stat w' "letter.pdf" = Some (File (PdfFile letter)).
Proof.
  assert (H1 : loads true true true (lower (splitext "letter.pdf").2) (PdfFile letter))
    by (split; vm_compute; reflexivity).
  assert (H2 : stat letter_world "letter.pdf" = Some (File (PdfFile letter)))
    by (vm_compute; reflexivity).
  assert (H4 : stat letter_world (join "out" (basename "letter.pdf")) <> Some Dir)
    by (vm_compute; discriminate).
  destruct (os_makedirs "out" true letter_world) as [[] w1|e w1] eqn:H3;
    [|vm_compute in H3; discriminate H3].
  split; [repeat split; try done; by exists w1|].
  destruct (output_dir_mode_writes_into_directory true true true false "letter.pdf"
              "DRAFT" (Some "out") true "out" (PdfFile letter) letter_world w1
              eq_refl H1 H2 H3 H4)
    as (w' & E & Hdir & _ & Hout & _ & Horig & _).
  exists w'. repeat split; try done. apply Horig. vm_compute. discriminate.
Defined.

(** X12 at [notes.txt] with a new output directory. *)
Lemma unsupported_file_still_creates_output_dir_witness :
  (given (Some "out") = Some "out"
   /\ handler_for true true true false (lower (splitext "notes.txt").2) = None
   /\ stat notes_world "out" = None
   /\ exists w1, os_makedirs "out" true notes_world = Ok tt w1)
  /\ exists w',
       process_file true true true false "notes.txt" "DRAFT" (Some "out") false
         notes_world = Ok false w'
       /\ stat w' "out" = Some Dir.
Proof.
  destruct (os_makedirs "out" true notes_world) as [[] w1|e w1] eqn:H3;
    [|vm_compute in H3; discriminate H3].
  split; [repeat split; try done; by exists w1|].
  destruct (unsupported_file_still_creates_output_dir true true true false "notes.txt"
              "DRAFT" (Some "out") false "out" notes_world w1 eq_refl eq_refl H3)
    as (w' & E & _ & Hdir & _).
  by exists w'.
Defined.

(** X13 at [letter.pdf], without output directory and without
    [overwrite]. *)
Lemma success_means_output_exists_witness :
  exists w',
    process_file true true true false "letter.pdf" "DRAFT" None false letter_world
    = Ok true w'
    /\ exists c', stat w' (sibling_path "letter.pdf") = Some (File c').
Proof.
  destruct (process_file true true true false "letter.pdf" "DRAFT" None false
              letter_world) as [[|] w'|e w'] eqn:E;
    [|vm_compute in E; discriminate E|vm_compute in E; discriminate E].
  exists w'. split; [reflexivity|].
  exact (success_means_output_exists true true true false "letter.pdf" "DRAFT"
           None false letter_world w' E).
Defined.

(** X14 at a name that nothing bears. *)
Lemma missing_input_by_mode_witness :
  stat letter_world "nothing.pdf" = None
  /\ process_file true true true false "nothing.pdf" "DRAFT" None true letter_world
     = Raise FileNotFoundError letter_world
  /\ exists w',
       process_file true true true false "nothing.pdf" "DRAFT" None false letter_world
       = Ok false w'
       /\ fs w' = fs letter_world.
Proof.
  assert (H : stat letter_world "nothing.pdf" = None) by (vm_compute; reflexivity).
  split; [exact H|].
  destruct (missing_input_by_mode true true true false "nothing.pdf" "DRAFT" None
              letter_world H) as (Hover & Hsib & _).
  split; [by apply Hover|by apply Hsib].
Defined.

(** X15 at the example tree. *)
Lemma sibling_walk_always_tallies_witness :
  given None = None
  /\ exists res w',
       process_directory true true true false tree_listing "root" "DRAFT" None false
         tree_world = Ok res w'
       /\ success res + failed res = 2.
Proof.
  split; [reflexivity|].
  destruct (sibling_walk_always_tallies true true true false tree_listing "root"
              "DRAFT" None tree_world eq_refl)
    as (res & w' & E & Hsum).
  by exists res, w'.
Defined.

(** X16 at a listing with a text file, a hidden file, a lock file and a
    hidden directory. *)
Lemma walk_without_documents_does_nothing_witness :
  count_eligible
    (DirTree [(".git", DirTree [] ["x.pdf"])] ["c.txt"; ".hidden.xlsx"; "~$b.docx"]) = 0
  /\ process_directory true true true false
       (DirTree [(".git", DirTree [] ["x.pdf"])] ["c.txt"; ".hidden.xlsx"; "~$b.docx"])
       "root" "DRAFT" (Some "out") true tree_world
     = Ok (Results 0 0) tree_world.
Proof.
  split; [reflexivity|].
  apply (walk_without_documents_does_nothing true true true false). reflexivity.
Defined.

(** X17 at the example tree. *)
Lemma no_library_walk_fails_every_file_witness :
  (false = false /\ given None = None)
  /\ exists w',
       process_directory false false false false tree_listing "root" "DRAFT" None
         false tree_world = Ok (Results 0 2) w'
       /\ fs w' = fs tree_world.
Proof.
  split; [done|].
  destruct (no_library_walk_fails_every_file false false false false tree_listing
              "root" "DRAFT" None tree_world eq_refl eq_refl eq_refl eq_refl)
    as (w' & E & _ & Hfs).
  by exists w'.
Defined.

(** X18 at [root/a.pdf]. *)
Lemma walk_outputs_are_eligible_witness :
  (has sep "a.pdf" = false /\ eligible "a.pdf" = true)
  /\ exists f',
       resolve_paths "root/a.pdf" None false tree_world
       = Ok ("root/a.pdf", join "root" f') tree_world
       /\ f' <> "a.pdf"
       /\ eligible f' = true.
Proof.
  split; [split; reflexivity|].
  destruct (walk_outputs_are_eligible "root" "a.pdf" tree_world eq_refl eq_refl)
    as (f' & E & Hne & _ & _ & He).
  by exists f'.
Defined.

Lemma plain_sub : plain "sub".
Proof. repeat split; done. Defined.

(** X20 at [root/sub], below the output directory [out]. *)
Lemma output_directory_mirrors_the_tree_witness :
  (truthy "root" = true
   /\ isabs (cwd nested_world) = true
   /\ given (Some "out") = Some "out"
   /\ Forall plain ["sub"]
   /\ eligible "deep.docx" = true)
  /\ relpath "root/sub" "root" nested_world = Ok "sub" nested_world
  /\ key nested_world (join "out" "sub") = ["out"; "sub"].
Proof.
  assert (H1 : Forall plain ["sub"]) by (constructor; [exact plain_sub|constructor]).
  split; [by repeat split|].
  destruct (output_directory_mirrors_the_tree true true true false "root" "DRAFT"
              (Some "out") false "out" ["sub"] "deep.docx" (Results 0 0) nested_world
              eq_refl eq_refl eq_refl H1 eq_refl)
    as (rel_path & E & -> & Hkey & _).
  split; [exact E|exact Hkey].
Defined.

(** X21 at [root/sub/deep.docx], written below [out]. *)
Lemma file_lands_in_mirrored_directory_witness :
  (truthy "root" = true
   /\ isabs (cwd nested_world) = true
   /\ given (Some "out") = Some "out"
   /\ Forall plain ["sub"]
   /\ "root/sub" = foldl join "root" ["sub"]
   /\ "out/sub" = join "out" (join_list ["sub"])
   /\ has sep "deep.docx" = false
   /\ eligible "deep.docx" = true
   /\ loads true true true (lower (splitext "deep.docx").2) (DocxFile memo)
   /\ stat nested_world (join "root/sub" "deep.docx") = Some (File (DocxFile memo))
   /\ (exists w1, os_makedirs "out/sub" true nested_world = Ok tt w1)
   /\ stat nested_world (join "out/sub" "deep.docx") <> Some Dir
   /\ key nested_world (join "out/sub" "deep.docx")
      <> key nested_world (join "root/sub" "deep.docx"))
  /\ exists w',
       visit_file true true true false "root" "DRAFT" (Some "out") false "root/sub"
         "deep.docx" (Results 0 0) nested_world
       = Ok (Results 1 0) w'
       /\ stat w' "out/sub/deep.docx"
          = Some (File (watermarked false "DRAFT" (DocxFile memo)))
       /\ stat w' "root/sub/deep.docx" = Some (File (DocxFile memo)).
Proof.
  assert (H1 : Forall plain ["sub"]) by (constructor; [exact plain_sub|constructor]).
  assert (H2 : loads true true true (lower (splitext "deep.docx").2) (DocxFile memo))
    by (split; vm_compute; reflexivity).
  assert (H3 : stat nested_world (join "root/sub" "deep.docx")
               = Some (File (DocxFile memo))) by (vm_compute; reflexivity).
  assert (H5 : stat nested_world (join "out/sub" "deep.docx") <> Some Dir)
    by (vm_compute; discriminate).
  assert (H6 : key nested_world (join "out/sub" "deep.docx")
               <> key nested_world (join "root/sub" "deep.docx"))
    by (vm_compute; discriminate).
  destruct (os_makedirs "out/sub" true nested_world) as [[] w1|e w1] eqn:H4;
    [|vm_compute in H4; discriminate H4].
  split; [repeat split; try done; by exists w1|].
  destruct (file_lands_in_mirrored_directory true true true false "root" "DRAFT"
              (Some "out") false "out" ["sub"] "root/sub" "out/sub" "deep.docx"
              (DocxFile memo) (Results 0 0) nested_world w1
              eq_refl eq_refl eq_refl H1 eq_refl eq_refl eq_refl eq_refl
              H2 H3 H4 H5 H6)
    as (w' & E & _ & Hout & Horig & _).
  by exists w'.
Defined.

(** X22 at [root/a.pdf] in the example tree: a success. *)
Lemma default_turn_counts_by_validity_witness :
  (given None = None /\ has sep "a.pdf" = false /\ eligible "a.pdf" = true)
  /\ exists res' w',
       visit_file true true true false "root" "DRAFT" None false "root" "a.pdf"
         (Results 0 0) tree_world = Ok res' w'
       /\ res' = Results 1 0.
Proof.
  split; [by repeat split|].
  destruct (default_turn_counts_by_validity true true true false "root" "DRAFT" None
              "root" "a.pdf" (Results 0 0) tree_world eq_refl eq_refl eq_refl)
    as (res' & w' & E & _ & [[_ Hres]|[Hno _]]).
  - by exists res', w'.
  - exfalso. apply Hno. exists (PdfFile letter).
    split; [vm_compute; reflexivity|]. split; [by split|].
    split; vm_compute; [reflexivity|discriminate].
Defined.

(** X23 at the example tree, written below [out]. *)
Lemma overwrite_is_ignored_with_output_dir_witness :
  given (Some "out") = Some "out"
  /\ process_directory true true true false tree_listing "root" "DRAFT" (Some "out")
       true tree_world
     = process_directory true true true false tree_listing "root" "DRAFT" (Some "out")
         false tree_world.
Proof.
  split; [reflexivity|].
  exact (proj1 (proj2 (overwrite_is_ignored_with_output_dir true true true false
                         (Some "out") "out" "DRAFT" eq_refl))
           tree_listing "root" tree_world).
Defined.

(** X24: [watermark.py -t DRAFT nothing.pdf] where no such file is. *)
Lemma missing_target_touches_nothing_witness :
  (target_of (Arguments_ (Some "nothing.pdf") "DRAFT" None None false)
   = Some "nothing.pdf"
   /\ stat letter_world "nothing.pdf" = None)
  /\ run true true true false
       (Arguments_ (Some "nothing.pdf") "DRAFT" None None false) tree_listing
       letter_world = ExitStatus 1.
Proof.
  assert (H : stat letter_world "nothing.pdf" = None) by (vm_compute; reflexivity).
  split; [by split|].
  unfold run.
  by rewrite (missing_target_touches_nothing true true true false
                (Arguments_ (Some "nothing.pdf") "DRAFT" None None false)
                tree_listing letter_world "nothing.pdf" eq_refl H).
Defined.

(** X25: [watermark.py -t DRAFT letter.pdf]. *)
Lemma single_file_run_end_to_end_witness :
  (target_of (Arguments_ (Some "letter.pdf") "DRAFT" None None false)
   = Some "letter.pdf"
   /\ loads true true true (lower (splitext "letter.pdf").2) (PdfFile letter)
   /\ stat letter_world "letter.pdf" = Some (File (PdfFile letter))
   /\ writable letter_world (sibling_path "letter.pdf"))
  /\ exists w',
       main true true true false
         (Arguments_ (Some "letter.pdf") "DRAFT" None None false) tree_listing
         letter_world = Ok tt w'
       /\ stat w' "letter_watermarked.pdf"
          = Some (File (watermarked false "DRAFT" (PdfFile letter)))
       /\ stdout w' = ["✓ 水印添加完成"].
Proof.
  assert (H1 : loads true true true (lower (splitext "letter.pdf").2) (PdfFile letter))
    by (split; vm_compute; reflexivity).
  assert (H2 : stat letter_world "letter.pdf" = Some (File (PdfFile letter)))
    by (vm_compute; reflexivity).
  assert (H3 : writable letter_world (sibling_path "letter.pdf"))
    by (split; vm_compute; [reflexivity|discriminate]).
  split; [by repeat split|].
  destruct (single_file_run_end_to_end true true true false
              (Arguments_ (Some "letter.pdf") "DRAFT" None None false) tree_listing
              "letter.pdf" (PdfFile letter) letter_world
              eq_refl eq_refl eq_refl H1 H2 H3)
    as (w' & E & _ & Hsib & _ & _ & Hout).
  by exists w'.
Defined.

(** X26 at the walk of the example tree without output directory and
    without [overwrite]. *)
Lemma nothing_is_lost_outside_overwrite_witness :
  (false = false \/ given None <> None)
  /\ nothing_lost tree_world
       (final_world
          (process_directory true true true false tree_listing "root" "DRAFT" None
             false tree_world)).
Proof.
  split; [by left|].
  exact (proj1 (proj2 (nothing_is_lost_outside_overwrite true true true false
                         "DRAFT" None false (or_introl eq_refl)))
           tree_listing "root" tree_world).
Defined.

(** X27 at [ledger.xlsx]: a valid workbook, openpyxl installed, and the
    call with [overwrite] fails and puts the file back. *)
Lemma overwrite_never_marks_a_workbook_witness :
  (well_formed ledger_world = true
   /\ stat ledger_world "ledger.xlsx" = Some (File (XlsxFile ledger))
   /\ writable ledger_world ("ledger.xlsx" +:+ ".tmp")
   /\ lower (splitext "ledger.xlsx").2 = ".xlsx"
   /\ occurs ".tmp" "ledger.xlsx" = false)
  /\ exists w',
       process_file true true true false "ledger.xlsx" "DRAFT" None true ledger_world
       = Ok false w'
       /\ stat w' "ledger.xlsx" = Some (File (XlsxFile ledger))
       /\ stat w' "ledger.xlsx.tmp" = None.
Proof.
  assert (H0 : well_formed ledger_world = true) by (vm_compute; reflexivity).
  assert (H1 : stat ledger_world "ledger.xlsx" = Some (File (XlsxFile ledger)))
    by (vm_compute; reflexivity).
  assert (H2 : writable ledger_world ("ledger.xlsx" +:+ ".tmp"))
    by (split; vm_compute; [reflexivity|discriminate]).
  assert (H3 : lower (splitext "ledger.xlsx").2 = ".xlsx") by (vm_compute; reflexivity).
  assert (H4 : occurs ".tmp" "ledger.xlsx" = false) by (vm_compute; reflexivity).
  split; [exact (conj H0 (conj H1 (conj H2 (conj H3 H4))))|].
  destruct (overwrite_never_marks_a_workbook true true true false "ledger.xlsx" "DRAFT"
              (XlsxFile ledger) ledger_world H0 H1 H2 H3 H4)
    as (w' & E & Horig & Htmp & _).
  exists w'. split; [exact E|]. split; [exact Horig|exact Htmp].
Defined.

End Witnesses.

(** ** Checks of the path and system-call models *)

Module PathTests.
Import Str PosixPath.

Example lower_PDF : lower ".PDF" = ".pdf".
Proof. reflexivity. Qed.

Example splitext_plain : splitext "docs/a.pdf" = ("docs/a", ".pdf").
Proof. reflexivity. Qed.

Example splitext_hidden : splitext "docs/.hidden" = ("docs/.hidden", "").
Proof. reflexivity. Qed.

Example splitext_dotted_dir : splitext "v1.2/readme" = ("v1.2/readme", "").
Proof. reflexivity. Qed.

Example splitext_of_backup_name : splitext "a.pdf.tmp" = ("a.pdf", ".tmp").
Proof. reflexivity. Qed.

Example splitext_hidden_with_ext :
  splitext "root/.hidden.xlsx" = ("root/.hidden", ".xlsx").
Proof. reflexivity. Qed.

Example splitext_only_dots : splitext "..." = ("...", "").
Proof. reflexivity. Qed.

Example splitext_trailing_dot : splitext "a." = ("a", ".").
Proof. reflexivity. Qed.

Example lower_mixed : lower (splitext "Report.DocX").2 = ".docx".
Proof. reflexivity. Qed.

Example dirname_nested : dirname "docs/sub/a.pdf" = "docs/sub".
Proof. reflexivity. Qed.

Example dirname_bare : dirname "a.pdf" = "".
Proof. reflexivity. Qed.

Example join_trailing_sep : join "out/" "a.pdf" = "out/a.pdf".
Proof. reflexivity. Qed.

Example join_curdir : join "out" "." = "out/.".
Proof. reflexivity. Qed.

Example normpath_double_slash : normpath "//a/b/" = "//a/b".
Proof. reflexivity. Qed.

Example normpath_empty : normpath "" = ".".
Proof. reflexivity. Qed.

Example replace_adjacent : replace "a.tmp.tmp" ".tmp" "" = "a".
Proof. reflexivity. Qed.

Example replace_in_directory : replace "x.tmp/a.pdf" ".tmp" "" = "x/a.pdf".
Proof. reflexivity. Qed.

Example occurs_tmp : occurs ".tmp" "report.tmp.pdf" = true.
Proof. reflexivity. Qed.

Example basename_nested : basename "docs/sub/a.pdf" = "a.pdf".
Proof. reflexivity. Qed.

Example split_nested : PosixPath.split "out/sub" = ("out", "sub").
Proof. reflexivity. Qed.

Example split_root : PosixPath.split "/x" = ("/", "x").
Proof. reflexivity. Qed.

Example join_plain : join "out" "a.pdf" = "out/a.pdf".
Proof. reflexivity. Qed.

Example join_absolute : join "out" "/a.pdf" = "/a.pdf".
Proof. reflexivity. Qed.

Example normpath_dots : normpath "/w//docs/./sub/../a.pdf" = "/w/docs/a.pdf".
Proof. reflexivity. Qed.

Example normpath_rel : normpath "../x/.." = "..".
Proof. reflexivity. Qed.

Example replace_all : replace "a.tmp.b.tmp" ".tmp" "" = "a.b".
Proof. reflexivity. Qed.

Example replace_none : replace "docs/a.pdf" ".tmp" "" = "docs/a.pdf".
Proof. reflexivity. Qed.

Example split_str : Str.split sep "a//b" = ["a"; ""; "b"].
Proof. reflexivity. Qed.

End PathTests.

Module SysTests.
Import OS Sys.

Definition w0 : world :=
  World "/w" (<[ ["w"; "docs"; "a.pdf"] := File (Bytes "x") ]>
              (<[ ["w"; "docs"] := Dir ]> (<[ ["w"] := Dir ]> ∅))) [].

Example stat_rel : stat w0 "docs/./a.pdf" = Some (File (Bytes "x")).
Proof. vm_compute. reflexivity. Qed.

Example rename_then_stat :
  match os_rename "docs/a.pdf" "docs/a.pdf.tmp" w0 with
  | Ok _ w => stat w "docs/a.pdf" = None /\ stat w "/w/docs/a.pdf.tmp" = Some (File (Bytes "x"))
  | Raise _ _ => False
  end.
Proof. vm_compute. split; reflexivity. Qed.

Example makedirs_parents :
  match os_makedirs "out/sub/." true w0 with
  | Ok _ w => stat w "out" = Some Dir /\ stat w "out/sub" = Some Dir
  | Raise _ _ => False
  end.
Proof. vm_compute. split; reflexivity. Qed.

Example makedirs_over_file :
  match os_makedirs "docs/a.pdf/sub" true w0 with
  | Ok _ _ => False
  | Raise e _ => e = NotADirectoryError
  end.
Proof. vm_compute. reflexivity. Qed.

Example relpath_sub :
  match relpath "docs/sub/x" "docs" w0 with
  | Ok r _ => r = "sub/x"
  | Raise _ _ => False
  end.
Proof. vm_compute. reflexivity. Qed.

Example relpath_up :
  match relpath "/w/other" "docs" w0 with
  | Ok r _ => r = "../other"
  | Raise _ _ => False
  end.
Proof. vm_compute. reflexivity. Qed.

Example remove_missing :
  match os_remove "docs/b.pdf" w0 with
  | Ok _ _ => False
  | Raise e _ => e = FileNotFoundError
  end.
Proof. vm_compute. reflexivity. Qed.

Example rename_onto_directory :
  match os_rename "docs/a.pdf" "docs" w0 with
  | Ok _ _ => False
  | Raise e _ => e = IsADirectoryError
  end.
Proof. vm_compute. reflexivity. Qed.

Example write_without_directory :
  match write_file "nowhere/a.pdf" (Bytes "x") w0 with
  | Ok _ _ => False
  | Raise e _ => e = FileNotFoundError
  end.
Proof. vm_compute. reflexivity. Qed.

Example relpath_same :
  match relpath "docs" "docs" w0 with
  | Ok r _ => r = "."
  | Raise _ _ => False
  end.
Proof. vm_compute. reflexivity. Qed.

End SysTests.
